(** * InstaDocs: the completeness-aware answering pipeline

  A shallow embedding of the Python back end
  ([backend/services/*.py], [backend/providers/*.py],
  [backend/models/schemas.py]) and the properties of its specification.

  Conventions of the embedding.
  - Python [str] is [string]; the operations used by the code
    ([split], [in], [startswith], slicing, [lower], [join]) are written
    out in [PyStr] with Python's semantics.
  - Python [float] is an exact rational ([Q]); [nan] and the infinities
    are outside the model.  The [:.2f] format and [round(_, 2)] round to
    hundredths, ties to even.
  - A Python exception is a value of [exn]; a call that may raise
    returns [result].
  - External services (the remote providers, the Chroma collection, the
    OpenAI and sentence-transformers embedders, the file system) are
    inputs: their replies are arguments of the functions that call them. *)

From Stdlib Require Import String Ascii List NArith ZArith QArith Qround Lia Lqa Bool.
From Stdlib Require Import DecimalString DecimalNat DecimalN Permutation.
Import ListNotations.
Open Scope string_scope.

(* ================================================================== *)
(** * Python strings *)
(* ================================================================== *)

Module PyStr.

(** The line feed, Python's ["\n"]. *)
Definition nl : string := String (ascii_of_nat 10) "".

(** The double quote character as a string. *)
Definition dq : string := String (ascii_of_nat 34) "".

(** [s.startswith(p)] *)
Definition startswith (p s : string) : bool := prefix p s.

(** [s.find(sub)], with [None] for Python's [-1]. *)
Fixpoint find (sub s : string) : option nat :=
  match s with
  | "" => if prefix sub "" then Some 0%nat else None
  | String _ s' =>
      if prefix sub s then Some 0%nat else option_map S (find sub s')
  end.

(** [sub in s] *)
Definition contains (sub s : string) : bool :=
  match find sub s with Some _ => true | None => false end.

(** [s[n:]] *)
Fixpoint drop (n : nat) (s : string) : string :=
  match n, s with
  | O, _ => s
  | S _, "" => ""
  | S k, String _ s' => drop k s'
  end.

(** [s[:n]] *)
Fixpoint take (n : nat) (s : string) : string :=
  match n, s with
  | O, _ => ""
  | S _, "" => ""
  | S k, String c s' => String c (take k s')
  end.

(** [s.split(sep)] for a non-empty [sep]: the pieces between the
    successive non-overlapping occurrences of [sep], scanning from the
    left.  [skip] counts the characters of a matched separator that are
    still to be passed over. *)
Fixpoint split_from (sep : string) (skip : nat) (s : string) : list string :=
  match s with
  | "" => [""]
  | String c s' =>
      match skip with
      | S k => split_from sep k s'
      | O =>
          if prefix sep s
          then "" :: split_from sep (String.length sep - 1) s'
          else match split_from sep 0 s' with
               | p :: ps => String c p :: ps
               | [] => [String c ""]
               end
      end
  end.

Definition split (sep s : string) : list string := split_from sep 0 s.

(** Python's ASCII white space, as [str.split()] without argument sees it. *)
Definition is_space (c : ascii) : bool :=
  let n := nat_of_ascii c in
  ((9 <=? n) && (n <=? 13) || (n =? 32) || ((28 <=? n) && (n <=? 31)))%nat.

Fixpoint ws_go (s : string) : string * list string :=
  match s with
  | "" => ("", [])
  | String c s' =>
      let (w, ws) := ws_go s' in
      if is_space c
      then ("", match w with "" => ws | _ => w :: ws end)
      else (String c w, ws)
  end.

(** [s.split()] *)
Definition split_ws (s : string) : list string :=
  let (w, ws) := ws_go s in
  match w with "" => ws | _ => w :: ws end.

Definition lower_char (c : ascii) : ascii :=
  let n := nat_of_ascii c in
  if ((65 <=? n) && (n <=? 90))%nat then ascii_of_nat (n + 32) else c.

(** [s.lower()], on the ASCII letters. *)
Fixpoint lower (s : string) : string :=
  match s with
  | "" => ""
  | String c s' => String (lower_char c) (lower s')
  end.

(** [sep.join(l)] *)
Fixpoint join (sep : string) (l : list string) : string :=
  match l with
  | [] => ""
  | [x] => x
  | x :: r => x ++ sep ++ join sep r
  end.

(** [x in l] for a list of strings. *)
Definition mem (x : string) (l : list string) : bool :=
  existsb (String.eqb x) l.

(** [l[-1]] of a list that [split] returned (never empty). *)
Definition last_piece (l : list string) : string := List.last l "".

(** [l[0]] of a list that [split] returned. *)
Definition first_piece (l : list string) : string := List.hd "" l.

(** [str(n)] for a natural number. *)
Definition str_of_nat (n : nat) : string :=
  NilEmpty.string_of_uint (Nat.to_uint n).

Definition str_of_N (n : N) : string :=
  NilEmpty.string_of_uint (N.to_uint n).

(** Rounding to the nearest integer, ties to even. *)
Definition round_half_even (x : Q) : Z :=
  let f := Qfloor x in
  let r := (x - inject_Z f)%Q in
  match (r ?= 1 # 2)%Q with
  | Lt => f
  | Gt => (f + 1)%Z
  | Eq => if Z.even f then f else (f + 1)%Z
  end.

(** The value in hundredths that [:.2f] prints and [round(_, 2)] returns. *)
Definition hundredths (x : Q) : Z := round_half_even (x * 100)%Q.

Definition round2 (x : Q) : Q := hundredths x # 100.

(** A number below 100 on two digits. *)
Definition two_digits (f : N) : string :=
  str_of_N (f / 10) ++ str_of_N (f mod 10).

(** [f"{x:.2f}"]: sign (kept when a negative value rounds to zero, as
    Python does), integer part, point, two decimals. *)
Definition format_2f (x : Q) : string :=
  let a := Z.to_N (Z.abs (hundredths x)) in
  (if Qlt_le_dec x 0 then "-" else "")
    ++ str_of_N (a / 100) ++ "." ++ two_digits (a mod 100).

Fixpoint pow10 (n : nat) : positive :=
  match n with
  | O => 1%positive
  | S k => (10 * pow10 k)%positive
  end.

Definition digits_value (s : string) : option N :=
  option_map N.of_uint (NilEmpty.uint_of_string s).

(** Digits, and optionally a point and more digits; at least one digit. *)
Definition float_unsigned (body : string) : option Q :=
  let '(ip, fp) :=
    match find "." body with
    | Some n => (take n body, drop (S n) body)
    | None => (body, "")
    end in
  if (String.length ip + String.length fp =? 0)%nat then None else
  match digits_value ip, digits_value fp with
  | Some i, Some f =>
      let den := pow10 (String.length fp) in
      Some ((Z.of_N i * Z.pos den + Z.of_N f)%Z # den)
  | _, _ => None
  end.

(** [float(s)] on the plain decimal notation: an optional sign, then
    digits with an optional point.  [None] stands for [ValueError].
    The other notations Python's [float] reads (exponents, [inf],
    [nan], underscores, surrounding blanks) are not produced by
    [format_2f] and are read as errors. *)
Definition py_float (s : string) : option Q :=
  match s with
  | String "-" r => option_map Qopp (float_unsigned r)
  | String "+" r => float_unsigned r
  | _ => float_unsigned s
  end.

(** [sum(l)] on floats. *)
Definition py_sum (l : list Q) : Q := fold_left Qplus l 0.

(** Python's [min(a, b)]: [b] only when it is strictly smaller. *)
Definition py_min (a b : Q) : Q := if Qlt_le_dec b a then b else a.

(** [a > b] on floats. *)
Definition gtb (a b : Q) : bool := if Qlt_le_dec b a then true else false.

(** [a < b] on floats. *)
Definition ltb (a b : Q) : bool := if Qlt_le_dec a b then true else false.

End PyStr.

(* ================================================================== *)
(** * Exceptions *)
(* ================================================================== *)

(** The exceptions the modelled code raises or lets through. *)
Inductive exn : Type :=
| KeyError (key : string)           (* [d[key]] on a missing key *)
| ValidationError (field : string)  (* pydantic rejects a field *)
| ValueError (msg : string)
| ProviderError                     (* a remote provider call raised *)
| SaveError                         (* "Failed to save feedback to file" *)
| EmbeddingError.                   (* an embedder raised *)

Inductive result (A : Type) : Type :=
| Ok (a : A)
| Raise (e : exn).
Arguments Ok {A} a.
Arguments Raise {A} e.

Definition bind {A B : Type} (r : result A) (k : A -> result B) : result B :=
match r with
| Ok a => k a
| Raise e => Raise e
end.

Notation "'do' x <- r ; k" := (bind r (fun x => k))
(at level 10, x name, r at level 100, k at level 200).

(** [d[key]]: the value, or [KeyError]. *)
Definition item {A : Type} (key : string) (v : option A) : result A :=
match v with
| Some a => Ok a
| None => Raise (KeyError key)
end.

Definition raised {A : Type} (r : result A) : bool :=
match r with Ok _ => false | Raise _ => true end.

(* ================================================================== *)
(** * backend/models/schemas.py *)
(* ================================================================== *)

Module Schemas.

Record EnrichmentSuggestion : Type := {
  missing_topic : string;
  suggested_action : string;
  priority : string
}.

Record AnswerResponse : Type := {
  query_id : option string;
  answer : string;
  confidence : Q;
  sources_used : list string;
  is_complete : bool;
  missing_information : option (list string);
  enrichment_suggestions : option (list EnrichmentSuggestion);
  reasoning : string
}.

(** [Field(pattern="^(high|medium|low)$")] *)
Definition priority_ok (p : string) : bool :=
  String.eqb p "high" || String.eqb p "medium" || String.eqb p "low".

(** [Field(ge=0, le=1)] *)
Definition confidence_ok (c : Q) : bool := Qle_bool 0 c && Qle_bool c 1.

End Schemas.

(* ================================================================== *)
(** * The dictionaries providers return *)
(* ================================================================== *)

(** A provider's reply is a Python [dict].  A field is [Some v] when the
  key is there with a value of the type the schema asks for, and [None]
  when the key is missing. *)
Module Raw.

Record suggestion : Type := {
  missing_topic : option string;
  suggested_action : option string;
  priority : option string
}.

Record t : Type := {
  answer : option string;
  confidence : option Q;
  sources_used : option (list string);
  is_complete : option bool;
  missing_information : option (list string);
  enrichment_suggestions : option (list suggestion);
  reasoning : option string
}.

End Raw.

(* ================================================================== *)
(** * backend/providers/fallback_provider.py *)
(* ================================================================== *)

Module FallbackProvider.
Import PyStr.

Definition CONTEXT_MARK : string := Eval cbv in ("Context:" ++ nl).
Definition QUESTION_MARK : string := Eval cbv in (nl ++ nl ++ "Question:").

(** The accumulators of the loop over the lines of the context. *)
Record scan : Type := {
  sources : list string;
  avg_relevance : Q;
  relevance_count : nat
}.

(** One turn of [for line in lines].  The body runs in a [try] whose
    handler is [pass]: an [IndexError] of [split(...)[1]] or a
    [ValueError] of [float] ends the turn and keeps what the turn had
    already changed. *)
Definition scan_line (st : scan) (line : string) : scan :=
  if startswith "[Source" line then
    match nth_error (split ": " line) 1 with
    | None => st
    | Some after_colon =>
        let source := first_piece (split " - " after_colon) in
        let st1 :=
          if mem source (sources st) then st
          else {| sources := List.app (sources st) [source];
                  avg_relevance := avg_relevance st;
                  relevance_count := relevance_count st |} in
        if contains "Relevance:" line then
          match nth_error (split "Relevance: " line) 1 with
          | None => st1
          | Some after_rel =>
              let rel_str := first_piece (split ")" after_rel) in
              match py_float rel_str with
              | None => st1
              | Some v =>
                  {| sources := sources st1;
                     avg_relevance := (avg_relevance st1 + v)%Q;
                     relevance_count := S (relevance_count st1) |}
              end
          end
        else st1
    end
  else st.

Definition scan_lines (lines : list string) : scan :=
  fold_left scan_line lines
    {| sources := []; avg_relevance := 0; relevance_count := 0 |}.

(** [if relevance_count > 0: avg_relevance /= relevance_count] *)
Definition mean_relevance (st : scan) : Q :=
  match relevance_count st with
  | O => avg_relevance st
  | S _ => (avg_relevance st / inject_Z (Z.of_nat (relevance_count st)))%Q
  end.

Definition context_text_of (user_message : string) : string :=
  first_piece (split QUESTION_MARK
                 (last_piece (split CONTEXT_MARK user_message))).

Definition query_of (user_message : string) : string :=
  last_piece (split "Question: " user_message).

Definition no_context_result (query : string) : Raw.t :=
  {| Raw.answer := Some
       ("I couldn't find relevant information in the knowledge base to answer: '"
          ++ query ++ "'. Please upload documents related to this topic.");
     Raw.confidence := Some (1 # 10);
     Raw.sources_used := Some [];
     Raw.is_complete := Some false;
     Raw.missing_information := Some ["Information about: " ++ query];
     Raw.enrichment_suggestions := Some
       [ {| Raw.missing_topic := Some query;
            Raw.suggested_action := Some
              ("Upload documents containing information about " ++ query);
            Raw.priority := Some "high" |} ];
     Raw.reasoning := Some "No relevant documents found in the knowledge base." |}.

(** [FallbackProvider.generate_completion]; [system_prompt] is not read. *)
Definition generate_completion (system_prompt user_message : string) : Raw.t :=
  let context_text := context_text_of user_message in
  let query := query_of user_message in
  if contains "No relevant context found" context_text then
    no_context_result query
  else
    let st := scan_lines (split nl context_text) in
    let avg := mean_relevance st in
    let confidence := py_min avg (65 # 100) in
    let is_complete := gtb confidence (5 # 10) in
    let answer :=
      if gtb confidence (4 # 10) then
        let a := "Based on the available documents:" ++ nl ++ nl
                   ++ take 800 context_text in
        if (800 <? String.length context_text)%nat
        then a ++ "..." ++ nl ++ nl
               ++ "(More information available in source documents)"
        else a
      else
        "I found some information, but it may not be highly relevant to: '"
          ++ query ++ "'" in
    let missing_info :=
      if is_complete then []
      else ["More comprehensive information on this topic"] in
    let suggestions :=
      if is_complete then []
      else [ {| Raw.missing_topic := Some query;
                Raw.suggested_action := Some
                  "Upload more detailed documents about this specific topic";
                Raw.priority := Some "medium" |} ] in
    {| Raw.answer := Some answer;
       Raw.confidence := Some confidence;
       Raw.sources_used := Some (sources st);
       Raw.is_complete := Some is_complete;
       Raw.missing_information :=
         match missing_info with [] => None | _ => Some missing_info end;
       Raw.enrichment_suggestions :=
         match suggestions with [] => None | _ => Some suggestions end;
       Raw.reasoning := Some
         ("Rule-based response (relevance: " ++ format_2f avg
            ++ "). Configure an LLM provider for better results.") |}.

End FallbackProvider.

(* ================================================================== *)
(** * backend/services/llm_service.py *)
(* ================================================================== *)

Module LLMService.
Import PyStr.

(** An entry of the retrieval context, as [EmbeddingService.search]
    builds it.  [page] is optional: [_format_context] reads it with
    [ctx.get('page', 'N/A')]. *)
Record ContextEntry : Type := {
  content : string;
  source : string;
  relevance_score : Q;
  chunk_id : string;
  doc_id : string;
  page : option string
}.

(** The active provider: a remote backend, seen through the reply of its
    [generate_completion] to a system prompt and a user message, or the
    rule-based provider ([LLMProviderFactory.create_from_env] returns it
    when no remote backend is configured). *)
Inductive reply : Type :=
| Raises
| Returns (r : Raw.t).

Inductive provider : Type :=
| Remote (generate : string -> string -> reply)
| RuleBased.

Definition SYSTEM_PROMPT : string :=
  "You are an intelligent knowledge base assistant. Your responsibilities:" ++ nl ++ nl
  ++ "1. Answer questions using ONLY the provided context from the knowledge base" ++ nl
  ++ "2. Assess whether you have sufficient information (provide confidence score 0-1)" ++ nl
  ++ "3. Identify specific information gaps when answer is incomplete" ++ nl
  ++ "4. Suggest concrete enrichment actions to fill those gaps" ++ nl ++ nl
  ++ "IMPORTANT RULES:" ++ nl
  ++ "- If context is relevant and complete: confidence > 0.7, is_complete = true" ++ nl
  ++ "- If context is partial or vague: confidence 0.4-0.7, is_complete = false" ++ nl
  ++ "- If context is irrelevant or missing: confidence < 0.4, is_complete = false" ++ nl
  ++ "- Always cite which sources you used" ++ nl
  ++ "- Be honest about uncertainties" ++ nl ++ nl
  ++ "Respond in valid JSON format with these exact fields:" ++ nl
  ++ "{" ++ nl
  ++ "  " ++ dq ++ "answer" ++ dq ++ ": " ++ dq ++ "Your detailed answer here" ++ dq ++ "," ++ nl
  ++ "  " ++ dq ++ "confidence" ++ dq ++ ": 0.85," ++ nl
  ++ "  " ++ dq ++ "sources_used" ++ dq ++ ": [" ++ dq ++ "document1.pdf" ++ dq ++ ", "
         ++ dq ++ "document2.txt" ++ dq ++ "]," ++ nl
  ++ "  " ++ dq ++ "is_complete" ++ dq ++ ": true," ++ nl
  ++ "  " ++ dq ++ "missing_information" ++ dq ++ ": [" ++ dq ++ "specific gap 1" ++ dq ++ ", "
         ++ dq ++ "specific gap 2" ++ dq ++ "]," ++ nl
  ++ "  " ++ dq ++ "enrichment_suggestions" ++ dq ++ ": [" ++ nl
  ++ "    {" ++ nl
  ++ "      " ++ dq ++ "missing_topic" ++ dq ++ ": " ++ dq ++ "specific topic name" ++ dq ++ "," ++ nl
  ++ "      " ++ dq ++ "suggested_action" ++ dq ++ ": " ++ dq
         ++ "concrete action to get this info" ++ dq ++ "," ++ nl
  ++ "      " ++ dq ++ "priority" ++ dq ++ ": " ++ dq ++ "high" ++ dq ++ nl
  ++ "    }" ++ nl
  ++ "  ]," ++ nl
  ++ "  " ++ dq ++ "reasoning" ++ dq ++ ": " ++ dq
         ++ "Explain why you're confident or not" ++ dq ++ nl
  ++ "}".

Definition NO_CONTEXT : string :=
  "No relevant context found in the knowledge base.".

(** [ctx.get('page', 'N/A')] *)
Definition page_text (ctx : ContextEntry) : string :=
  match page ctx with Some p => p | None => "N/A" end.

(** One element of [formatted]: the header line, the chunk, a line feed. *)
Definition format_entry (idx : nat) (ctx : ContextEntry) : string :=
  "[Source " ++ str_of_nat idx ++ ": " ++ source ctx
    ++ " - Page " ++ page_text ctx
    ++ " (Relevance: " ++ format_2f (relevance_score ctx) ++ ")]" ++ nl
    ++ content ctx ++ nl.

(** [for idx, ctx in enumerate(context, idx)] *)
Fixpoint format_entries (idx : nat) (context : list ContextEntry) : list string :=
  match context with
  | [] => []
  | ctx :: rest => format_entry idx ctx :: format_entries (S idx) rest
  end.

Definition _format_context (context : list ContextEntry) : string :=
  match context with
  | [] => NO_CONTEXT
  | _ => join nl (format_entries 1 context)
  end.

Definition user_message_of (query : string) (context : list ContextEntry) : string :=
  "Context:" ++ nl ++ _format_context context ++ nl ++ nl ++ "Question: " ++ query.

(** The [EnrichmentSuggestion] built from the keys of one dictionary. *)
Definition parse_suggestion (s : Raw.suggestion) : result Schemas.EnrichmentSuggestion :=
  match Raw.missing_topic s, Raw.suggested_action s, Raw.priority s with
  | Some t, Some a, Some p =>
      if Schemas.priority_ok p
      then Ok {| Schemas.missing_topic := t;
                 Schemas.suggested_action := a;
                 Schemas.priority := p |}
      else Raise (ValidationError "priority")
  | None, _, _ => Raise (ValidationError "missing_topic")
  | _, None, _ => Raise (ValidationError "suggested_action")
  | _, _, None => Raise (ValidationError "priority")
  end.

Fixpoint parse_suggestions (l : list Raw.suggestion)
  : result (list Schemas.EnrichmentSuggestion) :=
  match l with
  | [] => Ok []
  | s :: rest =>
      do x <- parse_suggestion s;
      do xs <- parse_suggestions rest;
      Ok (x :: xs)
  end.

(** The part of [generate_answer] after the provider call: the raw
    dictionary is turned into an [AnswerResponse]. *)
Definition build_response (uuid4 : string) (raw : Raw.t)
  : result Schemas.AnswerResponse :=
  do enrichment_suggestions <-
    match Raw.enrichment_suggestions raw with
    | None | Some [] => Ok None
    | Some l => do xs <- parse_suggestions l; Ok (Some xs)
    end;
  do answer <- item "answer" (Raw.answer raw);
  do confidence <- item "confidence" (Raw.confidence raw);
  do sources_used <- item "sources_used" (Raw.sources_used raw);
  do is_complete <- item "is_complete" (Raw.is_complete raw);
  do reasoning <- item "reasoning" (Raw.reasoning raw);
  if Schemas.confidence_ok confidence then
    Ok {| Schemas.query_id := Some uuid4;
          Schemas.answer := answer;
          Schemas.confidence := confidence;
          Schemas.sources_used := sources_used;
          Schemas.is_complete := is_complete;
          Schemas.missing_information := Raw.missing_information raw;
          Schemas.enrichment_suggestions := enrichment_suggestions;
          Schemas.reasoning := reasoning |}
  else Raise (ValidationError "confidence").

(** [self.provider.generate_completion(...)], with the [try] around it:
    when the call raises, the rule-based provider answers instead. *)
Definition provider_result (p : provider) (user_message : string) : Raw.t :=
  match p with
  | RuleBased => FallbackProvider.generate_completion SYSTEM_PROMPT user_message
  | Remote generate =>
      match generate SYSTEM_PROMPT user_message with
      | Returns r => r
      | Raises => FallbackProvider.generate_completion SYSTEM_PROMPT user_message
      end
  end.

(** [LLMService.generate_answer]; [uuid4] is the value of
    [str(uuid.uuid4())] for this call. *)
Definition generate_answer (p : provider) (uuid4 : string)
    (query : string) (context : list ContextEntry)
  : result Schemas.AnswerResponse :=
  let user_message := user_message_of query context in
  build_response uuid4 (provider_result p user_message).

End LLMService.

(* ================================================================== *)
(** * backend/services/embedding_service.py *)
(* ================================================================== *)

Module EmbeddingService.
Import PyStr.

(** An embedding vector. *)
Definition vector : Type := list Q.

(** Chroma metadata, a [dict] from strings to strings. *)
Definition metadata : Type := list (string * string).

(** [d.get(key, default)] *)
Fixpoint get (key default : string) (d : metadata) : string :=
  match d with
  | [] => default
  | (k, v) :: rest => if String.eqb k key then v else get key default rest
  end.

(** ** The vector index *)

(** What the collection stores for a chunk: [collection.add] is given
    the identifier, the embedding, the text and the metadata. *)
Record IndexEntry : Type := {
  entry_id : string;
  embedding : vector;
  document : string;
  entry_metadata : metadata
}.

(** What [collection.query] returns for one query embedding with
    [include=["documents", "metadatas", "distances"]]: one inner list
    per query embedding. *)
Record QueryResult : Type := {
  documents : list (list string);
  metadatas : list (list metadata);
  distances : list (list Q)
}.

Fixpoint insert_ranked (x : Q * IndexEntry) (l : list (Q * IndexEntry))
  : list (Q * IndexEntry) :=
  match l with
  | [] => [x]
  | y :: r =>
      if Qle_bool (fst y) (fst x) then y :: insert_ranked x r else x :: l
  end.

(** Nearest first; of two entries at the same distance the one inserted
    first stays first. *)
Definition rank (l : list (Q * IndexEntry)) : list (Q * IndexEntry) :=
  fold_left (fun acc x => insert_ranked x acc) l [].

(** Modelled from the spec: [collection.query] belongs to Chroma, a
    library outside the repository.  Section 4.3 gives its contract: a
    query returns the [n_results] entries nearest to the query vector by
    cosine distance, ties broken by insertion order, and at most as many
    as are stored.  The distance itself is an argument,
    [cosine_distance]. *)
Definition collection_query (cosine_distance : vector -> vector -> Q)
    (index : list IndexEntry) (query_embedding : vector) (n_results : nat)
  : QueryResult :=
  let nearest :=
    firstn n_results
      (rank (map (fun e => (cosine_distance query_embedding (embedding e), e))
               index)) in
  {| documents := [map (fun p => document (snd p)) nearest];
     metadatas := [map (fun p => entry_metadata (snd p)) nearest];
     distances := [map fst nearest] |}.

(** ** [search] *)

(** [zip(a, b, c)] *)
Fixpoint zip3 {A B C : Type} (a : list A) (b : list B) (c : list C)
  : list (A * B * C) :=
  match a, b, c with
  | x :: a', y :: b', z :: c' => (x, y, z) :: zip3 a' b' c'
  | _, _, _ => []
  end.

(** [similarity = 1 - (distance / 2)] *)
Definition similarity (distance : Q) : Q := (1 - distance / 2)%Q.

Definition context_entry (doc : string) (md : metadata) (distance : Q)
  : LLMService.ContextEntry :=
  {| LLMService.content := doc;
     LLMService.source := get "source" "unknown" md;
     LLMService.relevance_score := similarity distance;
     LLMService.chunk_id := get "chunk_id" "unknown" md;
     LLMService.doc_id := get "doc_id" "unknown" md;
     LLMService.page := Some (get "page" "unknown" md) |}.

(** The formatting loop of [search], on the reply of the collection.
    [results["metadatas"][0]] and [results["distances"][0]] raise
    [IndexError] on an empty outer list. *)
Definition format_results (results : QueryResult)
  : result (list LLMService.ContextEntry) :=
  match documents results with
  | [] => Ok []
  | docs :: _ =>
      if (0 <? List.length docs)%nat then
        match metadatas results, distances results with
        | mds :: _, ds :: _ =>
            Ok (map (fun t => match t with
                              | (doc, md, distance) => context_entry doc md distance
                              end)
                  (zip3 docs mds ds))
        | _, _ => Raise (KeyError "0")
        end
      else Ok []
  end.

(** [search(query, top_k)], given the embedding of the query. *)
Definition search (cosine_distance : vector -> vector -> Q)
    (index : list IndexEntry) (query_embedding : result vector) (top_k : nat)
  : result (list LLMService.ContextEntry) :=
  do q <- query_embedding;
  format_results (collection_query cosine_distance index q top_k).

(** ** The embedder *)

(** The fields of the service that [_generate_embedding] reads and
    writes: the flag, whether the OpenAI client exists, and whether the
    attribute [embedding_model] has been set. *)
Record embedder : Type := {
  use_openai : bool;
  openai_client : bool;
  embedding_model : bool
}.

(** What the outside world does during one call: the remote
    [embeddings.create], the loading of the local model by
    [_init_sentence_transformers], and the local [encode].  [None] and
    [false] stand for a raised exception. *)
Record world : Type := {
  remote_create : option vector;
  local_init : bool;
  local_encode : option vector
}.

Record outcome : Type := {
  after : embedder;
  returned : result vector;
  called_remote : bool;
  remote_failed : bool
}.

(** [self.embedding_model.encode(text)]: an [AttributeError] when the
    model was never loaded. *)
Definition encode (e : embedder) (w : world) : result vector :=
  if embedding_model e then
    match local_encode w with
    | Some v => Ok v
    | None => Raise EmbeddingError
    end
  else Raise EmbeddingError.

Definition _generate_embedding (e : embedder) (w : world) : outcome :=
  if use_openai e && openai_client e then
    match remote_create w with
    | Some v =>
        {| after := e; returned := Ok v;
           called_remote := true; remote_failed := false |}
    | None =>
        (* except Exception: fall back to sentence-transformers *)
        if negb (embedding_model e) && negb (local_init w) then
          (* [_init_sentence_transformers] re-raises: the flag is not
             reached *)
          {| after := e; returned := Raise EmbeddingError;
             called_remote := true; remote_failed := true |}
        else
          let e1 := {| use_openai := false;
                       openai_client := openai_client e;
                       embedding_model := true |} in
          {| after := e1; returned := encode e1 w;
             called_remote := true; remote_failed := true |}
    end
  else
    {| after := e; returned := encode e w;
       called_remote := false; remote_failed := false |}.

(** The calls of one instance, in order, with the outcome of each. *)
Fixpoint run (e : embedder) (ws : list world) : list outcome :=
  match ws with
  | [] => []
  | w :: rest =>
      let o := _generate_embedding e w in
      o :: run (after o) rest
  end.

(** The state [__init__] leaves when the key is accepted and the test
    call to OpenAI succeeds: the local model is not loaded. *)
Definition init_remote : embedder :=
  {| use_openai := true; openai_client := true; embedding_model := false |}.

(** The state [__init__] leaves otherwise, when the local model loads. *)
Definition init_local : embedder :=
  {| use_openai := false; openai_client := false; embedding_model := true |}.

End EmbeddingService.

(* ================================================================== *)
(** * Files *)
(* ================================================================== *)

(** The files the services persist their state to.  A file holds either
  the complete serialization of a value or, after a write that failed
  part way, only its first characters. *)
Module Files.

Inductive file (A : Type) : Type :=
| Written (a : A)
| Torn (a : A) (chars : nat).
Arguments Written {A} a.
Arguments Torn {A} a chars.

Definition fs (A : Type) : Type := string -> option (file A).

Definition empty {A : Type} : fs A := fun _ => None.

Definition put {A : Type} (path : string) (f : option (file A)) (d : fs A) : fs A :=
  fun p => if String.eqb p path then f else d p.

(** Where a save can fail. *)
Inductive fault : Type :=
| NoFault
| FailOpen                   (* [open(path, 'w')] raises *)
| FailWrite (written : nat)  (* [json.dump] raises after [written] characters *)
| FailReplace.               (* [Path.replace] raises *)

(** [with open(path, 'w') as f: json.dump(data, f)]: opening truncates
    the file, the dump then writes into it.  The boolean tells whether
    an exception left the block. *)
Definition open_and_dump {A : Type} (path : string) (data : A)
    (ft : fault) (d : fs A) : fs A * bool :=
  match ft with
  | FailOpen => (d, true)
  | FailWrite n => (put path (Some (Torn data n)) d, true)
  | NoFault | FailReplace => (put path (Some (Written data)) d, false)
  end.

(** [src.replace(dst)]: the rename that replaces [dst] in one step. *)
Definition replace {A : Type} (src dst : string) (ft : fault) (d : fs A)
  : fs A * bool :=
  match ft with
  | FailReplace => (d, true)
  | _ => (put src None (put dst (d src) d), false)
  end.

(** [json.load] of a file: [JSONDecodeError] on a torn one. *)
Definition load {A : Type} (path : string) (d : fs A) : option (option A) :=
  match d path with
  | None => None
  | Some (Written a) => Some (Some a)
  | Some (Torn _ _) => Some None
  end.

End Files.

(* ================================================================== *)
(** * backend/services/feedback_service.py *)
(* ================================================================== *)

Module FeedbackService.
Import PyStr Files.

Record FeedbackEntry : Type := {
  feedback_id : Z;
  query_id : string;
  rating : Z;
  feedback_text : option string;
  query : option string;
  answer : option string;
  confidence : option Q;
  timestamp : string
}.

(** A Python value passed as [rating]. *)
Inductive pyval : Type :=
| PyInt (z : Z)
| PyFloat (q : Q)
| PyStr (s : string)
| PyNone.

Record service : Type := {
  storage_path : string;
  temp_path : string;          (* [storage_path.with_suffix('.tmp')] *)
  feedback_data : list FeedbackEntry;
  disk : fs (list FeedbackEntry)
}.

Definition with_data (s : service) (l : list FeedbackEntry) : service :=
  {| storage_path := storage_path s; temp_path := temp_path s;
     feedback_data := l; disk := disk s |}.

Definition with_disk (s : service) (d : fs (list FeedbackEntry)) : service :=
  {| storage_path := storage_path s; temp_path := temp_path s;
     feedback_data := feedback_data s; disk := d |}.

(** [_save_feedback]: dump to the temporary file, then replace the
    target with it; any exception is caught and [False] returned. *)
Definition _save_feedback (s : service) (ft : fault) : service * bool :=
  let (d1, raised1) := open_and_dump (temp_path s) (feedback_data s) ft (disk s) in
  if raised1 then (with_disk s d1, false)
  else
    let (d2, raised2) := replace (temp_path s) (storage_path s) ft d1 in
    if raised2 then (with_disk s d2, false)
    else (with_disk s d2, true).

(** [store_feedback]; [now] is [datetime.now().isoformat()]. *)
Definition store_feedback (s : service) (now : string) (ft : fault)
    (query_id : string) (rating : pyval)
    (feedback_text query answer : option string) (confidence : option Q)
  : service * result FeedbackEntry :=
  match rating with
  | PyInt r =>
      if ((r <? 1) || (5 <? r))%Z then
        (s, Raise (ValueError "Rating must be an integer between 1 and 5"))
      else
        let feedback_entry :=
          {| feedback_id := Z.of_nat (List.length (feedback_data s)) + 1;
             query_id := query_id;
             rating := r;
             feedback_text := feedback_text;
             query := query;
             answer := answer;
             confidence := confidence;
             timestamp := now |} in
        let s1 := with_data s (List.app (feedback_data s) [feedback_entry]) in
        let (s2, saved) := _save_feedback s1 ft in
        if saved then (s2, Ok feedback_entry)
        else
          (* Rollback if save failed: [self.feedback_data.pop()] *)
          (with_data s2 (removelast (feedback_data s2)), Raise SaveError)
  | _ => (s, Raise (ValueError "Rating must be an integer between 1 and 5"))
  end.

(** [delete_feedback]: the result of [_save_feedback] is not looked at. *)
Definition delete_feedback (s : service) (ft : fault) (id : Z) : service * bool :=
  let initial_length := List.length (feedback_data s) in
  let kept := filter (fun f => negb (feedback_id f =? id)%Z) (feedback_data s) in
  let s1 := with_data s kept in
  if (List.length kept <? initial_length)%nat then
    (fst (_save_feedback s1 ft), true)
  else (s1, false).

(** ** Statistics *)

Record stats : Type := {
  total_feedback : nat;
  average_rating : Q;
  rating_distribution : list (string * nat);
  low_rated_count : nat;
  high_rated_count : option nat;    (* absent from the reply for an empty history *)
  suggestions : list string
}.

Definition count_rating (i : Z) (ratings : list Z) : nat :=
  List.length (filter (Z.eqb i) ratings).

(** [Counter(words)]: each word with its number of occurrences, in the
    order of first occurrence. *)
Fixpoint tally (w : string) (c : list (string * nat)) : list (string * nat) :=
  match c with
  | [] => [(w, 1%nat)]
  | (k, n) :: rest =>
      if String.eqb k w then (k, S n) :: rest else (k, n) :: tally w rest
  end.

Definition Counter (words : list string) : list (string * nat) :=
  fold_left (fun c w => tally w c) words [].

Fixpoint insert_by_count (x : string * nat) (l : list (string * nat))
  : list (string * nat) :=
  match l with
  | [] => [x]
  | y :: r =>
      if (snd x <=? snd y)%nat then y :: insert_by_count x r else x :: l
  end.

(** [c.most_common(n)]: by decreasing count, equal counts in the order
    of first occurrence. *)
Definition most_common (n : nat) (c : list (string * nat)) : list (string * nat) :=
  firstn n (fold_left (fun acc x => insert_by_count x acc) c []).

Definition DEFAULT_SUGGESTION : string :=
  "System is performing well - keep the knowledge base updated".

Definition _generate_suggestions (low_rated : list FeedbackEntry) : list string :=
  let suggestions :=
    if (0 <? List.length low_rated)%nat then
      let confidences :=
        flat_map (fun f => match confidence f with
                           | Some c => [c] | None => [] end) low_rated in
      let s1 :=
        match confidences with
        | [] => []
        | _ =>
            let avg_confidence :=
              (py_sum confidences / inject_Z (Z.of_nat (List.length confidences)))%Q in
            if ltb avg_confidence (4 # 10) then
              ["Low confidence detected in poor answers - upload more relevant documents"]
            else if gtb avg_confidence (7 # 10) then
              ["High confidence but low ratings - consider improving LLM prompts or using a better model"]
            else []
        end in
      let s2 :=
        if (3 <? List.length low_rated)%nat then
          List.app s1
            ["Multiple low-rated answers (" ++ str_of_nat (List.length low_rated)
               ++ ") - review knowledge base coverage"]
        else s1 in
      let low_rated_queries :=
        flat_map (fun f => match query f with
                           | Some "" | None => []
                           | Some q => [lower q]
                           end) low_rated in
      match low_rated_queries with
      | [] => s2
      | _ =>
          let words := flat_map split_ws low_rated_queries in
          let common_words := most_common 3 (Counter words) in
          let topics :=
            map fst (filter (fun wc => (1 <? snd wc)%nat
                                       && (3 <? String.length (fst wc))%nat)
                       common_words) in
          match topics with
          | [] => s2
          | _ => List.app s2
                   ["Common topics in low-rated queries: " ++ join ", " topics
                      ++ " - consider adding documents on these topics"]
          end
      end
    else [] in
  match suggestions with
  | [] => [DEFAULT_SUGGESTION]
  | _ => suggestions
  end.

Definition get_feedback_stats (feedback_data : list FeedbackEntry) : stats :=
  match feedback_data with
  | [] =>
      {| total_feedback := 0;
         average_rating := 0;
         rating_distribution := map (fun i => (str_of_nat i, 0%nat)) (seq 1 5);
         low_rated_count := 0;
         high_rated_count := None;
         suggestions := [] |}
  | _ =>
      let ratings := map rating feedback_data in
      let avg_rating :=
        (inject_Z (fold_left Z.add ratings 0%Z)
           / inject_Z (Z.of_nat (List.length ratings)))%Q in
      let low_rated := filter (fun f => (rating f <=? 2)%Z) feedback_data in
      {| total_feedback := List.length feedback_data;
         average_rating := round2 avg_rating;
         rating_distribution :=
           map (fun i => (str_of_nat i, count_rating (Z.of_nat i) ratings)) (seq 1 5);
         low_rated_count := List.length low_rated;
         high_rated_count :=
           Some (List.length (filter (fun f => (4 <=? rating f)%Z) feedback_data));
         suggestions := _generate_suggestions low_rated |}
  end.

End FeedbackService.

(* ================================================================== *)
(** * backend/services/document_service.py *)
(* ================================================================== *)

Module DocumentService.
Import Files.

Record DocumentRecord : Type := {
  document_id : string;
  filename : string;
  upload_date : string;
  num_chunks : nat;
  file_size : nat;
  file_path : string
}.

(** [self.metadata], a [dict] from document ids to records, in insertion
    order. *)
Definition metadata_dict : Type := list (string * DocumentRecord).

Fixpoint set_item (k : string) (v : DocumentRecord) (d : metadata_dict) : metadata_dict :=
  match d with
  | [] => [(k, v)]
  | (k', v') :: rest =>
      if String.eqb k' k then (k, v) :: rest else (k', v') :: set_item k v rest
  end.

Definition del_item (k : string) (d : metadata_dict) : metadata_dict :=
  filter (fun kv => negb (String.eqb (fst kv) k)) d.

Definition has_key (k : string) (d : metadata_dict) : bool :=
  existsb (fun kv => String.eqb (fst kv) k) d.

Record service : Type := {
  metadata_file : string;
  metadata : metadata_dict;
  disk : fs metadata_dict
}.

(** [_save_metadata]: the dump goes straight into [metadata_file]; an
    exception is printed and not raised, and nothing is returned. *)
Definition _save_metadata (s : service) (ft : fault) : service :=
  {| metadata_file := metadata_file s;
     metadata := metadata s;
     disk := fst (open_and_dump (metadata_file s) (metadata s) ft (disk s)) |}.

(** The end of [save_and_process], once the file is saved and split into
    [num_chunks] chunks: the record is added and the metadata saved. *)
Definition store_metadata (s : service) (ft : fault) (r : DocumentRecord)
  : service * result string :=
  let s1 := {| metadata_file := metadata_file s;
               metadata := set_item (document_id r) r (metadata s);
               disk := disk s |} in
  (_save_metadata s1 ft, Ok (document_id r)).

(** [delete_document], without the removal of the document's directory. *)
Definition delete_document (s : service) (ft : fault) (doc_id : string)
  : service * bool :=
  if has_key doc_id (metadata s) then
    let s1 := {| metadata_file := metadata_file s;
                 metadata := del_item doc_id (metadata s);
                 disk := disk s |} in
    (_save_metadata s1 ft, true)
  else (s, false).

End DocumentService.

(* ================================================================== *)
(** * Vocabulary of the statements *)
(* ================================================================== *)

Module Spec.
Import PyStr LLMService.

(** ** Strings *)

(** No proper end of [sub] begins [rest]: an occurrence of [sub] that
    starts before [rest] cannot run into it. *)
Definition no_overlap (sub rest : string) : bool :=
  forallb (fun k => negb (prefix (drop k sub) rest))
    (seq 1 (String.length sub - 1)).

Fixpoint all_chars (P : ascii -> bool) (s : string) : bool :=
  match s with
  | "" => true
  | String c s' => P c && all_chars P s'
  end.

(** The last character of [s] is [c]. *)
Fixpoint ends_with_char (c : ascii) (s : string) : bool :=
  match s with
  | "" => false
  | String d "" => Ascii.eqb d c
  | String _ s' => ends_with_char c s'
  end.

Definition is_digit (c : ascii) : bool :=
  let n := nat_of_ascii c in ((48 <=? n) && (n <=? 57))%nat.

(** The characters [format_2f] prints. *)
Definition is_numeric (c : ascii) : bool :=
  is_digit c || Ascii.eqb c "." || Ascii.eqb c "-".

(** ** The retrieval context *)

(** The mean of a list of scores; 0 for no score. *)
Definition mean (l : list Q) : Q :=
  match l with
  | [] => 0
  | _ => (py_sum l / inject_Z (Z.of_nat (List.length l)))%Q
  end.

(** The relevance scores as [_format_context] prints them, on two
    decimals. *)
Definition printed_scores (context : list ContextEntry) : list Q :=
  map (fun e => round2 (relevance_score e)) context.

(** The first line of an entry of the formatted context. *)
Definition header (idx : nat) (e : ContextEntry) : string :=
  "[Source " ++ str_of_nat idx ++ ": " ++ source e ++ " - Page " ++ page_text e
    ++ " (Relevance: " ++ format_2f (relevance_score e) ++ ")]".

(** The mean of the printed scores, capped at 0.65. *)
Definition context_confidence (ctx : list ContextEntry) : Q :=
  py_min (mean (printed_scores ctx)) (65 # 100).

(** The header of an entry stays one line with one score field: the
    source label and the page hint hold no colon and no line feed. *)
Definition header_clean (e : ContextEntry) : bool :=
  negb (contains ":" (source e)) && negb (contains nl (source e))
  && negb (contains ":" (page_text e)) && negb (contains nl (page_text e)).

(** No line of the chunk looks like a header. *)
Definition content_clean (e : ContextEntry) : bool :=
  forallb (fun line => negb (startswith "[Source" line))
    (split nl (content e)).

Definition clean_entry (e : ContextEntry) : bool :=
  header_clean e && content_clean e.

(** The text that follows the first line of the user message. *)
Definition message_body (query : string) (context : list ContextEntry) : string :=
  _format_context context ++ nl ++ nl ++ "Question: " ++ query.

(** The markers the rule-based provider cuts the message at occur only
    where [generate_answer] put them, and a context that is not empty
    does not contain the sentence that stands for an empty one. *)
Definition well_delimited (query : string) (context : list ContextEntry) : bool :=
  negb (contains FallbackProvider.CONTEXT_MARK (message_body query context))
  && negb (contains FallbackProvider.QUESTION_MARK (_format_context context))
  && forallb clean_entry context
  && match context with
     | [] => true
     | _ => negb (contains "No relevant context found" (_format_context context))
     end.

(** ** Answers *)

Definition hedge (query : string) : string :=
  "I found some information, but it may not be highly relevant to: '"
    ++ query ++ "'".

Definition generic_suggestion (query : string) : Raw.suggestion :=
  {| Raw.missing_topic := Some query;
     Raw.suggested_action := Some
       "Upload more detailed documents about this specific topic";
     Raw.priority := Some "medium" |}.

(** Absent or empty. *)
Definition nothing {A : Type} (l : option (list A)) : Prop :=
  l = None \/ l = Some [].

(** The shape invariant of a verdict: a complete answer lists no
    missing information and no enrichment suggestion. *)
Definition shape_invariant (resp : Schemas.AnswerResponse) : Prop :=
  Schemas.is_complete resp = true ->
  nothing (Schemas.missing_information resp)
  /\ nothing (Schemas.enrichment_suggestions resp).

(** The same on a provider's dictionary. *)
Definition raw_shape_invariant (raw : Raw.t) : Prop :=
  Raw.is_complete raw = Some true ->
  nothing (Raw.missing_information raw)
  /\ nothing (Raw.enrichment_suggestions raw).

(** The suggestions of a provider's dictionary, none when the key is
    missing. *)
Definition raw_suggestions (raw : Raw.t) : list Raw.suggestion :=
  match Raw.enrichment_suggestions raw with
  | Some l => l
  | None => []
  end.

(** The confidence the specification describes: the mean of the
    relevance scores themselves, capped at 0.65. *)
Definition mean_score_confidence (ctx : list ContextEntry) : Q :=
  py_min (mean (map relevance_score ctx)) (65 # 100).

(** An integer from 1 to 5. *)
Definition valid_rating (r : FeedbackService.pyval) : bool :=
  match r with
  | FeedbackService.PyInt z => (1 <=? z)%Z && (z <=? 5)%Z
  | _ => false
  end.

(** "A hedge plus a truncated context excerpt": the answer ends with
    the first [n] characters of the context text, for some [n] that is
    not zero. *)
Definition hedge_plus_excerpt (answer context_text : string) : Prop :=
  exists (h : string) (n : nat),
    (0 < n)%nat /\ answer = h ++ take n context_text.

End Spec.

(* ================================================================== *)
(** * Inputs of the examples *)
(* ================================================================== *)

Module Examples.
Import LLMService.

Definition chunk (text label : string) (score : Q) : ContextEntry :=
  {| content := text; source := label; relevance_score := score;
     chunk_id := "0"; doc_id := "doc-1"; page := Some "1" |}.

(** A chunk whose printed relevance is 0.50. *)
Definition borderline_chunk : ContextEntry :=
  chunk "alpha beta" "a.txt" (504 # 1000).

Definition relevant_chunk : ContextEntry :=
  chunk "The plan costs ten euros a month." "pricing.txt" (9 # 10).

Definition weak_chunk : ContextEntry :=
  chunk "Opening hours: nine to five." "hours.txt" (3 # 10).

(** A chunk with a line that looks like a header of the context. *)
Definition forged_chunk : ContextEntry :=
  chunk "[Source 9: x - y (Relevance: -9.00)]" "notes.txt" (9 # 10).

(** A chunk that quotes the sentence standing for an empty context. *)
Definition quoting_chunk : ContextEntry :=
  chunk "The assistant says: No relevant context found." "faq.txt" (9 # 10).

(** A reply that is valid JSON and has none of the required keys. *)
Definition shapeless_reply : Raw.t :=
  {| Raw.answer := None; Raw.confidence := None; Raw.sources_used := None;
     Raw.is_complete := None; Raw.missing_information := None;
     Raw.enrichment_suggestions := None; Raw.reasoning := None |}.

(** A reply that claims to be complete and lists a gap and a
    suggestion all the same. *)
Definition overclaiming_reply : Raw.t :=
  {| Raw.answer := Some "The capital is Paris.";
     Raw.confidence := Some (9 # 10);
     Raw.sources_used := Some ["atlas.txt"];
     Raw.is_complete := Some true;
     Raw.missing_information := Some ["population figures"];
     Raw.enrichment_suggestions := Some
       [ {| Raw.missing_topic := Some "population";
            Raw.suggested_action := Some "Upload a census report";
            Raw.priority := Some "low" |} ];
     Raw.reasoning := Some "The atlas names the capital." |}.

(** ** The vector index *)

(** A stand-in for the cosine distance on vectors of one coordinate:
    0 for equal coordinates, 2 otherwise. *)
Definition toy_distance (a b : EmbeddingService.vector) : Q :=
  if Qeq_bool (hd 0 a) (hd 0 b) then 0 else 2.

Definition toy_index : list EmbeddingService.IndexEntry :=
  [ {| EmbeddingService.entry_id := "doc-1_0";
       EmbeddingService.embedding := [1];
       EmbeddingService.document := "The plan costs ten euros a month.";
       EmbeddingService.entry_metadata :=
         [("doc_id", "doc-1"); ("chunk_id", "0");
          ("source", "pricing.txt"); ("page", "1")] |} ].

(** ** The embedder *)

(** No network and no local model on disk. *)
Definition offline : EmbeddingService.world :=
  {| EmbeddingService.remote_create := None;
     EmbeddingService.local_init := false;
     EmbeddingService.local_encode := None |}.

Definition online : EmbeddingService.world :=
  {| EmbeddingService.remote_create := Some [1];
     EmbeddingService.local_init := true;
     EmbeddingService.local_encode := Some [1] |}.

(** The remote service is down and the local model loads. *)
Definition remote_down : EmbeddingService.world :=
  {| EmbeddingService.remote_create := None;
     EmbeddingService.local_init := true;
     EmbeddingService.local_encode := Some [1] |}.

(** ** Feedback *)

Definition fresh_feedback : FeedbackService.service :=
  {| FeedbackService.storage_path := "storage/feedback/feedback.json";
     FeedbackService.temp_path := "storage/feedback/feedback.tmp";
     FeedbackService.feedback_data := [];
     FeedbackService.disk := Files.empty |}.

(** A submission of rating [r], saved without fault. *)
Definition submit (s : FeedbackService.service) (r : Z)
  : FeedbackService.service * result FeedbackService.FeedbackEntry :=
  FeedbackService.store_feedback s "2025-01-01T10:00:00" Files.NoFault
    "query-1" (FeedbackService.PyInt r) None None None None.

Definition rated (id r : Z) : FeedbackService.FeedbackEntry :=
  {| FeedbackService.feedback_id := id;
     FeedbackService.query_id := "query-1";
     FeedbackService.rating := r;
     FeedbackService.feedback_text := None;
     FeedbackService.query := Some "What does the plan cost?";
     FeedbackService.answer := None;
     FeedbackService.confidence := Some (8 # 10);
     FeedbackService.timestamp := "2025-01-01T10:00:00" |}.

(** ** Documents *)

Definition document (id name : string) : DocumentService.DocumentRecord :=
  {| DocumentService.document_id := id;
     DocumentService.filename := name;
     DocumentService.upload_date := "2025-01-01T10:00:00";
     DocumentService.num_chunks := 3;
     DocumentService.file_size := 2048;
     DocumentService.file_path := "/srv/storage/documents/" ++ id ++ "/" ++ name |}.

Definition metadata_path : string := "/srv/storage/documents/metadata.json".

(** A service with one document, its metadata saved. *)
Definition one_document : DocumentService.service :=
  let md := [("doc-1", document "doc-1" "pricing.txt")] in
  {| DocumentService.metadata_file := metadata_path;
     DocumentService.metadata := md;
     DocumentService.disk :=
       Files.put metadata_path (Some (Files.Written md)) Files.empty |}.

(** A feedback service with one entry, saved. *)
Definition one_feedback : FeedbackService.service :=
  fst (submit fresh_feedback 4).

End Examples.

(* ================================================================== *)
(** * backend/providers: the providers and their factory *)
(* ================================================================== *)

Module Providers.
Import PyStr.

(** [os.environ], read with [os.getenv]. *)
Definition environ : Type := list (string * string).

Fixpoint getenv (name : string) (env : environ) : option string :=
  match env with
  | [] => None
  | (k, v) :: rest => if String.eqb k name then Some v else getenv name rest
  end.

(** The truth value of an optional string: [None] and [""] are false. *)
Definition truthy (s : option string) : bool :=
  match s with
  | None | Some "" => false
  | Some _ => true
  end.

Definition upper_char (c : ascii) : ascii :=
  let n := nat_of_ascii c in
  if ((97 <=? n) && (n <=? 122))%nat then ascii_of_nat (n - 32) else c.

(** [s.upper()], on the ASCII letters. *)
Fixpoint upper (s : string) : string :=
  match s with
  | "" => ""
  | String c s' => String (upper_char c) (upper s')
  end.

Inductive kind : Type :=
| OpenAI
| Gemini
| Geni
| RuleBasedFallback.

(** The fields of a provider object that the code reads: the class, the
    key, [is_initialized], whether [client] is set, and for OpenAI the
    model. *)
Record provider : Type := {
  provider_kind : kind;
  api_key : option string;
  is_initialized : bool;
  client : bool;
  model : string
}.

(** What lies outside the repository when providers are made and
    called: whether the [openai] package imports, whether the clients
    construct, and the replies of the chat services, already through
    [json.loads] ([Raises] for an API error and for content that is not
    JSON).  [GeniProvider] is imported from [geni_provider.py], which is
    not part of the sources: whether an instance made with a key is
    available, its name and its replies are taken from the world. *)
Record world : Type := {
  openai_imports : bool;
  openai_client_constructs : bool;
  openai_chat : string -> string -> LLMService.reply;
  gemini_imports : bool;
  gemini_client_constructs : bool;
  gemini_chat : string -> string -> LLMService.reply;
  geni_available : option string -> bool;
  geni_name : string;
  geni_chat : string -> string -> LLMService.reply
}.

(** [BaseLLMProvider.is_available] *)
Definition is_available (p : provider) : bool := is_initialized p.

(** [generate_completion] of each class.  The OpenAI and Gemini
    providers raise [RuntimeError] when they are not initialized or have
    no client. *)
Definition generate_completion (w : world) (p : provider)
    (system_prompt user_message : string) : LLMService.reply :=
  match provider_kind p with
  | OpenAI =>
      if negb (is_initialized p) || negb (client p) then LLMService.Raises
      else openai_chat w system_prompt user_message
  | Gemini =>
      if negb (is_initialized p) || negb (client p) then LLMService.Raises
      else gemini_chat w system_prompt user_message
  | Geni => geni_chat w system_prompt user_message
  | RuleBasedFallback =>
      LLMService.Returns
        (FallbackProvider.generate_completion system_prompt user_message)
  end.

(** [BaseLLMProvider.test_connection]: a test completion; any exception
    gives [False]. *)
Definition test_connection (w : world) (p : provider) : bool :=
  match generate_completion w p "You are a helpful assistant."
          "Say 'test' in one word." with
  | LLMService.Returns _ => true
  | LLMService.Raises => false
  end.

(** [OpenAIProvider(api_key, model)]: the constructor of the base class
    sets [is_initialized = False] and calls [_initialize]. *)
Definition OpenAIProvider (w : world) (key : option string) (model : string)
  : provider :=
  let p0 := {| provider_kind := OpenAI; api_key := key;
               is_initialized := false; client := false; model := model |} in
  match key with
  | None => p0
  | Some k =>
      if negb (truthy key) || negb (startswith "sk-" k) then p0
      else if negb (openai_imports w) then p0
      else if negb (openai_client_constructs w) then p0
      else
        let p1 := {| provider_kind := OpenAI; api_key := key;
                     is_initialized := false; client := true; model := model |} in
        if test_connection w p1
        then {| provider_kind := OpenAI; api_key := key;
                is_initialized := true; client := true; model := model |}
        else p1
  end.

(** [GeminiProvider(api_key)] *)
Definition GeminiProvider (w : world) (key : option string) : provider :=
  let p0 := {| provider_kind := Gemini; api_key := key;
               is_initialized := false; client := false; model := "" |} in
  if negb (truthy key) then p0
  else if negb (gemini_imports w) then p0
  else if negb (gemini_client_constructs w) then p0
  else {| provider_kind := Gemini; api_key := key;
          is_initialized := true; client := true; model := "" |}.

(** [GeniProvider(api_key)], as far as the factory looks at it. *)
Definition GeniProvider (w : world) (key : option string) : provider :=
  {| provider_kind := Geni; api_key := key;
     is_initialized := geni_available w key; client := true; model := "" |}.

(** [FallbackProvider()]: always available. *)
Definition FallbackProvider : provider :=
  {| provider_kind := RuleBasedFallback; api_key := None;
     is_initialized := true; client := false; model := "" |}.

(** [get_provider_name] *)
Definition get_provider_name (w : world) (p : provider) : string :=
  match provider_kind p with
  | OpenAI => "OpenAI (" ++ model p ++ ")"
  | Gemini => "Google Gemini"
  | Geni => geni_name w
  | RuleBasedFallback => "Rule-Based Fallback"
  end.

(** The keyword arguments [create_provider] passes on: each is given or
    not. *)
Record kwargs : Type := {
  kw_api_key : option (option string);
  kw_model : option string
}.

(** [LLMProviderFactory.create_provider(provider_type, **kwargs)].  A
    keyword the class does not take is a [TypeError], caught like every
    other exception; [None] is returned for it, for an unknown type and
    for a provider that is not available.  The factory itself passes
    [model] to the OpenAI provider only; [GeniProvider] is taken not to
    accept it, like [GeminiProvider]. *)
Definition create_provider (w : world) (provider_type : string) (kw : kwargs)
  : option provider :=
  let key := match kw_api_key kw with Some k => k | None => None end in
  let made : option provider :=
    let t := lower provider_type in
    if String.eqb t "openai" then
      Some (OpenAIProvider w key
              (match kw_model kw with Some m => m | None => "gpt-3.5-turbo" end))
    else if String.eqb t "gemini" then
      match kw_model kw with
      | Some _ => None
      | None => Some (GeminiProvider w key)
      end
    else if String.eqb t "geni" then
      match kw_model kw with
      | Some _ => None
      | None => Some (GeniProvider w key)
      end
    else if String.eqb t "fallback" then
      match kw_api_key kw, kw_model kw with
      | None, None => Some FallbackProvider
      | _, _ => None
      end
    else None in
  match made with
  | Some p => if is_available p then Some p else None
  | None => None
  end.

(** [LLMProviderFactory.create_from_env()] *)
Definition create_from_env (w : world) (env : environ) : provider :=
  let openai_key := getenv "OPENAI_API_KEY" env in
  let try_openai :=
    match openai_key with
    | Some k =>
        if truthy openai_key && startswith "sk-" k then
          create_provider w "openai"
            {| kw_api_key := Some openai_key;
               kw_model := Some (match getenv "OPENAI_MODEL" env with
                                 | Some m => m
                                 | None => "gpt-3.5-turbo"
                                 end) |}
        else None
    | None => None
    end in
  match try_openai with
  | Some p => p
  | None =>
      let google_key := getenv "GOOGLE_API_KEY" env in
      let try_gemini :=
        if truthy google_key then
          create_provider w "gemini"
            {| kw_api_key := Some google_key; kw_model := None |}
        else None in
      match try_gemini with
      | Some p => p
      | None =>
          let geni_key := getenv "GENI_API_KEY" env in
          let try_geni :=
            if truthy geni_key then
              create_provider w "geni"
                {| kw_api_key := Some geni_key; kw_model := None |}
            else None in
          match try_geni with
          | Some p => p
          | None => FallbackProvider
          end
      end
  end.

(** [LLMProviderFactory.get_all_available_providers()]: the key of each
    type is read from [<TYPE>_API_KEY]. *)
Definition get_all_available_providers (w : world) (env : environ)
  : list provider :=
  let available :=
    flat_map
      (fun provider_type =>
         let api_key := getenv (upper provider_type ++ "_API_KEY") env in
         if truthy api_key then
           match create_provider w provider_type
                   {| kw_api_key := Some api_key; kw_model := None |} with
           | Some p => [p]
           | None => []
           end
         else [])
      ["openai"; "gemini"; "geni"] in
  List.app available [FallbackProvider].

(** ** The provider of [LLMService] *)

(** The provider as [generate_answer] sees it. *)
Definition active (w : world) (p : provider) : LLMService.provider :=
  match provider_kind p with
  | RuleBasedFallback => LLMService.RuleBased
  | _ => LLMService.Remote (generate_completion w p)
  end.

(** [LLMService.__init__(provider)]: [provider or create_from_env()]. *)
Definition LLMService_init (w : world) (env : environ)
    (given : option provider) : provider :=
  match given with
  | Some p => p
  | None => create_from_env w env
  end.

(** [LLMService.set_provider(provider)]: the new current provider. *)
Definition set_provider (current : provider) (given : option provider)
  : provider :=
  match given with
  | Some p => if is_available p then p else current
  | None => current
  end.

(** [LLMService.get_provider_info()] *)
Definition get_provider_info (w : world) (current : provider) : string * bool :=
  (get_provider_name w current, is_available current).

End Providers.

(* ================================================================== *)
(** * backend/services/feedback_service.py: loading and queries *)
(* ================================================================== *)

Module FeedbackQueries.
Import Files FeedbackService.

(** [_load_feedback]: the history in the file; a file that does not
    parse is renamed to the backup path
    ([storage_path.with_suffix('.json.backup')]) and the history starts
    empty, as it does without a file. *)
Definition _load_feedback (storage_path backup_path : string)
    (d : fs (list FeedbackEntry)) : list FeedbackEntry * fs (list FeedbackEntry) :=
  match d storage_path with
  | None => ([], d)
  | Some (Written data) => (data, d)
  | Some (Torn data n) =>
      ([], put storage_path None (put backup_path (Some (Torn data n)) d))
  end.

(** [FeedbackService.__init__] on the files [d]. *)
Definition init (storage_path temp_path backup_path : string)
    (d : fs (list FeedbackEntry)) : service :=
  let (data, d') := _load_feedback storage_path backup_path d in
  {| storage_path := storage_path; temp_path := temp_path;
     feedback_data := data; disk := d' |}.

(** The service started again on the files another one left. *)
Definition restart (backup_path : string) (s : service) : service :=
  init (storage_path s) (temp_path s) backup_path (disk s).

(** [l[:limit]] *)
Definition slice_to {A : Type} (limit : Z) (l : list A) : list A :=
  if (0 <=? limit)%Z then firstn (Z.to_nat limit) l
  else firstn (List.length l - Z.to_nat (- limit)) l.

Fixpoint insert_newest (x : FeedbackEntry) (l : list FeedbackEntry)
  : list FeedbackEntry :=
  match l with
  | [] => [x]
  | y :: r =>
      if String.ltb (timestamp y) (timestamp x) then x :: l
      else y :: insert_newest x r
  end.

(** [sorted(l, key=timestamp, reverse=True)]: by decreasing timestamp,
    entries of equal timestamp in their order in [l]. *)
Definition sorted_newest_first (l : list FeedbackEntry) : list FeedbackEntry :=
  fold_left (fun acc x => insert_newest x acc) l [].

(** [get_recent_feedback(limit)] *)
Definition get_recent_feedback (s : service) (limit : Z) : list FeedbackEntry :=
  slice_to limit (sorted_newest_first (feedback_data s)).

(** [get_feedback_by_query_id(query_id)] *)
Definition get_feedback_by_query_id (s : service) (q : string)
  : option FeedbackEntry :=
  List.find (fun f => String.eqb (query_id f) q) (feedback_data s).

(** [get_all_feedback()] *)
Definition get_all_feedback (s : service) : list FeedbackEntry :=
  feedback_data s.

(** ** Vocabulary *)

(** The file holds the history the service has in memory. *)
Definition in_sync (backup_path : string) (s : service) : Prop :=
  fst (_load_feedback (storage_path s) backup_path (disk s)) = feedback_data s.

(** The identifiers are 1, 2, ..., in this order. *)
Definition consecutive_ids (l : list FeedbackEntry) : Prop :=
  map feedback_id l = map Z.of_nat (seq 1 (List.length l)).

(** Every rating is an integer from 1 to 5. *)
Definition ratings_valid (l : list FeedbackEntry) : Prop :=
  Forall (fun f => (1 <= rating f <= 5)%Z) l.

Definition coverage_message (n : nat) : string :=
  "Multiple low-rated answers (" ++ PyStr.str_of_nat n
    ++ ") - review knowledge base coverage".

End FeedbackQueries.

(* ================================================================== *)
(** * backend/services/embedding_service.py: storing and deleting *)
(* ================================================================== *)

Module VectorStore.
Import PyStr EmbeddingService.

(** [EmbeddingService.__init__], the choice of the embedder.  The key is
    [OPENAI_API_KEY]; [openai_imports] tells whether [from openai import
    OpenAI] succeeds, [client_constructs] whether [OpenAI(api_key=...)]
    does, [test_create] whether the test call [embeddings.create] does,
    [local_loads] whether [_init_sentence_transformers] does (its
    exception is raised again). *)
Definition init_embedder (openai_key : option string)
    (openai_imports client_constructs test_create local_loads : bool)
  : result embedder :=
  let local (client : bool) : result embedder :=
    if local_loads
    then Ok {| use_openai := false; openai_client := client;
               embedding_model := true |}
    else Raise EmbeddingError in
  match openai_key with
  | Some k =>
      if Providers.truthy openai_key && startswith "skt-" k then
        if negb openai_imports then local false
        else if negb client_constructs then local false
        else if test_create
             then Ok {| use_openai := true; openai_client := true;
                        embedding_model := false |}
             else local true
      else local false
  | None => local false
  end.

(** A chunk, a [Document] of langchain: its text and the two metadata
    keys the service reads, each present or not ([page] already as the
    text [str] gives). *)
Record Document : Type := {
  page_content : string;
  meta_source : option string;
  meta_page : option string
}.

(** The entry [embed_and_store] prepares for the chunk at [idx]. *)
Definition entry_of (document_id : string) (idx : nat) (chunk : Document)
    (embedding : vector) : IndexEntry :=
  {| entry_id := document_id ++ "_" ++ str_of_nat idx;
     embedding := embedding;
     document := page_content chunk;
     entry_metadata :=
       [("doc_id", document_id);
        ("chunk_id", str_of_nat idx);
        ("source", match meta_source chunk with
                   | Some s => s
                   | None => document_id
                   end);
        ("page", match meta_page chunk with
                 | Some p => p
                 | None => "unknown"
                 end)] |}.

(** The loop of [embed_and_store]: each chunk is embedded in turn, in the
    world of its call; an exception of the embedder ends the loop. *)
Fixpoint embed_chunks (e : embedder) (document_id : string) (idx : nat)
    (chunks : list (Document * world)) : embedder * result (list IndexEntry) :=
  match chunks with
  | [] => (e, Ok [])
  | (chunk, w) :: rest =>
      let o := _generate_embedding e w in
      match returned o with
      | Raise x => (after o, Raise x)
      | Ok v =>
          let (e', r) := embed_chunks (after o) document_id (S idx) rest in
          (e', match r with
               | Ok entries => Ok (entry_of document_id idx chunk v :: entries)
               | Raise x => Raise x
               end)
      end
  end.

(** Modelled from the spec: [collection.add] belongs to Chroma.  Section
    4.3 gives [insert(IndexEntry)]; the entries are added after the ones
    that are stored.  What Chroma does with a batch that is empty or
    repeats an identifier is not part of the model. *)
Definition collection_add (index : list IndexEntry) (entries : list IndexEntry)
  : list IndexEntry :=
  List.app index entries.

(** [embed_and_store(chunks, document_id)]: the embedder and the index
    afterwards, and the exception if one was raised. *)
Definition embed_and_store (e : embedder) (index : list IndexEntry)
    (chunks : list (Document * world)) (document_id : string)
  : embedder * list IndexEntry * option exn :=
  match embed_chunks e document_id 0 chunks with
  | (e', Ok entries) => (e', collection_add index entries, None)
  | (e', Raise x) => (e', index, Some x)
  end.

(** [d.get(key)] on Chroma metadata. *)
Fixpoint lookup (key : string) (d : metadata) : option string :=
  match d with
  | [] => None
  | (k, v) :: rest => if String.eqb k key then Some v else lookup key rest
  end.

(** Modelled from the spec: [collection.get(where={"doc_id": d})]
    belongs to Chroma; it selects the entries whose metadata has the key
    with this value. *)
Definition where_doc_id (document_id : string) (e : IndexEntry) : bool :=
  match lookup "doc_id" (entry_metadata e) with
  | Some v => String.eqb v document_id
  | None => false
  end.

(** Modelled from the spec: [collection.delete(ids=...)] belongs to
    Chroma; it removes the entries with these identifiers. *)
Definition collection_delete (ids : list string) (index : list IndexEntry)
  : list IndexEntry :=
  filter (fun e => negb (mem (entry_id e) ids)) index.

(** [delete_document_chunks(document_id)] *)
Definition delete_document_chunks (index : list IndexEntry) (document_id : string)
  : list IndexEntry :=
  match map entry_id (filter (where_doc_id document_id) index) with
  | [] => index
  | ids => collection_delete ids index
  end.

(** [get_collection_stats()]: the count and the name of the embedding
    model. *)
Definition get_collection_stats (e : embedder) (index : list IndexEntry)
  : nat * string :=
  (List.length index,
   if use_openai e then "OpenAI (text-embedding-3-small)"
   else "sentence-transformers (all-MiniLM-L6-v2)").

(** ** Vocabulary *)

(** The states [__init__] and [_generate_embedding] can leave: with the
    flag set there is a client, without it the local model is loaded. *)
Definition ready (e : embedder) : Prop :=
  (use_openai e = true -> openai_client e = true)
  /\ (use_openai e = false -> embedding_model e = true).

End VectorStore.

(* ================================================================== *)
(** * backend/services/document_service.py: uploads and lookups *)
(* ================================================================== *)

Module DocumentStore.
Import PyStr Files DocumentService.

(** [Path.name] of a POSIX path: its last component, the empty
    components and the components [.] left out as [pathlib] does when it
    parses the path. *)
Definition is_component (p : string) : bool :=
  negb (String.eqb p "") && negb (String.eqb p ".").

Definition name_of (path : string) : string :=
  last_piece (filter is_component (split "/" path)).

(** [name.rfind('.')], with [None] for [-1]. *)
Fixpoint rfind_dot (s : string) : option nat :=
  match s with
  | "" => None
  | String c s' =>
      match rfind_dot s' with
      | Some i => Some (S i)
      | None => if Ascii.eqb c "." then Some 0%nat else None
      end
  end.

(** [Path.suffix], as [pathlib] has it up to Python 3.12: the name from
    its last dot on, when that dot is neither the first nor the last
    character of the name. *)
Definition suffix (path : string) : string :=
  let name := name_of path in
  match rfind_dot name with
  | Some i =>
      if ((0 <? i) && (i <? String.length name - 1))%nat then drop i name
      else ""
  | None => ""
  end.

Inductive loader : Type :=
| PyPDFLoader
| TextLoader
| UnstructuredWordDocumentLoader.

(** [_get_loader(file_path)] *)
Definition _get_loader (file_path : string) : result loader :=
  let extension := lower (suffix file_path) in
  if String.eqb extension ".pdf" then Ok PyPDFLoader
  else if String.eqb extension ".txt" || String.eqb extension ".md"
       then Ok TextLoader
  else if String.eqb extension ".docx" then Ok UnstructuredWordDocumentLoader
  else Raise (ValueError ("Unsupported file type: " ++ extension)).

(** What lies outside the service during one upload: the identifier
    [uuid.uuid4()] gives, the outcome of writing the file (an exception
    when it cannot be written), what the loader returns for it (the
    pages, or an exception), the chunks the text splitter makes of the
    pages, the size [stat] reports, and the time. *)
Record upload : Type := {
  uuid4 : string;
  written : result unit;
  loaded : result (list string);
  split_documents : list string -> list VectorStore.Document;
  st_size : nat;
  now : string
}.

(** The service with the directories of documents that exist under
    [upload_dir]. *)
Record store : Type := {
  service_of : service;
  directories : list string
}.

(** [process_document(file_path)], the file being there. *)
Definition process_document (u : upload) (file_path : string)
  : result (list VectorStore.Document) :=
  do ld <- _get_loader file_path;
  do documents <- loaded u;
  match documents with
  | [] => Raise (ValueError ("No content loaded from " ++ name_of file_path))
  | _ => Ok (split_documents u documents)
  end.

(** [delete_document(doc_id)] with the removal of the directory;
    [rmtree_ok] tells whether [shutil.rmtree] succeeds. *)
Definition delete_document (st : store) (rmtree_ok : bool) (ft : fault)
    (doc_id : string) : store * bool :=
  if has_key doc_id (metadata (service_of st)) then
    if mem doc_id (directories st) && negb rmtree_ok then (st, false)
    else
      let s1 := {| metadata_file := metadata_file (service_of st);
                   metadata := del_item doc_id (metadata (service_of st));
                   disk := disk (service_of st) |} in
      ({| service_of := _save_metadata s1 ft;
          directories := filter (fun d => negb (String.eqb d doc_id))
                           (directories st) |}, true)
  else (st, false).

(** [save_and_process(file_content, filename)]; paths are written from
    [upload_dir].  The handler of the [try] calls
    [delete_document(doc_id)] when [save_file] had returned, and raises
    again. *)
Definition save_and_process (st : store) (u : upload) (rmtree_ok : bool)
    (ft : fault) (filename : string)
  : store * result (string * list VectorStore.Document) :=
  let doc_id := uuid4 u in
  (* save_file: the directory is made, then the file written *)
  let st1 := {| service_of := service_of st;
                directories :=
                  if mem doc_id (directories st) then directories st
                  else List.app (directories st) [doc_id] |} in
  match written u with
  | Raise x => (st1, Raise x)
  | Ok _ =>
    let file_path := doc_id ++ "/" ++ filename in
    match process_document u file_path with
    | Raise x =>
        (* Clean up on error *)
        (fst (delete_document st1 rmtree_ok ft doc_id), Raise x)
    | Ok chunks =>
        let r := {| document_id := doc_id;
                    filename := filename;
                    upload_date := now u;
                    num_chunks := List.length chunks;
                    file_size := st_size u;
                    file_path := file_path |} in
        let s1 := {| metadata_file := metadata_file (service_of st1);
                     metadata := set_item doc_id r (metadata (service_of st1));
                     disk := disk (service_of st1) |} in
        ({| service_of := _save_metadata s1 ft;
            directories := directories st1 |}, Ok (doc_id, chunks))
    end
  end.

(** [get_document_by_id(doc_id)] *)
Fixpoint lookup (doc_id : string) (d : metadata_dict) : option DocumentRecord :=
  match d with
  | [] => None
  | (k, v) :: rest => if String.eqb k doc_id then Some v else lookup doc_id rest
  end.

Definition get_document_by_id (s : service) (doc_id : string)
  : option DocumentRecord :=
  lookup doc_id (metadata s).

(** [get_all_documents()] *)
Definition get_all_documents (s : service) : list DocumentRecord :=
  map snd (metadata s).

(** [get_stats()]: documents, bytes, chunks. *)
Definition get_stats (s : service) : nat * nat * nat :=
  (List.length (metadata s),
   fold_right Nat.add 0%nat (map (fun kv => file_size (snd kv)) (metadata s)),
   fold_right Nat.add 0%nat (map (fun kv => num_chunks (snd kv)) (metadata s))).

(** [_load_metadata]: the dictionary in the file, and the empty one for
    a file that is missing or does not parse. *)
Definition _load_metadata (metadata_file : string) (d : fs metadata_dict)
  : metadata_dict :=
  match d metadata_file with
  | Some (Written md) => md
  | Some (Torn _ _) => []
  | None => []
  end.

(** [DocumentService.__init__] on the files another service left. *)
Definition restart (s : service) : service :=
  {| metadata_file := metadata_file s;
     metadata := _load_metadata (metadata_file s) (disk s);
     disk := disk s |}.

End DocumentStore.

(* ================================================================== *)
(** * backend/main.py: the endpoints *)
(* ================================================================== *)

Module Api.
Import PyStr Files.

(** The detail of an [HTTPException]: a text, or the f-string of a
    handler, a prefix followed by [str(e)] of what it caught, a service
    exception or an [HTTPException] raised inside the [try]. *)
Inductive detail : Type :=
| Text (s : string)
| StrOfException (prefix : string) (e : exn)
| StrOfHTTPException (prefix : string) (status_code : nat) (inner : detail).

Inductive response (A : Type) : Type :=
| Returned (body : A)
| HTTPException (status_code : nat) (d : detail).

Arguments Returned {A} body.
Arguments HTTPException {A} status_code d.

Definition status {A : Type} (r : response A) : nat :=
  match r with
  | Returned _ => 200
  | HTTPException status_code _ => status_code
  end.

(** The services the module makes when it is loaded, with the
    collection of the embedding service. *)
Record app : Type := {
  document_service : DocumentStore.store;
  embedding_service : EmbeddingService.embedder;
  collection : list EmbeddingService.IndexEntry;
  feedback_service : FeedbackService.service
}.

(** ** [DELETE /api/documents/{document_id}] *)

(** The [HTTPException] of status 404 is raised inside the [try]; the
    handler [except Exception] catches it and raises the one of status
    500. *)
Definition delete_document (a : app) (rmtree_ok : bool) (ft : fault)
    (document_id : string) : app * response string :=
  let index := VectorStore.delete_document_chunks (collection a) document_id in
  let (st, success) :=
    DocumentStore.delete_document (document_service a) rmtree_ok ft document_id in
  let a' := {| document_service := st;
               embedding_service := embedding_service a;
               collection := index;
               feedback_service := feedback_service a |} in
  if success
  then (a', Returned ("Document " ++ document_id ++ " deleted"))
  else (a', HTTPException 500
              (StrOfHTTPException "Error deleting document: " 404
                 (Text "Document not found"))).

(** ** [POST /api/documents/upload] *)

(** One file of the request with what lies outside the services while it
    is handled; [embedding_world i] is the world of the call that embeds
    chunk [i].  The content of the file has been read. *)
Record file : Type := {
  file_name : string;
  outside : DocumentStore.upload;
  rmtree_ok : bool;
  save_fault : fault;
  embedding_world : nat -> EmbeddingService.world
}.

Record uploaded : Type := {
  up_document_id : string;
  up_filename : string;
  up_chunks : nat
}.

Record failed : Type := {
  err_filename : string;
  err_error : exn
}.

(** The body of the loop, for one file. *)
Definition upload_one (a : app) (f : file) : app * (uploaded + failed) :=
  let (st, r) :=
    DocumentStore.save_and_process (document_service a) (outside f)
      (rmtree_ok f) (save_fault f) (file_name f) in
  match r with
  | Raise x =>
      ({| document_service := st;
          embedding_service := embedding_service a;
          collection := collection a;
          feedback_service := feedback_service a |},
       inr {| err_filename := file_name f; err_error := x |})
  | Ok (doc_id, chunks) =>
      let worlds := map (embedding_world f) (seq 0 (List.length chunks)) in
      let '(e, index, err) :=
        VectorStore.embed_and_store (embedding_service a) (collection a)
          (combine chunks worlds) doc_id in
      let a' := {| document_service := st;
                   embedding_service := e;
                   collection := index;
                   feedback_service := feedback_service a |} in
      match err with
      | Some x => (a', inr {| err_filename := file_name f; err_error := x |})
      | None =>
          (a', inl {| up_document_id := doc_id;
                      up_filename := file_name f;
                      up_chunks := List.length chunks |})
      end
  end.

(** The file name an entry of the reply carries. *)
Definition reported_name (r : uploaded + failed) : string :=
  match r with
  | inl u => up_filename u
  | inr e => err_filename e
  end.

Fixpoint upload_loop (a : app) (files : list file)
    (results : list uploaded) (errors : list failed)
  : app * list uploaded * list failed :=
  match files with
  | [] => (a, results, errors)
  | f :: rest =>
      match upload_one a f with
      | (a', inl u) => upload_loop a' rest (List.app results [u]) errors
      | (a', inr e) => upload_loop a' rest results (List.app errors [e])
      end
  end.

Record upload_report : Type := {
  report_uploaded : list uploaded;
  report_errors : list failed;
  total_success : nat;
  total_failed : nat
}.

Definition upload_documents (a : app) (files : list file)
  : app * upload_report :=
  let '(a', results, errors) := upload_loop a files [] [] in
  (a', {| report_uploaded := results;
          report_errors := errors;
          total_success := List.length results;
          total_failed := List.length errors |}).

(** ** [POST /api/feedback] *)

(** A [FeedbackRequest].  [accepted] is the constraint of the field
    [rating] that the request has passed when the endpoint runs. *)
Record FeedbackRequest : Type := {
  req_query_id : string;
  req_rating : Z;
  req_feedback_text : option string;
  req_query : option string;
  req_answer : option string;
  req_confidence : option Q
}.

Definition accepted (request : FeedbackRequest) : bool :=
  ((1 <=? req_rating request) && (req_rating request <=? 5))%Z.

Definition submit_feedback (a : app) (now : string) (ft : fault)
    (feedback : FeedbackRequest) : app * response FeedbackRequest :=
  let (s, r) :=
    FeedbackService.store_feedback (feedback_service a) now ft
      (req_query_id feedback) (FeedbackService.PyInt (req_rating feedback))
      (req_feedback_text feedback) (req_query feedback)
      (req_answer feedback) (req_confidence feedback) in
  let a' := {| document_service := document_service a;
               embedding_service := embedding_service a;
               collection := collection a;
               feedback_service := s |} in
  match r with
  | Ok _ => (a', Returned feedback)
  | Raise (ValueError m) => (a', HTTPException 400 (StrOfException "" (ValueError m)))
  | Raise x => (a', HTTPException 500 (StrOfException "Error storing feedback: " x))
  end.

End Api.

(* ================================================================== *)
(** * More inputs of the examples *)
(* ================================================================== *)

Module Uploads.
Import DocumentStore.

Definition two_chunks (pages : list string) : list VectorStore.Document :=
  map (fun p => {| VectorStore.page_content := p;
                   VectorStore.meta_source := Some "terms.txt";
                   VectorStore.meta_page := None |}) pages.

(** An upload of a text file of two pages. *)
Definition upload_txt : upload :=
  {| uuid4 := "doc-9"; written := Ok tt;
     loaded := Ok ["page one"; "page two"];
     split_documents := two_chunks;
     st_size := 1024; now := "2025-01-03T10:00:00" |}.

(** An upload of a file of a type that has no loader. *)
Definition upload_exe : upload :=
  {| uuid4 := "doc-9"; written := Ok tt;
     loaded := Ok ["MZ"];
     split_documents := two_chunks;
     st_size := 4096; now := "2025-01-03T10:00:00" |}.

(** The application with one document recorded and nothing else. *)
Definition app_one_document : Api.app :=
  {| Api.document_service :=
       {| service_of := Examples.one_document; directories := ["doc-1"] |};
     Api.embedding_service := EmbeddingService.init_local;
     Api.collection := [];
     Api.feedback_service := Examples.one_feedback |}.

(** The text file sent while the local model fails to encode. *)
Definition file_txt : Api.file :=
  {| Api.file_name := "terms.txt";
     Api.outside := upload_txt;
     Api.rmtree_ok := true;
     Api.save_fault := Files.NoFault;
     Api.embedding_world :=
       fun _ => {| EmbeddingService.remote_create := None;
                   EmbeddingService.local_init := false;
                   EmbeddingService.local_encode := None |} |}.

(** A request of five stars for the query [query-2]. *)
Definition five_stars : Api.FeedbackRequest :=
  {| Api.req_query_id := "query-2";
     Api.req_rating := 5;
     Api.req_feedback_text := None;
     Api.req_query := None;
     Api.req_answer := None;
     Api.req_confidence := None |}.

End Uploads.

(* ================================================================== *)
(** * Facts about Python strings *)
(* ================================================================== *)

Section StringFacts.
Import PyStr Spec.

Lemma append_nil_r (s : string) : s ++ "" = s.
Proof. induction s; simpl; congruence. Qed.

Lemma append_assoc (a b c : string) : (a ++ b) ++ c = a ++ b ++ c.
Proof. induction a; simpl; congruence. Qed.

Lemma length_append (a b : string) :
  String.length (a ++ b) = (String.length a + String.length b)%nat.
Proof. induction a; simpl; congruence. Qed.

Lemma take_append (a b : string) : take (String.length a) (a ++ b) = a.
Proof. induction a; simpl; congruence. Qed.

Lemma drop_append (a b : string) : drop (String.length a) (a ++ b) = b.
Proof. induction a; simpl; congruence. Qed.

Lemma drop_drop (n m : nat) (s : string) : drop n (drop m s) = drop (m + n) s.
Proof.
  revert s; induction m as [|m IH]; intros s; simpl; [reflexivity|].
  destruct s; [destruct n; reflexivity | apply IH].
Qed.

Lemma take_drop (n : nat) (s : string) : take n s ++ drop n s = s.
Proof.
  revert s; induction n as [|n IH]; intros [|c s]; simpl; try reflexivity.
  now rewrite IH.
Qed.

Lemma prefix_append (p b : string) : prefix p (p ++ b) = true.
Proof.
  induction p as [|c p IH]; simpl; [now destruct b|].
  destruct (ascii_dec c c); [exact IH | congruence].
Qed.

Lemma prefix_inv (p s : string) :
  prefix p s = true -> s = p ++ drop (String.length p) s.
Proof.
  revert s; induction p as [|c p IH]; intros s H; simpl in *; [reflexivity|].
  destruct s as [|d s]; simpl in H; [discriminate|].
  destruct (ascii_dec c d); [subst|discriminate].
  simpl. f_equal. now apply IH.
Qed.

(** ** [find] and [in] *)

Lemma find_cons (sub : string) (c : ascii) (s : string) :
  find sub (String c s) =
  if prefix sub (String c s) then Some 0%nat else option_map S (find sub s).
Proof. reflexivity. Qed.

Lemma find_some (sub s : string) (n : nat) :
  find sub s = Some n ->
  s = take n s ++ sub ++ drop (n + String.length sub) s.
Proof.
  revert n; induction s as [|c s IH]; intros n.
  - destruct sub; simpl; [|discriminate]. intros H. injection H as <-. reflexivity.
  - rewrite find_cons. destruct (prefix sub (String c s)) eqn:P.
    + intros [= <-]. simpl take. apply prefix_inv in P. exact P.
    + destruct (find sub s) as [m|] eqn:F; [|discriminate].
      intros [= <-]. simpl. f_equal. now apply IH.
Qed.

Lemma find_prefix (sub s : string) :
  prefix sub s = true -> find sub s = Some 0%nat.
Proof.
  intros H. destruct s; [|now rewrite find_cons, H].
  destruct sub; simpl in *; congruence.
Qed.

Lemma find_append_le (sub a b : string) :
  exists n, find sub (a ++ sub ++ b) = Some n /\ (n <= String.length a)%nat.
Proof.
  induction a as [|c a [n [IH Hn]]].
  - exists 0%nat. split; [|lia].
    change ("" ++ sub ++ b) with (sub ++ b). apply find_prefix, prefix_append.
  - change ((String c a) ++ sub ++ b) with (String c (a ++ sub ++ b)).
    rewrite find_cons. destruct (prefix sub _).
    + exists 0%nat. split; [reflexivity|simpl; lia].
    + rewrite IH. exists (S n). split; [reflexivity|simpl; lia].
Qed.

Lemma contains_append (sub a b : string) : contains sub (a ++ sub ++ b) = true.
Proof.
  unfold contains. destruct (find_append_le sub a b) as [n [-> _]]. reflexivity.
Qed.

Lemma contains_inv (sub s : string) :
  contains sub s = true -> exists a b, s = a ++ sub ++ b.
Proof.
  unfold contains. destruct (find sub s) as [n|] eqn:F; [|discriminate].
  intros _. apply find_some in F. eauto.
Qed.

(** A part of a part is a part. *)
Lemma contains_trans (f sub s : string) :
  contains f sub = true -> contains sub s = true -> contains f s = true.
Proof.
  intros H1 H2.
  apply contains_inv in H1 as [a [b ->]].
  apply contains_inv in H2 as [a' [b' ->]].
  rewrite !append_assoc. rewrite <- (append_assoc a' a).
  apply contains_append.
Qed.

Lemma not_contains_part (f sub s : string) :
  contains f sub = true -> contains f s = false -> contains sub s = false.
Proof.
  intros H1 H2. destruct (contains sub s) eqn:E; [|reflexivity].
  rewrite (contains_trans _ _ _ H1 E) in H2. discriminate.
Qed.

Lemma contains_cons_false (sub : string) (c : ascii) (s : string) :
  contains sub (String c s) = false ->
  prefix sub (String c s) = false /\ contains sub s = false.
Proof.
  unfold contains. rewrite find_cons.
  destruct (prefix sub (String c s)); [discriminate|].
  destruct (find sub s); [discriminate|]. auto.
Qed.

Lemma prefix_nil_l (s : string) : prefix "" s = true.
Proof. now destruct s. Qed.

Lemma prefix_append_cases (sub t rest : string) :
  prefix sub (t ++ rest) = true ->
  prefix sub t = true \/
  ((String.length t < String.length sub)%nat
   /\ prefix (drop (String.length t) sub) rest = true).
Proof.
  revert sub; induction t as [|c t IH]; intros sub H.
  - destruct sub as [|d sub]; [left; reflexivity|].
    right. split; [simpl; lia | exact H].
  - destruct sub as [|d sub]; [left; reflexivity|].
    simpl in H |- *. destruct (ascii_dec d c); [|discriminate].
    destruct (IH _ H) as [L | [L1 L2]]; [now left | right].
    split; [lia | exact L2].
Qed.

(** The first occurrence of [sub] in [a ++ rest] is the one at the
    head of [rest]. *)
Lemma find_append_first (sub a rest : string) :
  contains sub a = false ->
  no_overlap sub rest = true ->
  prefix sub rest = true ->
  find sub (a ++ rest) = Some (String.length a).
Proof.
  intros Ha Ho Hp. induction a as [|c a IH].
  - now apply find_prefix.
  - apply contains_cons_false in Ha as [Hc Ha].
    change (String c a ++ rest) with (String c (a ++ rest)).
    rewrite find_cons.
    destruct (prefix sub (String c (a ++ rest))) eqn:P.
    + exfalso.
      apply (prefix_append_cases sub (String c a) rest) in P as [P | [P1 P2]].
      * congruence.
      * unfold no_overlap in Ho. rewrite forallb_forall in Ho.
        specialize (Ho (String.length (String c a))).
        rewrite P2 in Ho. simpl in Ho.
        assert (false = true); [|discriminate].
        apply Ho. apply in_seq. simpl in *. lia.
    + rewrite (IH Ha). reflexivity.
Qed.

(** ** [split] *)

Lemma split_from_not_nil (sep : string) (k : nat) (s : string) :
  split_from sep k s <> [].
Proof.
  revert k; induction s as [|c s IH]; intros k; cbn [split_from]; [discriminate|].
  destruct k; [|apply IH].
  destruct (prefix sep (String c s)); [discriminate|].
  destruct (split_from sep 0 s); discriminate.
Qed.

Lemma split_from_drop (sep : string) (k : nat) (s : string) :
  split_from sep k s = split sep (drop k s).
Proof.
  revert k; induction s as [|c s IH]; intros [|k]; try reflexivity.
  simpl. apply IH.
Qed.

Lemma split_prefix (sep s : string) :
  sep <> "" -> prefix sep s = true ->
  split sep s = "" :: split sep (drop (String.length sep) s).
Proof.
  intros Hs H. destruct s as [|c s].
  - destruct sep; [congruence|discriminate].
  - unfold split at 1. cbn [split_from]. rewrite H, split_from_drop.
    destruct sep as [|d sep]; [congruence|].
    simpl. now rewrite Nat.sub_0_r.
Qed.

Lemma split_cons (sep : string) (c : ascii) (s : string) :
  prefix sep (String c s) = false ->
  split sep (String c s) =
  String c (first_piece (split sep s)) :: List.tl (split sep s).
Proof.
  intros H. unfold split. cbn [split_from]. rewrite H.
  destruct (split_from sep 0 s) eqn:E; [|reflexivity].
  now apply split_from_not_nil in E.
Qed.

Lemma split_not_found (sep s : string) :
  find sep s = None -> split sep s = [s].
Proof.
  induction s as [|c s IH]; [reflexivity|].
  rewrite find_cons. destruct (prefix sep (String c s)) eqn:P; [discriminate|].
  destruct (find sep s); [discriminate|]. intros _.
  rewrite (split_cons _ _ _ P), IH by reflexivity. reflexivity.
Qed.

Lemma split_found (sep s : string) (n : nat) :
  sep <> "" -> find sep s = Some n ->
  split sep s = take n s :: split sep (drop (n + String.length sep) s).
Proof.
  intros Hs. revert n; induction s as [|c s IH]; intros n.
  - simpl. destruct sep; [congruence|discriminate].
  - rewrite find_cons. destruct (prefix sep (String c s)) eqn:P.
    + intros [= <-]. now apply split_prefix.
    + destruct (find sep s) as [m|] eqn:F; [|discriminate].
      intros [= <-]. rewrite (split_cons _ _ _ P), (IH m eq_refl).
      reflexivity.
Qed.

Lemma first_piece_split (sep a rest : string) :
  sep <> "" -> find sep (a ++ rest) = Some (String.length a) ->
  first_piece (split sep (a ++ rest)) = a.
Proof.
  intros Hs F. rewrite (split_found _ _ _ Hs F). simpl. apply take_append.
Qed.

Lemma second_piece_split (sep a b : string) :
  sep <> "" -> find sep (a ++ sep ++ b) = Some (String.length a) ->
  contains sep b = false ->
  nth_error (split sep (a ++ sep ++ b)) 1 = Some b.
Proof.
  intros Hs F Hb. rewrite (split_found _ _ _ Hs F). simpl.
  rewrite <- drop_drop, drop_append, drop_append.
  unfold contains in Hb. destruct (find sep b) eqn:E; [discriminate|].
  now rewrite (split_not_found _ _ E).
Qed.

Lemma second_piece_exists (sep s : string) :
  sep <> "" -> contains sep s = true ->
  exists x, nth_error (split sep s) 1 = Some x.
Proof.
  intros Hs H. unfold contains in H.
  destruct (find sep s) as [n|] eqn:F; [|discriminate].
  rewrite (split_found _ _ _ Hs F). simpl.
  destruct (split sep (drop (n + String.length sep) s)) eqn:E.
  - now apply split_from_not_nil in E.
  - eauto.
Qed.

Lemma last_piece_split (sep b : string) :
  sep <> "" -> contains sep b = false ->
  last_piece (split sep (sep ++ b)) = b.
Proof.
  intros Hs Hb.
  rewrite (split_prefix sep (sep ++ b) Hs (prefix_append _ _)), drop_append.
  unfold contains in Hb. destruct (find sep b) eqn:E; [discriminate|].
  now rewrite (split_not_found _ _ E).
Qed.

(** Lines: for a separator of one character, the pieces of a text are
    the pieces of what stands before an occurrence followed by the
    pieces of what stands after it. *)
Lemma split_char_append (c : ascii) (x y : string) :
  split (String c "") (x ++ String c y) =
  (split (String c "") x ++ split (String c "") y)%list.
Proof.
  induction x as [|d x IH].
  - change ("" ++ String c y) with (String c "" ++ y).
    rewrite split_prefix, drop_append by (discriminate || apply prefix_append).
    reflexivity.
  - change (String d x ++ String c y) with (String d (x ++ String c y)).
    destruct (ascii_dec c d) as [->|N].
    + assert (P : forall z, prefix (String d "") (String d z) = true).
      { intros z. simpl. destruct (ascii_dec d d); [now destruct z|congruence]. }
      rewrite (split_prefix _ (String d (x ++ String d y))),
        (split_prefix _ (String d x)) by (discriminate || apply P).
      simpl drop. rewrite IH. reflexivity.
    + assert (P : forall z, prefix (String c "") (String d z) = false).
      { intros z. simpl. destruct (ascii_dec c d); congruence. }
      rewrite (split_cons _ d (x ++ String c y)), (split_cons _ d x) by apply P.
      rewrite IH.
      destruct (split (String c "") x) eqn:E; [|reflexivity].
      now apply split_from_not_nil in E.
Qed.

(** ** Single characters and pairs of characters *)

Lemma all_chars_append (P : ascii -> bool) (a b : string) :
  all_chars P (a ++ b) = all_chars P a && all_chars P b.
Proof. induction a; simpl; [reflexivity|]. now rewrite IHa, andb_assoc. Qed.

Lemma all_chars_weaken (P Q : ascii -> bool) (s : string) :
  (forall c, P c = true -> Q c = true) ->
  all_chars P s = true -> all_chars Q s = true.
Proof.
  intros H. induction s; simpl; [reflexivity|].
  rewrite !andb_true_iff. intros [? ?]. auto.
Qed.

Lemma prefix_char (c d : ascii) (s : string) :
  prefix (String c "") (String d s) = if ascii_dec c d then true else false.
Proof. simpl. destruct (ascii_dec c d); [now destruct s|reflexivity]. Qed.

Lemma contains_char_cons (c d : ascii) (s : string) :
  contains (String c "") (String d s) =
  (if ascii_dec c d then true else false) || contains (String c "") s.
Proof.
  unfold contains. rewrite find_cons, prefix_char.
  destruct (ascii_dec c d); [reflexivity|].
  now destruct (find (String c "") s).
Qed.

Lemma contains_char_append (c : ascii) (a b : string) :
  contains (String c "") (a ++ b) =
  contains (String c "") a || contains (String c "") b.
Proof.
  induction a as [|d a IH]; [reflexivity|].
  change (String d a ++ b) with (String d (a ++ b)).
  now rewrite !contains_char_cons, IH, orb_assoc.
Qed.

Lemma all_chars_not_contains (P : ascii -> bool) (c : ascii) (s : string) :
  all_chars P s = true -> P c = false -> contains (String c "") s = false.
Proof.
  intros H Hc. induction s as [|d s IH]; [reflexivity|].
  simpl in H. apply andb_true_iff in H as [Hd Hs].
  rewrite contains_char_cons, (IH Hs).
  destruct (ascii_dec c d); [congruence|reflexivity].
Qed.

Lemma ends_with_char_all (P : ascii -> bool) (c : ascii) (s : string) :
  all_chars P s = true -> P c = false -> ends_with_char c s = false.
Proof.
  intros H Hc. induction s as [|d s IH]; [reflexivity|].
  simpl in H. apply andb_true_iff in H as [Hd Hs].
  destruct s as [|e s]; [|exact (IH Hs)].
  simpl. destruct (Ascii.eqb_spec d c); congruence.
Qed.

(** The pair [c1 c2] does not occur in [x ++ y] when it occurs in
    neither and does not sit across the junction. *)
Lemma no_pair_append (c1 c2 : ascii) (x y : string) :
  contains (String c1 (String c2 "")) x = false ->
  contains (String c1 (String c2 "")) y = false ->
  ends_with_char c1 x = false \/ prefix (String c2 "") y = false ->
  contains (String c1 (String c2 "")) (x ++ y) = false.
Proof.
  intros Hx Hy Hj. induction x as [|d x IH]; [exact Hy|].
  apply contains_cons_false in Hx as [Px Hx].
  change (String d x ++ y) with (String d (x ++ y)).
  unfold contains. rewrite find_cons.
  assert (IH' : contains (String c1 (String c2 "")) (x ++ y) = false).
  { destruct x as [|e x]; [exact Hy|]. apply IH; [exact Hx|].
    destruct Hj as [Hj|Hj]; [left; exact Hj|now right]. }
  unfold contains in IH'.
  destruct (find _ (x ++ y)); [discriminate|].
  destruct (prefix _ (String d (x ++ y))) eqn:P; [exfalso|reflexivity].
  simpl in P, Px. destruct (ascii_dec c1 d) as [->|]; [|discriminate].
  destruct x as [|e x]; simpl in P, Px.
  - destruct Hj as [Hj|Hj].
    + simpl in Hj. now rewrite Ascii.eqb_refl in Hj.
    + destruct y as [|e y]; [discriminate|].
      rewrite prefix_char in Hj, P. congruence.
  - destruct (ascii_dec c2 e); [|discriminate].
    destruct x; discriminate.
Qed.

Lemma no_pair_of_no_char (c1 c2 : ascii) (s : string) :
  contains (String c2 "") s = false ->
  contains (String c1 (String c2 "")) s = false.
Proof.
  apply not_contains_part. unfold contains. rewrite find_cons.
  destruct (prefix _ _); [reflexivity|].
  simpl. destruct (ascii_dec c2 c2); [reflexivity|congruence].
Qed.

End StringFacts.

(* ================================================================== *)
(** * Facts about the printing and reading of numbers *)
(* ================================================================== *)

Section NumberFacts.
Import PyStr Spec.

Lemma string_of_uint_digits (d : Decimal.uint) :
  all_chars is_digit (NilEmpty.string_of_uint d) = true.
Proof. induction d; simpl; auto. Qed.

Lemma str_of_N_digits (n : N) : all_chars is_digit (str_of_N n) = true.
Proof. apply string_of_uint_digits. Qed.

Lemma str_of_nat_digits (n : nat) : all_chars is_digit (str_of_nat n) = true.
Proof. apply string_of_uint_digits. Qed.

Lemma str_of_N_head (n : N) :
  exists c r, str_of_N n = String c r /\ is_digit c = true.
Proof.
  pose proof (str_of_N_digits n) as H. unfold str_of_N in *.
  assert (N.to_uint n <> Decimal.Nil) as Hn.
  { destruct n; [discriminate|apply DecimalPos.Unsigned.to_uint_nonnil]. }
  destruct (N.to_uint n); [congruence| ..]; simpl in *; eauto.
Qed.

Lemma digits_value_str_of_N (n : N) : digits_value (str_of_N n) = Some n.
Proof.
  unfold digits_value, str_of_N.
  now rewrite NilEmpty.usu; simpl; rewrite DecimalN.Unsigned.of_to.
Qed.

Lemma two_digits_spec (f : N) :
  (f < 100)%N ->
  digits_value (two_digits f) = Some f /\ String.length (two_digits f) = 2%nat.
Proof.
  intros H.
  assert (A : forallb (fun k =>
                match digits_value (two_digits (N.of_nat k)) with
                | Some v => N.eqb v (N.of_nat k)
                | None => false
                end && (String.length (two_digits (N.of_nat k)) =? 2)%nat)
                (seq 0 100) = true) by (vm_compute; reflexivity).
  rewrite forallb_forall in A. specialize (A (N.to_nat f)).
  rewrite N2Nat.id in A.
  assert (I : In (N.to_nat f) (seq 0 100)) by (apply in_seq; lia).
  apply A, andb_true_iff in I as [I1 I2].
  destruct (digits_value (two_digits f)) as [v|]; [|discriminate].
  apply N.eqb_eq in I1. apply Nat.eqb_eq in I2. now subst.
Qed.

Lemma two_digits_digits (f : N) : all_chars is_digit (two_digits f) = true.
Proof.
  unfold two_digits. now rewrite all_chars_append, !str_of_N_digits.
Qed.

(** ** Rounding keeps the sign *)

Lemma round_half_even_nonneg (x : Q) :
  (0 <= x)%Q -> (0 <= round_half_even x)%Z.
Proof.
  intros H. unfold round_half_even.
  assert (0 <= Qfloor x)%Z.
  { change 0%Z with (Qfloor 0). now apply Qfloor_resp_le. }
  destruct (_ ?= _)%Q; [destruct (Z.even _)|..]; lia.
Qed.

Lemma round_half_even_nonpos (x : Q) :
  (x < 0)%Q -> (round_half_even x <= 0)%Z.
Proof.
  intros H. unfold round_half_even.
  assert (Qfloor x < 0)%Z.
  { rewrite Zlt_Qlt. eapply Qle_lt_trans; [apply Qfloor_le|exact H]. }
  destruct (_ ?= _)%Q; [destruct (Z.even _)|..]; lia.
Qed.

Lemma hundredths_nonneg (x : Q) : (0 <= x)%Q -> (0 <= hundredths x)%Z.
Proof.
  intros H. apply round_half_even_nonneg.
  setoid_replace 0%Q with (0 * 100)%Q by reflexivity.
  apply Qmult_le_compat_r; [exact H|discriminate].
Qed.

Lemma hundredths_nonpos (x : Q) : (x < 0)%Q -> (hundredths x <= 0)%Z.
Proof.
  intros H. apply round_half_even_nonpos.
  setoid_replace 0%Q with (0 * 100)%Q by reflexivity.
  apply Qmult_lt_compat_r; [reflexivity|exact H].
Qed.

(** ** What is printed is read back *)

Lemma format_2f_numeric (x : Q) : all_chars is_numeric (format_2f x) = true.
Proof.
  assert (D : forall s, all_chars is_digit s = true -> all_chars is_numeric s = true).
  { intros s. apply all_chars_weaken. intros c Hc. unfold is_numeric. now rewrite Hc. }
  unfold format_2f. rewrite !all_chars_append.
  rewrite (D _ (str_of_N_digits _)), (D _ (two_digits_digits _)).
  now destruct (Qlt_le_dec x 0).
Qed.

Lemma py_float_format_2f (x : Q) : py_float (format_2f x) = Some (round2 x).
Proof.
  unfold format_2f, round2.
  set (a := Z.to_N (Z.abs (hundredths x))).
  assert (Hf : (a mod 100 < 100)%N) by (apply N.mod_lt; discriminate).
  destruct (two_digits_spec _ Hf) as [Vf Lf].
  set (ip := str_of_N (a / 100)) in *. set (fp := two_digits (a mod 100)) in *.
  assert (Find : find "." (ip ++ "." ++ fp) = Some (String.length ip)).
  { apply find_append_first; [|reflexivity|apply (prefix_append "." fp)].
    apply (all_chars_not_contains is_digit); [apply str_of_N_digits|reflexivity]. }
  assert (Body : float_unsigned (ip ++ "." ++ fp) = Some (Z.of_N a # 100)).
  { unfold float_unsigned. rewrite Find, take_append.
    replace (drop (S (String.length ip)) (ip ++ "." ++ fp)) with fp.
    2:{ change (S (String.length ip)) with (1 + String.length ip)%nat.
        rewrite Nat.add_comm, <- drop_drop, drop_append. reflexivity. }
    rewrite Lf. replace (String.length ip + 2 =? 0)%nat with false
      by (symmetry; apply Nat.eqb_neq; lia).
    unfold ip at 1. rewrite digits_value_str_of_N, Vf.
    cbv zeta. change (pow10 2) with 100%positive.
    replace (Z.of_N (a / 100) * 100 + Z.of_N (a mod 100))%Z with (Z.of_N a).
    - reflexivity.
    - rewrite (N.div_mod a 100) at 1 by discriminate. lia. }
  destruct (Qlt_le_dec x 0) as [Neg|Pos].
  - change ("-" ++ ip ++ "." ++ fp) with (String "-" (ip ++ "." ++ fp)).
    unfold py_float. rewrite Body. simpl. f_equal.
    pose proof (hundredths_nonpos x Neg). unfold a.
    rewrite Z2N.id by lia. unfold Qopp. simpl. f_equal. lia.
  - change ("" ++ ip ++ "." ++ fp) with (ip ++ "." ++ fp).
    destruct (str_of_N_head (a / 100)) as [c [r [E Hc]]].
    assert (Hm : py_float (ip ++ "." ++ fp) = float_unsigned (ip ++ "." ++ fp)).
    { fold ip in E. rewrite E.
      change (String c r ++ "." ++ fp) with (String c (r ++ "." ++ fp)).
      destruct c as [[] [] [] [] [] [] [] []]; try reflexivity; discriminate. }
    rewrite Hm, Body. f_equal. pose proof (hundredths_nonneg x Pos). unfold a.
    rewrite Z2N.id by lia. f_equal. lia.
Qed.

End NumberFacts.

(* ================================================================== *)
(** * The rule-based provider reads back what [_format_context] wrote *)
(* ================================================================== *)

Section ReadBack.
Import PyStr Spec FallbackProvider.

Lemma startswith_source_nil : startswith "[Source" "" = false.
Proof. reflexivity. Qed.

(** A line that is not a header leaves the accumulators alone. *)
Lemma scan_line_other (st : scan) (line : string) :
  startswith "[Source" line = false -> scan_line st line = st.
Proof. intros H. unfold scan_line. now rewrite H. Qed.

Lemma scan_lines_other (st : scan) (lines : list string) :
  forallb (fun line => negb (startswith "[Source" line)) lines = true ->
  fold_left scan_line lines st = st.
Proof.
  revert st; induction lines as [|l lines IH]; intros st H; [reflexivity|].
  simpl in H. apply andb_true_iff in H as [H1 H2].
  simpl. rewrite scan_line_other by now apply negb_true_iff. now apply IH.
Qed.

(** The header line of an entry adds the printed relevance to the sum
    and one to the count. *)
Lemma scan_line_header (st : scan) (idx src pg : string) (x : Q) :
  all_chars is_digit idx = true ->
  contains ":" src = false ->
  contains ":" pg = false ->
  let line := "[Source " ++ idx ++ ": " ++ src ++ " - Page " ++ pg
                ++ " (Relevance: " ++ format_2f x ++ ")]" in
  avg_relevance (scan_line st line) = (avg_relevance st + round2 x)%Q
  /\ relevance_count (scan_line st line) = S (relevance_count st).
Proof.
  intros Hidx Hsrc Hpg line.
  pose proof (format_2f_numeric x) as Hnum.
  pose proof (py_float_format_2f x) as Hfloat.
  set (num := format_2f x) in *. clearbody num.
  set (A := "[Source " ++ idx ++ ": " ++ src ++ " - Page " ++ pg ++ " (").
  set (b := num ++ ")]").
  assert (Eline : line = A ++ "Relevance: " ++ b).
  { unfold line, A, b. now rewrite !append_assoc. }
  (* the separator of the score occurs first where the template puts it *)
  assert (HA : contains "Relevance: " A = false).
  { apply (not_contains_part "e:"); [reflexivity|]. unfold A.
    apply no_pair_append; [reflexivity| |left; reflexivity].
    apply no_pair_append;
      [apply no_pair_of_no_char, (all_chars_not_contains is_digit);
       [exact Hidx|reflexivity]
      | |left; apply (ends_with_char_all is_digit); [exact Hidx|reflexivity]].
    apply (no_pair_append _ _ ": "); [reflexivity| |left; reflexivity].
    apply no_pair_append;
      [now apply no_pair_of_no_char| |right; reflexivity].
    apply (no_pair_append _ _ " - Page "); [reflexivity| |left; reflexivity].
    apply no_pair_append;
      [now apply no_pair_of_no_char|reflexivity|right; reflexivity]. }
  assert (Hb : contains "Relevance: " b = false).
  { apply (not_contains_part "R"); [reflexivity|]. unfold b.
    rewrite contains_char_append,
      (all_chars_not_contains is_numeric _ _ Hnum) by reflexivity.
    reflexivity. }
  assert (F : find "Relevance: " (A ++ "Relevance: " ++ b) = Some (String.length A)).
  { apply find_append_first; [exact HA| |apply prefix_append].
    clearbody b. reflexivity. }
  assert (P2 : nth_error (split "Relevance: " line) 1 = Some b).
  { rewrite Eline. now apply second_piece_split. }
  assert (P3 : first_piece (split ")" b) = num).
  { unfold b. apply first_piece_split; [discriminate|].
    apply find_append_first; [|reflexivity|reflexivity].
    now apply (all_chars_not_contains is_numeric). }
  assert (C1 : contains ": " line = true).
  { unfold line. rewrite <- (append_assoc "[Source " idx).
    apply contains_append. }
  assert (C2 : contains "Relevance:" line = true).
  { rewrite Eline.
    change ("Relevance: " ++ b) with ("Relevance:" ++ " " ++ b).
    apply contains_append. }
  destruct (second_piece_exists ": " line) as [y Hy]; [discriminate|exact C1|].
  unfold scan_line.
  replace (startswith "[Source" line) with true by reflexivity.
  rewrite Hy, C2, P2, P3, Hfloat.
  destruct (mem _ (sources st)); simpl; auto.
Qed.

Import LLMService.

(** ** The last piece of a split *)

Lemma last_cons_not_nil (x : string) (l : list string) :
  l <> [] -> last_piece (x :: l) = last_piece l.
Proof. destruct l; [congruence|reflexivity]. Qed.

Lemma prefix_length (p s : string) :
  prefix p s = true -> (String.length p <= String.length s)%nat.
Proof.
  intros H. apply prefix_inv, (f_equal String.length) in H.
  rewrite length_append in H. lia.
Qed.

Lemma length_drop (n : nat) (s : string) :
  String.length (drop n s) = (String.length s - n)%nat.
Proof.
  revert s; induction n as [|n IH]; intros [|c s]; simpl; auto.
Qed.

Lemma length_take (n : nat) (s : string) :
  (n <= String.length s)%nat -> String.length (take n s) = n.
Proof.
  revert s; induction n as [|n IH]; intros [|c s]; simpl; auto; try lia.
  intros H. rewrite IH; lia.
Qed.

Lemma drop_append_le (n : nat) (a b : string) :
  (n <= String.length a)%nat -> drop n (a ++ b) = drop n a ++ b.
Proof.
  revert a; induction n as [|n IH]; intros [|c a]; simpl; auto; try lia.
  intros H. apply IH. lia.
Qed.

Lemma take_append_le (n : nat) (a b : string) :
  (n <= String.length a)%nat -> take n (a ++ b) = take n a.
Proof.
  revert a; induction n as [|n IH]; intros [|c a]; simpl; auto; try lia.
  intros H. f_equal. apply IH. lia.
Qed.

Lemma find_prefix_at (sub s : string) (n : nat) :
  find sub s = Some n -> prefix sub (drop n s) = true.
Proof.
  revert n; induction s as [|c s IH]; intros n.
  - simpl. destruct sub; [|discriminate]. now intros [= <-].
  - rewrite find_cons. destruct (prefix sub (String c s)) eqn:P.
    + now intros [= <-].
    + destruct (find sub s) eqn:F; [|discriminate].
      intros [= <-]. simpl. now apply IH.
Qed.

(** When the separator cannot overlap itself, what follows its last
    occurrence is the last piece. *)
Lemma last_piece_after (sep b : string) :
  sep <> "" ->
  no_overlap sep (sep ++ b) = true ->
  contains sep b = false ->
  forall a, last_piece (split sep (a ++ sep ++ b)) = b.
Proof.
  intros Hs Ho Hb.
  assert (Hlast : split sep b = [b]).
  { unfold contains in Hb. destruct (find sep b) eqn:E; [discriminate|].
    now apply split_not_found. }
  intros a. remember (String.length a) as m eqn:Hm.
  revert a Hm. induction m as [m IH] using lt_wf_ind. intros a Hm.
  destruct (find_append_le sep a b) as [n [F Hn]].
  rewrite (split_found _ _ _ Hs F).
  rewrite last_cons_not_nil by apply split_from_not_nil.
  pose proof (find_prefix_at _ _ _ F) as P.
  rewrite drop_append_le in P by exact Hn.
  apply prefix_append_cases in P as [P | [P1 P2]].
  - (* the occurrence lies inside [a] *)
    apply prefix_length in P. rewrite length_drop in P.
    assert (Hsl : (0 < String.length sep)%nat)
      by (destruct sep; [congruence|simpl; lia]).
    rewrite drop_append_le by lia.
    apply (IH (String.length (drop (n + String.length sep) a))); [|reflexivity].
    rewrite length_drop. lia.
  - destruct (Nat.eq_dec n (String.length a)) as [->|Hne].
    + rewrite <- drop_drop, drop_append, drop_append, Hlast. reflexivity.
    + exfalso. unfold no_overlap in Ho. rewrite forallb_forall in Ho.
      rewrite length_drop in P1, P2.
      specialize (Ho (String.length a - n)%nat). rewrite P2 in Ho.
      assert (false = true); [|discriminate].
      apply Ho, in_seq. lia.
Qed.

(** ** Cutting the user message *)

Lemma user_message_body (q : string) (ctx : list ContextEntry) :
  user_message_of q ctx = CONTEXT_MARK ++ message_body q ctx.
Proof. reflexivity. Qed.

Lemma message_body_question (q : string) (ctx : list ContextEntry) :
  message_body q ctx = _format_context ctx ++ QUESTION_MARK ++ " " ++ q.
Proof. reflexivity. Qed.

Lemma context_text_of_message (q : string) (ctx : list ContextEntry) :
  contains CONTEXT_MARK (message_body q ctx) = false ->
  contains QUESTION_MARK (_format_context ctx) = false ->
  context_text_of (user_message_of q ctx) = _format_context ctx.
Proof.
  intros H1 H2. unfold context_text_of.
  rewrite user_message_body, last_piece_split by (discriminate || exact H1).
  rewrite message_body_question.
  apply first_piece_split; [discriminate|].
  apply find_append_first; [exact H2| |apply prefix_append].
  generalize (" " ++ q). intros r. reflexivity.
Qed.

Lemma query_of_message (q : string) (ctx : list ContextEntry) :
  contains "Question: " q = false ->
  query_of (user_message_of q ctx) = q.
Proof.
  intros H. unfold query_of, user_message_of.
  assert (E : "Context:" ++ nl ++ _format_context ctx ++ nl ++ nl ++ "Question: " ++ q
              = ("Context:" ++ nl ++ _format_context ctx ++ nl ++ nl)
                  ++ "Question: " ++ q).
  { now rewrite !append_assoc. }
  rewrite E. apply last_piece_after; [discriminate| |exact H].
  generalize q. intros r. reflexivity.
Qed.

(** ** The lines of the formatted context *)

Lemma format_entry_header (idx : nat) (e : ContextEntry) :
  format_entry idx e = header idx e ++ nl ++ content e ++ nl.
Proof. unfold format_entry, header. now rewrite !append_assoc. Qed.

Lemma header_clean_inv (e : ContextEntry) :
  header_clean e = true ->
  contains ":" (source e) = false /\ contains nl (source e) = false
  /\ contains ":" (page_text e) = false /\ contains nl (page_text e) = false.
Proof.
  unfold header_clean. rewrite !andb_true_iff, !negb_true_iff. tauto.
Qed.

Lemma header_one_line (idx : nat) (e : ContextEntry) :
  header_clean e = true -> split nl (header idx e) = [header idx e].
Proof.
  intros H. apply header_clean_inv in H as (_ & Hs & _ & Hp).
  apply split_not_found.
  assert (C : contains nl (header idx e) = false).
  { unfold header, nl in *. rewrite !contains_char_append, Hs, Hp.
    rewrite (all_chars_not_contains is_digit _ _ (str_of_nat_digits idx))
      by reflexivity.
    rewrite (all_chars_not_contains is_numeric _ _ (format_2f_numeric _))
      by reflexivity.
    reflexivity. }
  unfold contains in C. now destruct (find nl (header idx e)).
Qed.

Lemma lines_format_entry (idx : nat) (e : ContextEntry) :
  header_clean e = true ->
  split nl (format_entry idx e) =
  (header idx e :: split nl (content e) ++ [""])%list.
Proof.
  intros H. rewrite format_entry_header. unfold nl at 1 2 3.
  change (header idx e ++ String (ascii_of_nat 10) ""
            ++ content e ++ String (ascii_of_nat 10) "")
    with (header idx e ++ String (ascii_of_nat 10)
            (content e ++ String (ascii_of_nat 10) "")).
  rewrite !split_char_append. fold nl. rewrite (header_one_line idx e H).
  reflexivity.
Qed.

(** One entry of the context adds its printed score to the sum and one
    to the count. *)
Lemma scan_format_entry (st : scan) (idx : nat) (e : ContextEntry) :
  clean_entry e = true ->
  let st' := fold_left scan_line (split nl (format_entry idx e)) st in
  avg_relevance st' = (avg_relevance st + round2 (relevance_score e))%Q
  /\ relevance_count st' = S (relevance_count st).
Proof.
  unfold clean_entry. rewrite andb_true_iff. intros [Hh Hc].
  rewrite (lines_format_entry idx e Hh). cbn [fold_left].
  rewrite fold_left_app. cbn [fold_left].
  rewrite (scan_lines_other _ _ Hc), scan_line_other by reflexivity.
  apply header_clean_inv in Hh as (Hs & _ & Hp & _).
  apply scan_line_header; [apply str_of_nat_digits|exact Hs|exact Hp].
Qed.

Lemma scan_format_entries (ctx : list ContextEntry) :
  forall (idx : nat) (st : scan),
  ctx <> [] ->
  forallb clean_entry ctx = true ->
  let st' := fold_left scan_line (split nl (join nl (format_entries idx ctx))) st in
  avg_relevance st' = fold_left Qplus (printed_scores ctx) (avg_relevance st)
  /\ relevance_count st' = (relevance_count st + List.length ctx)%nat.
Proof.
  induction ctx as [|e rest IH]; intros idx st Hne Hc; [congruence|].
  simpl in Hc. apply andb_true_iff in Hc as [He Hrest].
  destruct rest as [|e2 rest].
  - cbn [format_entries join printed_scores map fold_left List.length].
    destruct (scan_format_entry st idx e He) as [A B].
    split; [exact A|rewrite B; lia].
  - change (join nl (format_entries idx (e :: e2 :: rest)))
      with (format_entry idx e ++ nl ++ join nl (format_entries (S idx) (e2 :: rest))).
    unfold nl at 1 2.
    change (format_entry idx e ++ String (ascii_of_nat 10) ""
              ++ join nl (format_entries (S idx) (e2 :: rest)))
      with (format_entry idx e ++ String (ascii_of_nat 10)
              (join nl (format_entries (S idx) (e2 :: rest)))).
    rewrite split_char_append. fold nl. rewrite fold_left_app.
    destruct (scan_format_entry st idx e He) as [A B].
    set (st1 := fold_left scan_line (split nl (format_entry idx e)) st) in *.
    destruct (IH (S idx) st1 ltac:(discriminate) Hrest) as [A' B'].
    split.
    + rewrite A', A. reflexivity.
    + rewrite B', B. simpl. lia.
Qed.

(** The mean the provider computes is the mean of the printed scores. *)
Lemma mean_relevance_context (ctx : list ContextEntry) :
  ctx <> [] ->
  forallb clean_entry ctx = true ->
  mean_relevance (scan_lines (split nl (_format_context ctx)))
  = mean (printed_scores ctx).
Proof.
  intros Hne Hc. unfold scan_lines.
  destruct ctx as [|e rest]; [congruence|].
  change (_format_context (e :: rest)) with (join nl (format_entries 1 (e :: rest))).
  destruct (scan_format_entries (e :: rest) 1
              {| sources := []; avg_relevance := 0; relevance_count := 0 |}
              Hne Hc) as [A B].
  unfold mean_relevance. rewrite B, A. cbn [relevance_count avg_relevance].
  unfold mean, printed_scores, py_sum. simpl List.length.
  rewrite length_map. reflexivity.
Qed.

Lemma well_delimited_inv (q : string) (ctx : list ContextEntry) :
  well_delimited q ctx = true ->
  contains CONTEXT_MARK (message_body q ctx) = false
  /\ contains QUESTION_MARK (_format_context ctx) = false
  /\ forallb clean_entry ctx = true
  /\ (ctx <> [] ->
      contains "No relevant context found" (_format_context ctx) = false).
Proof.
  unfold well_delimited. rewrite !andb_true_iff, !negb_true_iff.
  intros [[[H1 H2] H3] H4]. repeat split; auto.
  intros Hne. destruct ctx; [congruence|]. now apply negb_true_iff.
Qed.

(** What the rule-based provider returns for a well delimited context
    that is not empty, in terms of the context and not of its text. *)
Lemma generate_completion_context (sp q : string) (ctx : list ContextEntry) :
  ctx <> [] ->
  well_delimited q ctx = true ->
  let r := generate_completion sp (user_message_of q ctx) in
  let c := context_confidence ctx in
  Raw.confidence r = Some c
  /\ Raw.is_complete r = Some (gtb c (5 # 10))
  /\ Raw.missing_information r =
     (if gtb c (5 # 10) then None
      else Some ["More comprehensive information on this topic"])
  /\ Raw.enrichment_suggestions r =
     (if gtb c (5 # 10) then None
      else Some [generic_suggestion (query_of (user_message_of q ctx))])
  /\ (gtb c (4 # 10) = false ->
      Raw.answer r = Some (hedge (query_of (user_message_of q ctx)))).
Proof.
  intros Hne Hw. apply well_delimited_inv in Hw as (H1 & H2 & H3 & H4).
  specialize (H4 Hne). cbv zeta. unfold generate_completion.
  rewrite (context_text_of_message q ctx H1 H2), H4.
  rewrite (mean_relevance_context ctx Hne H3).
  fold (context_confidence ctx).
  cbn [Raw.confidence Raw.is_complete Raw.missing_information
       Raw.enrichment_suggestions Raw.answer].
  destruct (gtb (context_confidence ctx) (5 # 10));
    repeat split; try reflexivity; intros ->; reflexivity.
Qed.

End ReadBack.

(* ================================================================== *)
(** * The Completeness Evaluator *)
(* ================================================================== *)

Section Evaluator.
Import PyStr Spec LLMService.

Lemma parse_suggestions_length (l : list Raw.suggestion)
    (xs : list Schemas.EnrichmentSuggestion) :
  parse_suggestions l = Ok xs -> List.length xs = List.length l.
Proof.
  revert xs; induction l as [|s l IH]; intros xs; simpl.
  - now intros [= <-].
  - destruct (parse_suggestion s); [|discriminate]. simpl.
    destruct (parse_suggestions l); [|discriminate]. simpl.
    intros [= <-]. simpl. f_equal. now apply IH.
Qed.

(** What [build_response] returns when it returns. *)
Lemma build_response_ok (uuid4 : string) (raw : Raw.t)
    (resp : Schemas.AnswerResponse) :
  build_response uuid4 raw = Ok resp ->
  Raw.is_complete raw = Some (Schemas.is_complete resp)
  /\ Schemas.missing_information resp = Raw.missing_information raw
  /\ exists xs,
       parse_suggestions (raw_suggestions raw) = Ok xs
       /\ Schemas.enrichment_suggestions resp =
          match xs with [] => None | _ => Some xs end.
Proof.
  unfold build_response, raw_suggestions.
  destruct (Raw.enrichment_suggestions raw) as [[|s l]|] eqn:E; simpl.
  1,3: destruct (Raw.answer raw), (Raw.confidence raw) as [c|],
         (Raw.sources_used raw), (Raw.is_complete raw),
         (Raw.reasoning raw); simpl; try discriminate;
       destruct (Schemas.confidence_ok c); [|discriminate];
       intros [= <-]; simpl;
       (split; [reflexivity|split; [reflexivity|]]); exists []; split; reflexivity.
  destruct (parse_suggestion s) as [x|] eqn:Ps; [|discriminate]. simpl.
  destruct (parse_suggestions l) as [xs|] eqn:Pl; [|discriminate]. simpl.
  destruct (Raw.answer raw), (Raw.confidence raw) as [c|],
    (Raw.sources_used raw), (Raw.is_complete raw),
    (Raw.reasoning raw); simpl; try discriminate.
  destruct (Schemas.confidence_ok c); [|discriminate].
  intros [= <-]; simpl. split; [reflexivity|split; [reflexivity|]].
  exists (x :: xs). split; reflexivity.
Qed.

(** The rule-based provider keeps the shape invariant by itself. *)
Lemma generate_completion_shape (sp msg : string) :
  raw_shape_invariant (FallbackProvider.generate_completion sp msg).
Proof.
  unfold raw_shape_invariant, FallbackProvider.generate_completion.
  destruct (contains _ _); [discriminate|].
  cbn [Raw.is_complete Raw.missing_information Raw.enrichment_suggestions].
  destruct (gtb _ (5 # 10)); [|discriminate].
  intros _. split; left; reflexivity.
Qed.

(** C1, as stated, fails: a remote provider that answers
    [is_complete = true] together with a gap and a suggestion gets all
    three into the verdict. *)
Lemma C1_counterexample :
  exists resp,
    generate_answer (Remote (fun _ _ => Returns Examples.overclaiming_reply))
      "id-1" "What is the capital?" [] = Ok resp
    /\ ~ shape_invariant resp.
Proof.
  eexists. split; [reflexivity|].
  unfold shape_invariant, nothing. simpl. intros H.
  destruct (H eq_refl) as [[?|?] _]; discriminate.
Qed.

(** C1, amended: [generate_answer] strips nothing.  The verdict's
    [is_complete] and [missing_information] are the provider's, its
    [enrichment_suggestions] are the provider's suggestions (absent
    when there is none), and the shape invariant holds whenever the
    dictionary came from the rule-based provider. *)
Theorem C1_verdict_keeps_provider_fields
    (p : provider) (uuid4 query : string) (context : list ContextEntry)
    (resp : Schemas.AnswerResponse) :
  generate_answer p uuid4 query context = Ok resp ->
  let raw := provider_result p (user_message_of query context) in
  Raw.is_complete raw = Some (Schemas.is_complete resp)
  /\ Schemas.missing_information resp = Raw.missing_information raw
  /\ (exists xs,
        parse_suggestions (raw_suggestions raw) = Ok xs
        /\ List.length xs = List.length (raw_suggestions raw)
        /\ Schemas.enrichment_suggestions resp =
           match xs with [] => None | _ => Some xs end)
  /\ ((exists sp msg, raw = FallbackProvider.generate_completion sp msg) ->
      shape_invariant resp).
Proof.
  intros H raw. unfold generate_answer in H. fold raw in H.
  destruct (build_response_ok _ _ _ H) as (Hc & Hm & xs & Hx & He).
  split; [exact Hc|]. split; [exact Hm|]. split.
  - exists xs. split; [exact Hx|]. split; [|exact He].
    now apply parse_suggestions_length.
  - intros (sp & msg & Hraw) Hcomplete.
    pose proof (generate_completion_shape sp msg) as S.
    rewrite <- Hraw in S. unfold raw_shape_invariant in S.
    rewrite Hc, Hcomplete in S. destruct (S eq_refl) as [S1 S2].
    split; [now rewrite Hm|].
    unfold nothing, raw_suggestions in *. rewrite He.
    destruct S2 as [S2|S2]; rewrite S2 in Hx; simpl in Hx;
      injection Hx as <-; now left.
Qed.

Lemma C1_verdict_keeps_provider_fields_witness :
  exists resp,
    generate_answer (Remote (fun _ _ => Returns Examples.overclaiming_reply))
      "id-1" "What is the capital?" [] = Ok resp
    /\ Schemas.is_complete resp = true
    /\ Schemas.missing_information resp = Some ["population figures"].
Proof.
  eexists. split; [reflexivity|].
  destruct (C1_verdict_keeps_provider_fields
              (Remote (fun _ _ => Returns Examples.overclaiming_reply))
              "id-1" "What is the capital?" [] _ eq_refl) as (A & B & _).
  split; [reflexivity|exact B].
Defined.

End Evaluator.

(* ================================================================== *)
(** * The provider chain and the rule-based provider *)
(* ================================================================== *)

Section ProviderChain.
Import PyStr Spec LLMService.
Import FallbackProvider.

Lemma py_min_le_r (a b : Q) : (py_min a b <= b)%Q.
Proof. unfold py_min. destruct (Qlt_le_dec b a); [apply Qle_refl|assumption]. Qed.

Lemma py_min_nonneg (a b : Q) : (0 <= a)%Q -> (0 <= b)%Q -> (0 <= py_min a b)%Q.
Proof. intros. unfold py_min. now destruct (Qlt_le_dec b a). Qed.

Lemma gtb_true (a b : Q) : gtb a b = true <-> (b < a)%Q.
Proof.
  unfold gtb. destruct (Qlt_le_dec b a) as [H|H]; split; auto; try discriminate.
  intros H'. exfalso. exact (Qlt_not_le _ _ H' H).
Qed.

Lemma gtb_false (a b : Q) : gtb a b = false <-> (a <= b)%Q.
Proof.
  unfold gtb. destruct (Qlt_le_dec b a) as [H|H]; split; auto; try discriminate.
  intros H'. exfalso. exact (Qlt_not_le _ _ H H').
Qed.

Lemma fold_Qplus_nonneg (l : list Q) (a : Q) :
  (0 <= a)%Q -> Forall (fun x => 0 <= x)%Q l -> (0 <= fold_left Qplus l a)%Q.
Proof.
  intros Ha Hl. revert a Ha. induction Hl as [|x l Hx Hl IH]; intros a Ha; simpl.
  - exact Ha.
  - apply IH. rewrite <- (Qplus_0_r 0). now apply Qplus_le_compat.
Qed.

Lemma mean_nonneg (l : list Q) :
  Forall (fun x => 0 <= x)%Q l -> (0 <= mean l)%Q.
Proof.
  intros H. unfold mean. destruct l as [|x l]; [apply Qle_refl|].
  apply Qle_shift_div_l.
  - change 0%Q with (inject_Z 0). rewrite <- Zlt_Qlt. simpl List.length. lia.
  - rewrite Qmult_0_l. apply fold_Qplus_nonneg; [apply Qle_refl|exact H].
Qed.

Lemma round2_nonneg (x : Q) : (0 <= x)%Q -> (0 <= round2 x)%Q.
Proof.
  intros H. apply hundredths_nonneg in H.
  unfold round2, Qle. simpl. lia.
Qed.

Lemma context_confidence_nonneg (ctx : list ContextEntry) :
  (forall e, In e ctx -> 0 <= relevance_score e)%Q ->
  (0 <= context_confidence ctx)%Q.
Proof.
  intros H. apply py_min_nonneg; [|discriminate].
  apply mean_nonneg. unfold printed_scores.
  apply Forall_forall. intros x Hx. apply in_map_iff in Hx as [e [<- He]].
  apply round2_nonneg. now apply H.
Qed.

(** The rule-based provider on an empty context. *)
Lemma generate_completion_no_context (sp q : string) :
  contains CONTEXT_MARK (message_body q []) = false ->
  generate_completion sp (user_message_of q [])
  = no_context_result (query_of (user_message_of q [])).
Proof.
  intros H. unfold generate_completion.
  rewrite (context_text_of_message q [] H) by reflexivity.
  reflexivity.
Qed.

(** A dictionary of the rule-based provider makes a verdict as soon as
    its confidence is not negative. *)
Lemma build_response_fallback (uuid4 sp msg : string) (c : Q) :
  Raw.confidence (generate_completion sp msg) = Some c ->
  (0 <= c)%Q ->
  exists resp, build_response uuid4 (generate_completion sp msg) = Ok resp.
Proof.
  unfold generate_completion.
  destruct (contains "No relevant context found" (context_text_of msg)).
  - intros _ _. eexists. reflexivity.
  - cbn [Raw.confidence]. intros [= <-] Hc.
    set (avg := mean_relevance _) in *.
    assert (Hok : Schemas.confidence_ok (py_min avg (65 # 100)) = true).
    { unfold Schemas.confidence_ok. apply andb_true_iff. split.
      - now apply Qle_bool_iff.
      - apply Qle_bool_iff. eapply Qle_trans; [apply py_min_le_r|discriminate]. }
    unfold build_response.
    cbn [Raw.enrichment_suggestions Raw.answer Raw.confidence Raw.sources_used
         Raw.is_complete Raw.reasoning Raw.missing_information].
    destruct (gtb (py_min avg (65 # 100)) (5 # 10));
      cbn [bind item parse_suggestions parse_suggestion
           Raw.missing_topic Raw.suggested_action Raw.priority];
      change (Schemas.priority_ok "medium") with true; cbv iota;
      cbn [bind]; rewrite Hok; eexists; reflexivity.
Qed.

(** A marker that begins with a character [a] does not hold cannot
    start inside [a]. *)
Lemma contains_skip (c : ascii) (r a b : string) :
  contains (String c "") a = false ->
  contains (String c r) (a ++ b) = contains (String c r) b.
Proof.
  induction a as [|d a IH]; [reflexivity|].
  rewrite contains_char_cons. intros H. apply orb_false_iff in H as [Hd Ha].
  change (String d a ++ b) with (String d (a ++ b)).
  unfold contains at 1. rewrite find_cons.
  replace (prefix (String c r) (String d (a ++ b))) with false.
  - specialize (IH Ha). unfold contains in IH at 1.
    destruct (find (String c r) (a ++ b)); simpl; exact IH.
  - simpl. destruct (ascii_dec c d); [discriminate|reflexivity].
Qed.

(** On an empty context, and for a query that holds neither marker,
    the rule-based provider gives its no-context answer about the
    query. *)
Lemma generate_completion_empty_context (sp q : string) :
  contains CONTEXT_MARK q = false ->
  contains "Question: " q = false ->
  generate_completion sp (user_message_of q []) = no_context_result q.
Proof.
  intros H1 H2. rewrite generate_completion_no_context.
  - now rewrite query_of_message.
  - unfold message_body.
    change (_format_context [] ++ nl ++ nl ++ "Question: " ++ q)
      with ((NO_CONTEXT ++ nl ++ nl ++ "Question: ") ++ q).
    unfold CONTEXT_MARK in *. rewrite contains_skip; [exact H1|reflexivity].
Qed.

(** ** C2 *)




(** ** C3 *)




(** The two hypotheses of C2 and C3 are needed.  A chunk whose text
    has a line that looks like a header is read as one more source,
    here with a negative score: the confidence is negative and the
    verdict is refused by the schema. *)
Lemma chunk_text_read_as_header :
  well_delimited "What does the plan cost?" [Examples.forged_chunk] = false
  /\ generate_answer RuleBased "id-3" "What does the plan cost?"
       [Examples.forged_chunk] = Raise (ValidationError "confidence").
Proof. split; vm_compute; reflexivity. Qed.

(** A chunk that quotes the no-context sentence makes the provider
    answer as if nothing had been retrieved. *)
Lemma chunk_text_read_as_no_context :
  well_delimited "What does the plan cost?" [Examples.quoting_chunk] = false
  /\ generate_completion SYSTEM_PROMPT
       (user_message_of "What does the plan cost?" [Examples.quoting_chunk])
     = no_context_result "What does the plan cost?".
Proof. split; vm_compute; reflexivity. Qed.

(** ** C4 *)

(** C4: the code departs from the claim on a query that contains the
    marker [Context:] followed by a line feed.  With an empty context
    the provider takes what follows the marker inside the query for the
    context, does not find the no-context sentence in it, and answers
    with confidence 0 and one suggestion of priority medium. *)
Theorem C4_marker_in_query_defeats_empty_context :
  let query := "Notes" ++ nl ++ "Context:" ++ nl ++ "pricing" in
  let r := generate_completion SYSTEM_PROMPT (user_message_of query []) in
  _format_context [] = NO_CONTEXT
  /\ Raw.confidence r = Some 0
  /\ Raw.is_complete r = Some false
  /\ Raw.enrichment_suggestions r = Some [generic_suggestion query]
  /\ r <> no_context_result query.
Proof.
  cbv zeta. repeat split; try (vm_compute; reflexivity).
  vm_compute. discriminate.
Qed.

(** ** C9 *)




End ProviderChain.

(* ================================================================== *)
(** * The vector index and the embedder *)
(* ================================================================== *)

Section VectorIndex.
Import EmbeddingService.

Lemma zip3_map {A B C D : Type} (f : A -> B) (g : A -> C) (h : A -> D)
    (l : list A) :
  zip3 (map f l) (map g l) (map h l) = map (fun x => (f x, g x, h x)) l.
Proof. induction l; simpl; congruence. Qed.

Lemma In_insert_ranked (x y : Q * IndexEntry) (l : list (Q * IndexEntry)) :
  In x (insert_ranked y l) -> x = y \/ In x l.
Proof.
  induction l as [|z l IH]; simpl.
  - intros [<-|[]]. now left.
  - destruct (Qle_bool (fst z) (fst y)); simpl.
    + intros [<-|H]; [right; now left|].
      destruct (IH H); [now left|right; now right].
    + intros [<-|H]; [now left|now right].
Qed.

Lemma In_rank (x : Q * IndexEntry) (l : list (Q * IndexEntry)) :
  In x (rank l) -> In x l.
Proof.
  unfold rank.
  assert (G : forall acc,
             In x (fold_left (fun acc x => insert_ranked x acc) l acc) ->
             In x l \/ In x acc).
  { induction l as [|y l IH]; intros acc; simpl; [now right|].
    intros H. destruct (IH _ H) as [H1|H1]; [left; now right|].
    destruct (In_insert_ranked _ _ _ H1) as [->|?]; [left; now left|now right]. }
  intros H. destruct (G [] H) as [?|[]]. assumption.
Qed.

Lemma In_firstn {A : Type} (x : A) (n : nat) (l : list A) :
  In x (firstn n l) -> In x l.
Proof.
  intros H. rewrite <- (firstn_skipn n l). apply in_or_app. now left.
Qed.

Lemma similarity_range (d : Q) :
  (0 <= d <= 2)%Q -> (0 <= similarity d <= 1)%Q.
Proof.
  unfold similarity. intros [H1 H2].
  assert (E : (d / 2 == d * (1 # 2))%Q) by (unfold Qdiv; reflexivity).
  rewrite E. split; lra.
Qed.

(** What [search] returns, in terms of the neighbours the index found. *)
Lemma search_neighbours (cosine_distance : vector -> vector -> Q)
    (index : list IndexEntry) (q : vector) (top_k : nat) :
  let nearest :=
    firstn top_k
      (rank (map (fun e => (cosine_distance q (embedding e), e)) index)) in
  search cosine_distance index (Ok q) top_k =
  Ok (map (fun p => context_entry (document (snd p)) (entry_metadata (snd p)) (fst p))
        nearest).
Proof.
  intros nearest. unfold search, collection_query, format_results. simpl.
  fold nearest. clearbody nearest. rewrite length_map, zip3_map, map_map.
  destruct nearest as [|p rest]; reflexivity.
Qed.



(** ** The embedder *)

(** Once the flag is off, no call reaches the remote service. *)
Lemma local_stays_local (e : embedder) (ws : list world) :
  use_openai e = false ->
  Forall (fun o => called_remote o = false) (run e ws).
Proof.
  revert e; induction ws as [|w ws IH]; intros e H; [constructor|].
  assert (E : _generate_embedding e w =
              {| after := e; returned := encode e w;
                 called_remote := false; remote_failed := false |}).
  { unfold _generate_embedding. now rewrite H. }
  cbn [run]. rewrite E. constructor; [reflexivity|]. apply IH. exact H.
Qed.

(** A failure of the remote call turns the flag off when the local
    model is loaded or loads. *)
Lemma failure_demotes (e : embedder) (w : world) :
  use_openai e && openai_client e = true ->
  remote_create w = None ->
  embedding_model e || local_init w = true ->
  use_openai (after (_generate_embedding e w)) = false.
Proof.
  intros H1 H2 H3. unfold _generate_embedding. rewrite H1, H2.
  destruct (embedding_model e), (local_init w); try discriminate; reflexivity.
Qed.

Lemma demotion_is_permanent (e : embedder) (w : world) (ws : list world) :
  use_openai e && openai_client e = true ->
  remote_create w = None ->
  embedding_model e || local_init w = true ->
  Forall (fun o => called_remote o = false)
    (run (after (_generate_embedding e w)) ws).
Proof. intros. now apply local_stays_local, failure_demotes. Qed.

(** C8: the code departs from the claim when the local model cannot be
    loaded at the time the remote call fails.  The exception of
    [_init_sentence_transformers] leaves [use_openai] set, and the next
    call goes to the remote service again. *)
Theorem C8_remote_retried_when_local_model_fails_to_load :
  map (fun o => (called_remote o, remote_failed o, raised (returned o)))
    (run init_remote [Examples.offline; Examples.online])
  = [(true, true, true); (true, false, false)]
  /\ map (fun o => (called_remote o, remote_failed o))
       (run init_remote [Examples.remote_down; Examples.online])
     = [(true, true); (false, false)].
Proof. split; reflexivity. Qed.

End VectorIndex.

(* ================================================================== *)
(** * Feedback and persisted state *)
(* ================================================================== *)

Section Persistence.
Import Files FeedbackService Spec.

(** ** Saving *)

(** [_save_feedback] leaves in the live file what was there or the
    complete new data, wherever the save fails. *)
Lemma _save_feedback_atomic (s : service) (ft : fault) :
  temp_path s <> storage_path s ->
  let s' := fst (_save_feedback s ft) in
  (disk s' (storage_path s) = disk s (storage_path s)
   /\ snd (_save_feedback s ft) = false)
  \/ (disk s' (storage_path s) = Some (Written (feedback_data s))
      /\ snd (_save_feedback s ft) = true).
Proof.
  intros Hne. unfold _save_feedback, open_and_dump, replace, put.
  assert (E : String.eqb (storage_path s) (temp_path s) = false).
  { apply String.eqb_neq. congruence. }
  destruct ft; simpl; rewrite ?E, ?String.eqb_refl; auto.
Qed.

Lemma feedback_data_save (s : service) (ft : fault) :
  feedback_data (fst (_save_feedback s ft)) = feedback_data s.
Proof. unfold _save_feedback, open_and_dump, replace. destruct ft; reflexivity. Qed.

(** ** Submissions *)

(** A rating that is not an integer from 1 to 5 is rejected and
    nothing changes. *)
Lemma store_feedback_rejects (s : service) (now : string) (ft : fault)
    (qid : string) (r : pyval) (text q a : option string) (c : option Q) :
  valid_rating r = false ->
  exists msg, store_feedback s now ft qid r text q a c = (s, Raise (ValueError msg)).
Proof.
  intros H. unfold store_feedback. destruct r as [z| | |]; eauto.
  simpl in H. replace ((z <? 1) || (5 <? z))%Z with true; [eauto|].
  symmetry. apply andb_false_iff in H as [H|H].
  - apply Z.leb_gt in H. apply orb_true_iff. left. now apply Z.ltb_lt.
  - apply Z.leb_gt in H. apply orb_true_iff. right. now apply Z.ltb_lt.
Qed.

(** What a submission with a valid rating does. *)
Lemma store_feedback_accepts (s : service) (now : string) (ft : fault)
    (qid : string) (z : Z) (text q a : option string) (c : option Q) :
  valid_rating (PyInt z) = true ->
  let entry :=
    {| feedback_id := Z.of_nat (List.length (feedback_data s)) + 1;
       query_id := qid; rating := z; feedback_text := text; query := q;
       answer := a; confidence := c; timestamp := now |} in
  let out := store_feedback s now ft qid (PyInt z) text q a c in
  (snd out = Ok entry /\ feedback_data (fst out) = (feedback_data s ++ [entry])%list)
  \/ (snd out = Raise SaveError /\ feedback_data (fst out) = feedback_data s).
Proof.
  intros H entry out. subst out. unfold store_feedback.
  simpl in H. apply andb_true_iff in H as [H1 H2].
  apply Z.leb_le in H1, H2.
  replace ((z <? 1) || (5 <? z))%Z with false.
  2:{ symmetry. apply orb_false_iff. split; apply Z.ltb_ge; lia. }
  fold entry.
  set (s1 := with_data s (feedback_data s ++ [entry])).
  pose proof (feedback_data_save s1 ft) as D.
  destruct (_save_feedback s1 ft) as [s2 saved]. simpl in D.
  destruct saved; simpl.
  - left. split; [reflexivity|exact D].
  - right. split; [reflexivity|]. rewrite D. simpl. apply removelast_last.
Qed.

(** Deleting keeps the other entries as they are, identifiers
    included. *)
Lemma delete_feedback_keeps (s : service) (ft : fault) (id : Z) :
  feedback_data (fst (delete_feedback s ft id))
  = filter (fun f => negb (feedback_id f =? id)%Z) (feedback_data s).
Proof.
  unfold delete_feedback.
  destruct (_ <? _)%nat; simpl; [|reflexivity].
  now rewrite feedback_data_save.
Qed.

(** [delete_feedback] does not roll back: when the save fails, the entry
    is gone from memory, still in the live file, and [True] is returned. *)
Lemma delete_feedback_ignores_failed_save :
  let out := delete_feedback Examples.one_feedback (FailWrite 3) 1 in
  snd out = true
  /\ feedback_data (fst out) = []
  /\ disk (fst out) (storage_path Examples.one_feedback)
     = Some (Written (feedback_data Examples.one_feedback))
  /\ feedback_data Examples.one_feedback <> [].
Proof. cbv zeta. repeat split; try reflexivity. discriminate. Qed.

(** C6: the code departs from the claim after a deletion.  The
    identifier of a new entry is the length of the history plus one:
    with entries 1 and 2 stored and entry 1 deleted, the next accepted
    submission is stored with identifier 2 again. *)
Theorem C6_identifier_reused_after_delete :
  let s2 := fst (Examples.submit (fst (Examples.submit Examples.fresh_feedback 5)) 4) in
  let s3 := fst (delete_feedback s2 NoFault 1) in
  let out := Examples.submit s3 3 in
  map feedback_id (feedback_data s2) = [1; 2]%Z
  /\ map feedback_id (feedback_data s3) = [2]%Z
  /\ (exists entry, snd out = Ok entry /\ feedback_id entry = 2%Z)
  /\ map feedback_id (feedback_data (fst out)) = [2; 2]%Z.
Proof.
  cbv zeta. repeat split; try reflexivity.
  eexists. split; reflexivity.
Qed.

(** ** Document metadata *)

(** C7: the code departs from the claim for document metadata.
    [_save_metadata] dumps straight into the live file and swallows the
    exception: a dump that fails after 3 characters leaves the live
    file torn, the new record in memory and no error for the caller.
    Under the same fault [store_feedback], which saves through a
    temporary file, leaves the live feedback file whole, takes the new
    entry back out of memory and raises. *)
Theorem C7_metadata_saved_in_place_without_rollback :
  let new := Examples.document "doc-2" "terms.txt" in
  let old := DocumentService.metadata Examples.one_document in
  let out := DocumentService.store_metadata Examples.one_document (FailWrite 3) new in
  let fb := Examples.submit Examples.one_feedback 5 in
  let fb' := store_feedback Examples.one_feedback "2025-01-02T10:00:00"
               (FailWrite 3) "query-2" (PyInt 5) None None None None in
  (* metadata *)
  DocumentService.disk Examples.one_document Examples.metadata_path
    = Some (Written old)
  /\ DocumentService.disk (fst out) Examples.metadata_path
     = Some (Torn (old ++ [("doc-2", new)])%list 3)
  /\ DocumentService.metadata (fst out) = (old ++ [("doc-2", new)])%list
  /\ snd out = Ok "doc-2"
  (* feedback, same fault *)
  /\ disk (fst fb') (storage_path Examples.one_feedback)
     = disk Examples.one_feedback (storage_path Examples.one_feedback)
  /\ feedback_data (fst fb') = feedback_data Examples.one_feedback
  /\ snd fb' = Raise SaveError.
Proof. cbv zeta. repeat split; reflexivity. Qed.

(** ** Statistics *)

(** C10, as stated, fails on the empty history: the statistics then
    carry an empty list of suggestions. *)
Lemma C10_counterexample :
  suggestions (get_feedback_stats []) = []
  /\ ~ In DEFAULT_SUGGESTION (suggestions (get_feedback_stats [])).
Proof. split; [reflexivity|]. simpl. tauto. Qed.

(** C10, amended: for a history that is not empty and holds no rating
    of 2 or less, the suggestions are the default message alone; for
    the empty history they are empty. *)
Theorem C10_default_suggestion_without_low_ratings
    (history : list FeedbackEntry) :
  history <> [] ->
  (forall f, In f history -> (2 < rating f)%Z) ->
  suggestions (get_feedback_stats history) = [DEFAULT_SUGGESTION]
  /\ low_rated_count (get_feedback_stats history) = 0%nat
  /\ suggestions (get_feedback_stats []) = [].
Proof.
  intros Hne H.
  assert (L : filter (fun f => (rating f <=? 2)%Z) history = []).
  { induction history as [|f l IH]; [reflexivity|]. simpl.
    replace (rating f <=? 2)%Z with false.
    - destruct l as [|g l]; [reflexivity|].
      apply IH; [discriminate|]. intros x Hx. apply H. now right.
    - symmetry. apply Z.leb_gt. apply H. now left. }
  destruct history as [|f l]; [congruence|].
  unfold get_feedback_stats. cbn [suggestions low_rated_count].
  rewrite L. repeat split.
Qed.

Lemma C10_default_suggestion_without_low_ratings_witness :
  suggestions (get_feedback_stats [Examples.rated 1 5; Examples.rated 2 3])
  = [DEFAULT_SUGGESTION].
Proof.
  apply (C10_default_suggestion_without_low_ratings
           [Examples.rated 1 5; Examples.rated 2 3]).
  - discriminate.
  - intros f [<-|[<-|[]]]; simpl; lia.
Defined.

End Persistence.


(* ================================================================== *)
(** * The providers and their factory *)
(* ================================================================== *)

Section ProviderFacts.
Import Providers.

(** Inside [_initialize] the test call runs while [is_initialized] is
    still false, so [generate_completion] refuses it. *)
Lemma openai_test_connection_fails (w : world) (key : option string) (m : string) :
  test_connection w
    {| provider_kind := OpenAI; api_key := key;
       is_initialized := false; client := true; model := m |} = false.
Proof. reflexivity. Qed.

Lemma OpenAIProvider_unavailable (w : world) (key : option string) (m : string) :
  is_available (OpenAIProvider w key m) = false.
Proof.
  unfold OpenAIProvider.
  destruct key as [k|]; [|reflexivity].
  destruct (negb (truthy (Some k)) || negb (PyStr.startswith "sk-" k));
    [reflexivity|].
  destruct (negb (openai_imports w)); [reflexivity|].
  destruct (negb (openai_client_constructs w)); [reflexivity|].
  rewrite openai_test_connection_fails. reflexivity.
Qed.

Lemma create_provider_openai (w : world) (kw : kwargs) :
  create_provider w "openai" kw = None.
Proof. unfold create_provider. simpl. now rewrite OpenAIProvider_unavailable. Qed.

(** X1: an OpenAI provider is never available, whatever the key, the
    model and the replies of the service: the connection test of
    [_initialize] calls [generate_completion] before [is_initialized] is
    set, and [generate_completion] raises for a provider that is not
    initialized.  The factory therefore never makes one. *)
Theorem openai_provider_never_available
    (w : world) (key : option string) (m : string) (kw : kwargs) :
  is_available (OpenAIProvider w key m) = false
  /\ create_provider w "openai" kw = None.
Proof.
  split; [apply OpenAIProvider_unavailable|apply create_provider_openai].
Qed.

Lemma create_provider_gemini (w : world) (key : option string) :
  create_provider w "gemini" {| kw_api_key := Some key; kw_model := None |}
  = if truthy key && gemini_imports w && gemini_client_constructs w
    then Some (GeminiProvider w key) else None.
Proof.
  unfold create_provider. simpl. unfold GeminiProvider, is_available.
  destruct (truthy key), (gemini_imports w), (gemini_client_constructs w);
    reflexivity.
Qed.

Lemma create_provider_geni (w : world) (key : option string) :
  create_provider w "geni" {| kw_api_key := Some key; kw_model := None |}
  = if geni_available w key then Some (GeniProvider w key) else None.
Proof. unfold create_provider. simpl. unfold is_available. simpl. reflexivity. Qed.

Lemma create_from_env_cases (w : world) (env : environ) :
  create_from_env w env =
    (if truthy (getenv "GOOGLE_API_KEY" env)
        && gemini_imports w && gemini_client_constructs w
     then GeminiProvider w (getenv "GOOGLE_API_KEY" env)
     else if truthy (getenv "GENI_API_KEY" env)
             && geni_available w (getenv "GENI_API_KEY" env)
          then GeniProvider w (getenv "GENI_API_KEY" env)
          else FallbackProvider).
Proof.
  unfold create_from_env.
  assert (O : match getenv "OPENAI_API_KEY" env with
              | Some k =>
                  if truthy (getenv "OPENAI_API_KEY" env)
                     && PyStr.startswith "sk-" k
                  then create_provider w "openai"
                         {| kw_api_key := Some (getenv "OPENAI_API_KEY" env);
                            kw_model := Some
                              (match getenv "OPENAI_MODEL" env with
                               | Some m => m
                               | None => "gpt-3.5-turbo"
                               end) |}
                  else None
              | None => None
              end = None).
  { destruct (getenv "OPENAI_API_KEY" env) as [k|]; [|reflexivity].
    destruct (_ && _); [|reflexivity].
    apply create_provider_openai. }
  rewrite O.
  destruct (truthy (getenv "GOOGLE_API_KEY" env)) eqn:G.
  - rewrite create_provider_gemini, G. simpl.
    destruct (gemini_imports w && gemini_client_constructs w); [reflexivity|].
    destruct (truthy (getenv "GENI_API_KEY" env)) eqn:N; [|reflexivity].
    rewrite create_provider_geni. simpl. now destruct (geni_available w _).
  - simpl.
    destruct (truthy (getenv "GENI_API_KEY" env)) eqn:N; [|reflexivity].
    rewrite create_provider_geni. simpl. now destruct (geni_available w _).
Qed.

Lemma create_from_env_available (w : world) (env : environ) :
  is_available (create_from_env w env) = true
  /\ provider_kind (create_from_env w env) <> OpenAI.
Proof.
  rewrite create_from_env_cases.
  destruct (truthy (getenv "GOOGLE_API_KEY" env)) eqn:G,
           (gemini_imports w) eqn:I, (gemini_client_constructs w) eqn:C;
    simpl; unfold GeminiProvider; rewrite ?G, ?I, ?C; simpl;
    try (split; [reflexivity|discriminate]);
    destruct (truthy (getenv "GENI_API_KEY" env)); simpl;
    try (split; [reflexivity|discriminate]);
    destruct (geni_available w (getenv "GENI_API_KEY" env)) eqn:A; simpl;
    unfold is_available; simpl; rewrite ?A;
    (split; [reflexivity|discriminate]).
Qed.

(** X2: [create_from_env] does not depend on [OPENAI_API_KEY]: it
    returns the Gemini provider when [GOOGLE_API_KEY] is set and the
    Gemini client can be made, else the Geni provider when
    [GENI_API_KEY] is set and that provider is available, else the
    rule-based provider; what it returns is always available. *)
Theorem create_from_env_selection (w : world) (env : environ) :
  let google := getenv "GOOGLE_API_KEY" env in
  let geni := getenv "GENI_API_KEY" env in
  create_from_env w env =
    (if truthy google && gemini_imports w && gemini_client_constructs w
     then GeminiProvider w google
     else if truthy geni && geni_available w geni
          then GeniProvider w geni
          else FallbackProvider)
  /\ is_available (create_from_env w env) = true
  /\ provider_kind (create_from_env w env) <> OpenAI.
Proof.
  cbv zeta. split; [apply create_from_env_cases|apply create_from_env_available].
Qed.

(** X3: the list of [get_all_available_providers] ends with the
    rule-based provider and holds before it only available Gemini and
    Geni providers; the Gemini key is read from [GEMINI_API_KEY], so
    that without this variable there is no Gemini provider in the list,
    [GOOGLE_API_KEY] set or not. *)
Theorem get_all_available_providers_shape (w : world) (env : environ) :
  exists l,
    get_all_available_providers w env = (l ++ [FallbackProvider])%list
    /\ Forall (fun p => is_available p = true
                        /\ (provider_kind p = Gemini \/ provider_kind p = Geni)) l
    /\ (truthy (getenv "GEMINI_API_KEY" env) = false ->
        Forall (fun p => provider_kind p = Geni) l).
Proof.
  unfold get_all_available_providers. eexists. split; [reflexivity|].
  cbn [flat_map]. change (upper "openai" ++ "_API_KEY") with "OPENAI_API_KEY".
  change (upper "gemini" ++ "_API_KEY") with "GEMINI_API_KEY".
  change (upper "geni" ++ "_API_KEY") with "GENI_API_KEY".
  assert (O : (if truthy (getenv "OPENAI_API_KEY" env)
               then match create_provider w "openai"
                            {| kw_api_key := Some (getenv "OPENAI_API_KEY" env);
                               kw_model := None |} with
                    | Some p => [p]
                    | None => []
                    end
               else []) = []).
  { rewrite create_provider_openai. now destruct (truthy _). }
  rewrite O, create_provider_gemini, create_provider_geni. cbn [List.app].
  rewrite app_nil_r.
  set (gem := getenv "GEMINI_API_KEY" env). set (gen := getenv "GENI_API_KEY" env).
  assert (PG : forall P : provider -> Prop,
             (truthy gem && gemini_imports w && gemini_client_constructs w = true ->
              P (GeminiProvider w gem)) ->
             (geni_available w gen = true -> P (GeniProvider w gen)) ->
             Forall P
               ((if truthy gem
                 then match (if truthy gem && gemini_imports w
                                && gemini_client_constructs w
                             then Some (GeminiProvider w gem) else None) with
                      | Some p => [p]
                      | None => []
                      end
                 else [])
                ++ (if truthy gen
                    then match (if geni_available w gen
                                then Some (GeniProvider w gen) else None) with
                         | Some p => [p]
                         | None => []
                         end
                    else []))%list).
  { intros P H1 H2. apply Forall_app. split.
    - destruct (truthy gem); [|constructor].
      destruct (true && gemini_imports w && gemini_client_constructs w) eqn:E;
        [|constructor].
      constructor; [now apply H1|constructor].
    - destruct (truthy gen); [|constructor].
      destruct (geni_available w gen) eqn:E; [|constructor].
      constructor; [now apply H2|constructor]. }
  split.
  - apply PG.
    + intros H. apply andb_true_iff in H as [H C].
      apply andb_true_iff in H as [G I].
      unfold GeminiProvider, is_available. rewrite G, I, C. simpl. auto.
    + intros H. unfold is_available. simpl. auto.
  - intros G. apply PG.
    + rewrite G. discriminate.
    + reflexivity.
Qed.

(** X4: the provider an [LLMService] holds is always available when the
    service was built from the environment, through any number of calls
    of [set_provider]; a call with no provider or with one that is not
    available changes nothing. *)
Theorem service_provider_stays_available
    (w : world) (env : environ) (given : list (option provider)) :
  is_available (fold_left set_provider given (LLMService_init w env None)) = true
  /\ (forall current p,
        is_available p = false ->
        set_provider current (Some p) = current
        /\ set_provider current None = current).
Proof.
  split.
  - assert (G : forall cur, is_available cur = true ->
                  is_available (fold_left set_provider given cur) = true).
    { induction given as [|g rest IH]; intros cur H; [exact H|].
      simpl. apply IH. unfold set_provider.
      destruct g as [p|]; [|exact H].
      destruct (is_available p) eqn:E; [exact E|exact H]. }
    apply G. simpl. apply create_from_env_available.
  - intros current p H. unfold set_provider. now rewrite H.
Qed.

End ProviderFacts.

(* ================================================================== *)
(** * Feedback: restarts, identifiers, queries and statistics *)
(* ================================================================== *)

Section FeedbackFacts.
Import Files FeedbackService FeedbackQueries Spec.

(** What [store_feedback] leaves in memory and in the live file. *)
Lemma store_feedback_outcome (s : service) (now : string) (ft : fault)
    (qid : string) (r : pyval) (text q a : option string) (c : option Q) :
  temp_path s <> storage_path s ->
  let out := store_feedback s now ft qid r text q a c in
  (feedback_data (fst out) = feedback_data s
   /\ disk (fst out) (storage_path s) = disk s (storage_path s)
   /\ raised (snd out) = true)
  \/ (exists e,
        snd out = Ok e
        /\ valid_rating r = true
        /\ r = PyInt (rating e)
        /\ feedback_id e = (Z.of_nat (List.length (feedback_data s)) + 1)%Z
        /\ query_id e = qid /\ timestamp e = now
        /\ feedback_data (fst out) = (feedback_data s ++ [e])%list
        /\ disk (fst out) (storage_path s)
           = Some (Written (feedback_data s ++ [e])%list)).
Proof.
  intros Hne out. subst out.
  destruct (valid_rating r) eqn:V.
  2:{ left. destruct (store_feedback_rejects s now ft qid r text q a c V) as [m ->].
      auto. }
  destruct r as [z| | |]; try discriminate.
  unfold store_feedback.
  pose proof V as V'. simpl in V'. apply andb_true_iff in V' as [H1 H2].
  apply Z.leb_le in H1, H2.
  replace ((z <? 1) || (5 <? z))%Z with false.
  2:{ symmetry. apply orb_false_iff. split; apply Z.ltb_ge; lia. }
  set (e := {| feedback_id := Z.of_nat (List.length (feedback_data s)) + 1;
               query_id := qid; rating := z; feedback_text := text; query := q;
               answer := a; confidence := c; timestamp := now |}).
  set (s1 := with_data s (feedback_data s ++ [e])).
  pose proof (feedback_data_save s1 ft) as D.
  pose proof (_save_feedback_atomic s1 ft Hne) as A. cbv zeta in A.
  destruct (_save_feedback s1 ft) as [s2 saved]. simpl in D, A.
  destruct A as [[A1 A2]|[A1 A2]]; subst saved; simpl.
  - left. rewrite D. simpl. rewrite removelast_last. auto.
  - right. exists e. repeat split; auto.
Qed.

(** X5: a restart after [store_feedback] finds the history the service
    held when the call ended, whether the submission was rejected,
    stored, or lost to a failed save: the file and the memory stay in
    step. *)
Theorem store_feedback_keeps_file_in_step
    (backup : string) (s : service) (now : string) (ft : fault)
    (qid : string) (r : pyval) (text q a : option string) (c : option Q) :
  temp_path s <> storage_path s ->
  in_sync backup s ->
  let s' := fst (store_feedback s now ft qid r text q a c) in
  in_sync backup s'
  /\ feedback_data (restart backup s') = feedback_data s'.
Proof.
  intros Hne Hs s'.
  assert (P : storage_path s' = storage_path s).
  { subst s'. unfold store_feedback. destruct r; try reflexivity.
    destruct (_ || _)%bool; [reflexivity|].
    unfold _save_feedback, open_and_dump, replace.
    destruct ft; reflexivity. }
  assert (I : in_sync backup s').
  { unfold in_sync in *. rewrite P.
    destruct (store_feedback_outcome s now ft qid r text q a c Hne)
      as [(A & B & _)|(e & _ & _ & _ & _ & _ & _ & A & B)]; fold s' in A, B.
    - rewrite A, <- Hs. unfold _load_feedback. rewrite B.
      now destruct (disk s (storage_path s)) as [[|]|].
    - rewrite A. unfold _load_feedback. now rewrite B. }
  split; [exact I|].
  unfold restart, init. unfold in_sync in I.
  destruct (_load_feedback (storage_path s') backup (disk s')). exact I.
Qed.

Lemma store_feedback_keeps_file_in_step_witness :
  feedback_data (restart "storage/feedback/feedback.json.backup"
                   (fst (Examples.submit Examples.fresh_feedback 4)))
  = feedback_data (fst (Examples.submit Examples.fresh_feedback 4)).
Proof.
  apply (store_feedback_keeps_file_in_step
           "storage/feedback/feedback.json.backup" Examples.fresh_feedback).
  - discriminate.
  - reflexivity.
Defined.

(** X6: as long as the identifiers are 1, 2, ..., n in this order (as
    they are from a fresh history until an entry is deleted),
    [store_feedback] keeps them so, and an accepted submission gets an
    identifier above every stored one. *)
Theorem store_feedback_ids_consecutive
    (s : service) (now : string) (ft : fault)
    (qid : string) (r : pyval) (text q a : option string) (c : option Q) :
  consecutive_ids (feedback_data s) ->
  let out := store_feedback s now ft qid r text q a c in
  consecutive_ids (feedback_data (fst out))
  /\ (forall e, snd out = Ok e ->
        forall f, In f (feedback_data s) -> (feedback_id f < feedback_id e)%Z).
Proof.
  intros Hc out. subst out.
  destruct (valid_rating r) eqn:V.
  2:{ destruct (store_feedback_rejects s now ft qid r text q a c V) as [m ->].
      split; [exact Hc|discriminate]. }
  destruct r as [z| | |]; try discriminate.
  destruct (store_feedback_accepts s now ft qid z text q a c V)
    as [[A B]|[A B]]; rewrite A, B.
  - split.
    + unfold consecutive_ids in *. rewrite map_app, length_app, Hc. simpl.
      rewrite Nat.add_1_r, seq_S, map_app. simpl. do 3 f_equal. lia.
    + intros e [= <-] f Hf. simpl.
      apply (in_map feedback_id) in Hf. unfold consecutive_ids in Hc.
      rewrite Hc in Hf. apply in_map_iff in Hf as [k [<- Hk]].
      apply in_seq in Hk. lia.
  - split; [exact Hc|discriminate].
Qed.

Lemma store_feedback_ids_consecutive_witness :
  consecutive_ids
    (feedback_data (fst (Examples.submit (fst (Examples.submit Examples.fresh_feedback 5)) 4))).
Proof.
  apply (store_feedback_ids_consecutive
           (fst (Examples.submit Examples.fresh_feedback 5))).
  reflexivity.
Defined.

Lemma filter_length_lt {A : Type} (p : A -> bool) (l : list A) :
  (List.length (filter p l) <? List.length l)%nat = existsb (fun x => negb (p x)) l.
Proof.
  induction l as [|x l IH]; [reflexivity|].
  pose proof (filter_length_le p l) as L. simpl.
  destruct (p x); simpl.
  - exact IH.
  - apply Nat.ltb_lt. lia.
Qed.

(** X7: [delete_feedback] answers [True] exactly when an entry has the
    identifier; it removes every entry with that identifier and keeps
    the others, in order and unchanged, whether the save succeeds or
    not. *)
Theorem delete_feedback_result (s : service) (ft : fault) (id : Z) :
  snd (delete_feedback s ft id)
  = existsb (fun f => (feedback_id f =? id)%Z) (feedback_data s)
  /\ feedback_data (fst (delete_feedback s ft id))
     = filter (fun f => negb (feedback_id f =? id)%Z) (feedback_data s)
  /\ (forall f, In f (feedback_data (fst (delete_feedback s ft id))) <->
                In f (feedback_data s) /\ feedback_id f <> id).
Proof.
  split; [|split].
  - unfold delete_feedback. cbv zeta. rewrite filter_length_lt.
    assert (E : existsb (fun x => negb (negb (feedback_id x =? id)%Z)) (feedback_data s)
                = existsb (fun f => (feedback_id f =? id)%Z) (feedback_data s)).
    { induction (feedback_data s) as [|x l IH]; [reflexivity|].
      simpl. now rewrite negb_involutive, IH. }
    rewrite E.
    destruct (existsb (fun f => (feedback_id f =? id)%Z) (feedback_data s));
      reflexivity.
  - apply delete_feedback_keeps.
  - intros f. rewrite delete_feedback_keeps, filter_In, negb_true_iff, Z.eqb_neq.
    tauto.
Qed.

(** X8: [store_feedback] and [delete_feedback] keep every stored rating
    an integer from 1 to 5. *)
Theorem ratings_stay_valid
    (s : service) (now : string) (ft : fault)
    (qid : string) (r : pyval) (text q a : option string) (c : option Q) (id : Z) :
  ratings_valid (feedback_data s) ->
  ratings_valid (feedback_data (fst (store_feedback s now ft qid r text q a c)))
  /\ ratings_valid (feedback_data (fst (delete_feedback s ft id))).
Proof.
  intros H. split.
  - destruct (valid_rating r) eqn:V.
    2:{ now destruct (store_feedback_rejects s now ft qid r text q a c V) as [m ->]. }
    destruct r as [z| | |]; try discriminate.
    destruct (store_feedback_accepts s now ft qid z text q a c V)
      as [[_ B]|[_ B]]; rewrite B; [|exact H].
    apply Forall_app. split; [exact H|]. constructor; [|constructor].
    simpl in V |- *. apply andb_true_iff in V as [V1 V2].
    apply Z.leb_le in V1, V2. lia.
  - rewrite delete_feedback_keeps. unfold ratings_valid in *.
    rewrite Forall_forall in *. intros f Hf. apply filter_In in Hf as [Hf _].
    now apply H.
Qed.

Lemma ratings_stay_valid_witness :
  ratings_valid (feedback_data (fst (Examples.submit Examples.fresh_feedback 4))).
Proof.
  apply (ratings_stay_valid Examples.fresh_feedback "2025-01-01T10:00:00" NoFault
           "query-1" (PyInt 4) None None None None 0).
  constructor.
Defined.

Lemma count_rating_cons (i r : Z) (l : list Z) :
  count_rating i (r :: l)
  = ((if (i =? r)%Z then 1 else 0) + count_rating i l)%nat.
Proof. unfold count_rating. simpl. now destruct (i =? r)%Z. Qed.

Lemma buckets_total (l : list Z) :
  Forall (fun r => (1 <= r <= 5)%Z) l ->
  (count_rating 1 l + count_rating 2 l + count_rating 3 l
   + count_rating 4 l + count_rating 5 l = List.length l)%nat.
Proof.
  induction 1 as [|r l Hr _ IH]; [reflexivity|].
  rewrite !count_rating_cons. simpl List.length.
  assert (r = 1 \/ r = 2 \/ r = 3 \/ r = 4 \/ r = 5)%Z as Hcase by lia.
  destruct Hcase as [->|[->|[->|[->| ->]]]]; simpl; lia.
Qed.

(** X9: when every rating is an integer from 1 to 5, the five buckets
    of [rating_distribution] add up to [total_feedback], the length of
    the history, and [low_rated_count] is the sum of the buckets of 1
    and 2. *)
Theorem stats_buckets_add_up (history : list FeedbackEntry) :
  ratings_valid history ->
  let st := get_feedback_stats history in
  total_feedback st = List.length history
  /\ map fst (rating_distribution st) = ["1"; "2"; "3"; "4"; "5"]
  /\ fold_right Nat.add 0%nat (map snd (rating_distribution st))
     = total_feedback st
  /\ low_rated_count st
     = (count_rating 1 (map rating history) + count_rating 2 (map rating history))%nat.
Proof.
  intros H st. subst st.
  destruct history as [|f l]; [repeat split|].
  assert (V : Forall (fun r => (1 <= r <= 5)%Z) (map rating (f :: l))).
  { apply Forall_forall. intros r Hr. apply in_map_iff in Hr as [x [<- Hx]].
    unfold ratings_valid in H. rewrite Forall_forall in H. now apply H. }
  pose proof (buckets_total _ V) as B. rewrite length_map in B.
  unfold get_feedback_stats.
  cbn [total_feedback rating_distribution low_rated_count].
  split; [reflexivity|]. split; [reflexivity|]. split.
  - cbn [seq map fold_right]. change (Z.of_nat 1) with 1%Z.
    change (Z.of_nat 2) with 2%Z. change (Z.of_nat 3) with 3%Z.
    change (Z.of_nat 4) with 4%Z. change (Z.of_nat 5) with 5%Z.
    cbn [snd]. change (rating f :: map rating l) with (map rating (f :: l)). lia.
  - clear B. generalize (f :: l) V. clear. intros l V.
    induction l as [|x l IH]; [reflexivity|].
    inversion V as [|r rs Hr Hrs]; subst. cbn [map].
    rewrite !count_rating_cons. cbn [filter].
    assert (rating x = 1 \/ rating x = 2 \/ rating x = 3 \/ rating x = 4
            \/ rating x = 5)%Z as Hcase by lia.
    specialize (IH Hrs).
    destruct Hcase as [E|[E|[E|[E|E]]]]; rewrite E; simpl; rewrite IH; lia.
Qed.

Lemma stats_buckets_add_up_witness :
  fold_right Nat.add 0%nat
    (map snd (rating_distribution
                (get_feedback_stats [Examples.rated 1 5; Examples.rated 2 3])))
  = 2%nat.
Proof.
  destruct (stats_buckets_add_up [Examples.rated 1 5; Examples.rated 2 3])
    as (A & _ & B & _).
  - repeat constructor; simpl; lia.
  - rewrite B. exact A.
Defined.

Lemma In_insert_newest (x y : FeedbackEntry) (l : list FeedbackEntry) :
  In x (insert_newest y l) <-> x = y \/ In x l.
Proof.
  induction l as [|z l IH]; simpl; [intuition auto|].
  destruct (String.ltb (timestamp z) (timestamp y)); simpl; intuition auto.
Qed.

Lemma length_insert_newest (y : FeedbackEntry) (l : list FeedbackEntry) :
  List.length (insert_newest y l) = S (List.length l).
Proof.
  induction l as [|z l IH]; simpl; [reflexivity|].
  destruct (String.ltb (timestamp z) (timestamp y)); simpl; congruence.
Qed.

Lemma sorted_newest_first_acc (l acc : list FeedbackEntry) :
  (forall x, In x (fold_left (fun a y => insert_newest y a) l acc)
             <-> In x l \/ In x acc)
  /\ List.length (fold_left (fun a y => insert_newest y a) l acc)
     = (List.length l + List.length acc)%nat.
Proof.
  revert acc; induction l as [|y l IH]; intros acc; simpl.
  - split; [intuition auto|reflexivity].
  - destruct (IH (insert_newest y acc)) as [A B]. split.
    + intros x. rewrite A, In_insert_newest. intuition auto.
    + rewrite B, length_insert_newest. lia.
Qed.

Lemma In_sorted_newest_first (x : FeedbackEntry) (l : list FeedbackEntry) :
  In x (sorted_newest_first l) <-> In x l.
Proof.
  unfold sorted_newest_first.
  rewrite (proj1 (sorted_newest_first_acc l [])). simpl. tauto.
Qed.

Lemma length_sorted_newest_first (l : list FeedbackEntry) :
  List.length (sorted_newest_first l) = List.length l.
Proof.
  unfold sorted_newest_first.
  rewrite (proj2 (sorted_newest_first_acc l [])). simpl. lia.
Qed.

(** X10: [get_recent_feedback] returns stored entries only; for a limit
    that is not negative it returns [limit] of them, or all when there
    are fewer, and for a negative limit it leaves out as many as the
    limit says, or returns nothing when there are fewer. *)
Theorem get_recent_feedback_size (s : service) (limit : Z) :
  (forall f, In f (get_recent_feedback s limit) -> In f (feedback_data s))
  /\ ((0 <= limit)%Z ->
      List.length (get_recent_feedback s limit)
      = Nat.min (Z.to_nat limit) (List.length (feedback_data s)))
  /\ ((limit < 0)%Z ->
      List.length (get_recent_feedback s limit)
      = (List.length (feedback_data s) - Z.to_nat (- limit))%nat).
Proof.
  unfold get_recent_feedback, slice_to.
  split; [|split].
  - intros f Hf. apply In_sorted_newest_first.
    destruct (0 <=? limit)%Z; eapply In_firstn; exact Hf.
  - intros H. apply Z.leb_le in H. rewrite H.
    now rewrite length_firstn, length_sorted_newest_first.
  - intros H. apply Z.leb_gt in H. rewrite H.
    rewrite length_firstn, length_sorted_newest_first. lia.
Qed.

Lemma get_recent_feedback_size_witness :
  List.length (get_recent_feedback Examples.one_feedback 10) = 1%nat.
Proof.
  destruct (get_recent_feedback_size Examples.one_feedback 10) as (_ & A & _).
  rewrite A; [reflexivity|lia].
Defined.



Lemma find_app {A : Type} (p : A -> bool) (l1 l2 : list A) :
  List.find p (l1 ++ l2)
  = match List.find p l1 with Some x => Some x | None => List.find p l2 end.
Proof. induction l1 as [|x l IH]; simpl; [reflexivity|]. now destruct (p x). Qed.

(** X12: after an accepted submission, [get_feedback_by_query_id] for
    its query identifier finds the entry that was already stored for
    this identifier if there is one, and the new entry otherwise: the
    first feedback of a query hides the later ones. *)
Theorem stored_feedback_found_by_query_id
    (s : service) (now : string) (ft : fault)
    (qid : string) (r : pyval) (text q a : option string) (c : option Q)
    (e : FeedbackEntry) :
  snd (store_feedback s now ft qid r text q a c) = Ok e ->
  get_feedback_by_query_id (fst (store_feedback s now ft qid r text q a c)) qid
  = match get_feedback_by_query_id s qid with
    | Some f => Some f
    | None => Some e
    end.
Proof.
  intros He.
  destruct (valid_rating r) eqn:V.
  2:{ destruct (store_feedback_rejects s now ft qid r text q a c V) as [m E].
      rewrite E in He. discriminate. }
  destruct r as [z| | |]; try discriminate.
  destruct (store_feedback_accepts s now ft qid z text q a c V)
    as [[A B]|[A B]]; rewrite A in He; [|discriminate].
  injection He as <-.
  unfold get_feedback_by_query_id. rewrite B, find_app.
  destruct (List.find _ (feedback_data s)); [reflexivity|].
  simpl. now rewrite String.eqb_refl.
Qed.

Lemma stored_feedback_found_by_query_id_witness :
  get_feedback_by_query_id (fst (Examples.submit Examples.one_feedback 2)) "query-1"
  = List.hd_error (feedback_data Examples.one_feedback).
Proof.
  destruct (snd (Examples.submit Examples.one_feedback 2)) as [e|x] eqn:E.
  - unfold Examples.submit in *.
    rewrite (stored_feedback_found_by_query_id _ _ _ _ _ _ _ _ _ e E).
    reflexivity.
  - discriminate.
Defined.

(** X13: [_generate_suggestions] never returns an empty list, and with
    more than three low-rated entries its result holds the message that
    counts them. *)
Theorem suggestions_never_empty (low_rated : list FeedbackEntry) :
  _generate_suggestions low_rated <> []
  /\ ((3 < List.length low_rated)%nat ->
      In (coverage_message (List.length low_rated))
         (_generate_suggestions low_rated)).
Proof.
  unfold _generate_suggestions.
  set (sg := if (0 <? List.length low_rated)%nat then _ else []).
  split.
  - destruct sg; discriminate.
  - intros H.
    assert (I : In (coverage_message (List.length low_rated)) sg).
    { subst sg.
      replace (0 <? List.length low_rated)%nat with true
        by (symmetry; apply Nat.ltb_lt; lia).
      replace (3 <? List.length low_rated)%nat with true
        by (symmetry; apply Nat.ltb_lt; lia).
      cbv zeta.
      match goal with
      | |- In _ (match ?q with [] => ?s2 | _ => _ end) =>
          assert (I2 : In (coverage_message (List.length low_rated)) s2)
            by (apply in_or_app; right; now left);
          destruct q; [exact I2|]
      end.
      match goal with
      | |- In _ (match ?t with [] => _ | _ => _ end) =>
          destruct t; [exact I2|apply in_or_app; now left]
      end. }
    destruct sg; [destruct I|exact I].
Qed.

Lemma suggestions_never_empty_witness :
  In (coverage_message 4)
     (_generate_suggestions
        [Examples.rated 1 1; Examples.rated 2 2; Examples.rated 3 1; Examples.rated 4 2]).
Proof.
  apply (suggestions_never_empty
           [Examples.rated 1 1; Examples.rated 2 2; Examples.rated 3 1; Examples.rated 4 2]).
  simpl. lia.
Defined.

End FeedbackFacts.

(* ================================================================== *)
(** * The embedder and the stored chunks *)
(* ================================================================== *)

Section VectorStoreFacts.
Import PyStr EmbeddingService VectorStore.

Lemma ready_after (e : embedder) (w : world) :
  ready e -> ready (after (_generate_embedding e w)).
Proof.
  unfold ready, _generate_embedding. intros [H1 H2].
  destruct (use_openai e) eqn:U; simpl.
  - rewrite (H1 eq_refl). simpl.
    destruct (remote_create w); simpl; [rewrite U; auto|].
    destruct (negb (embedding_model e) && negb (local_init w)); simpl;
      [rewrite U; auto|]. split; [discriminate|reflexivity].
  - rewrite U. auto.
Qed.

Lemma ready_run (e : embedder) (ws : list world) :
  ready e -> Forall (fun o => ready (after o)) (run e ws).
Proof.
  revert e; induction ws as [|w ws IH]; intros e H; [constructor|].
  cbn [run]. constructor; [now apply ready_after|].
  apply IH. now apply ready_after.
Qed.

(** X14: the embedder that [__init__] leaves, and every state it goes
    through afterwards, either uses the remote service with a client or
    has the local model loaded; in such a state a call returns a vector
    whenever the local model encodes and, if the remote call fails, is
    loaded or loads. *)
Theorem embedder_stays_ready
    (key : option string) (imports constructs test loads : bool)
    (e : embedder) (ws : list world) :
  init_embedder key imports constructs test loads = Ok e ->
  ready e
  /\ Forall (fun o => ready (after o)) (run e ws)
  /\ (forall e' w v,
        ready e' ->
        local_encode w = Some v ->
        embedding_model e' = true \/ local_init w = true ->
        raised (returned (_generate_embedding e' w)) = false).
Proof.
  intros H.
  assert (R : ready e).
  { unfold init_embedder in H.
    assert (L : forall c,
               (if loads
                then Ok {| use_openai := false; openai_client := c;
                           embedding_model := true |}
                else Raise EmbeddingError) = Ok e -> ready e).
    { intros c. destruct loads; [|discriminate]. intros [= <-].
      split; simpl; [discriminate|reflexivity]. }
    destruct key as [k|]; [|now apply (L false)].
    destruct (_ && _); [|now apply (L false)].
    destruct (negb imports); [now apply (L false)|].
    destruct (negb constructs); [now apply (L false)|].
    destruct test; [|now apply (L true)].
    injection H as <-. split; simpl; [reflexivity|discriminate]. }
  split; [exact R|]. split; [now apply ready_run|].
  intros e' w v [R1 R2] Hv Hl. unfold _generate_embedding.
  destruct (use_openai e') eqn:U; simpl.
  - rewrite (R1 eq_refl). simpl.
    destruct (remote_create w); [reflexivity|].
    replace (negb (embedding_model e') && negb (local_init w)) with false.
    + simpl. unfold encode. simpl. now rewrite Hv.
    + symmetry. destruct Hl as [-> | ->]; [reflexivity|].
      now rewrite andb_false_r.
  - unfold encode. rewrite (R2 eq_refl), Hv. reflexivity.
Qed.

Lemma embedder_stays_ready_witness :
  Forall (fun o => ready (after o))
    (run init_remote [Examples.remote_down; Examples.online]).
Proof.
  apply (embedder_stays_ready (Some "skt-test") true true true true
           init_remote [Examples.remote_down; Examples.online]).
  reflexivity.
Defined.

(** X15: only a key that begins with [skt-] makes the service use OpenAI
    embeddings.  With any other key, or none, the service starts on the
    local model and no call ever reaches the remote service. *)
Theorem remote_embeddings_need_skt_key
    (key : option string) (imports constructs test loads : bool)
    (e : embedder) (ws : list world) :
  init_embedder key imports constructs test loads = Ok e ->
  (forall k, key = Some k -> startswith "skt-" k = false) ->
  use_openai e = false
  /\ embedding_model e = true
  /\ Forall (fun o => called_remote o = false) (run e ws).
Proof.
  intros H Hk.
  assert (E : e = {| use_openai := false; openai_client := false;
                     embedding_model := true |}).
  { unfold init_embedder in H. destruct key as [k|].
    - rewrite (Hk k eq_refl), andb_false_r in H.
      destruct loads; [now injection H as <-|discriminate].
    - destruct loads; [now injection H as <-|discriminate]. }
  subst e. split; [reflexivity|]. split; [reflexivity|].
  now apply local_stays_local.
Qed.

Lemma remote_embeddings_need_skt_key_witness :
  Forall (fun o => called_remote o = false)
    (run init_local [Examples.online; Examples.online]).
Proof.
  apply (remote_embeddings_need_skt_key (Some "sk-proj-abc") true true true true
           init_local [Examples.online; Examples.online]).
  - reflexivity.
  - intros k [= <-]. reflexivity.
Defined.

(** ** [embed_and_store] *)

Lemma embed_chunks_entries (chunks : list (Document * world)) :
  forall (e : embedder) (d : string) (idx : nat) (e' : embedder)
         (entries : list IndexEntry),
  embed_chunks e d idx chunks = (e', Ok entries) ->
  List.length entries = List.length chunks
  /\ (forall i entry,
        nth_error entries i = Some entry ->
        exists c w v,
          nth_error chunks i = Some (c, w)
          /\ entry = entry_of d (idx + i) c v).
Proof.
  induction chunks as [|[c w] rest IH]; intros e d idx e' entries H.
  - simpl in H. injection H as <- <-. split; [reflexivity|].
    intros [|i] entry Hn; discriminate.
  - cbn [embed_chunks] in H.
    destruct (returned (_generate_embedding e w)) as [v|x]; [|discriminate].
    destruct (embed_chunks (after (_generate_embedding e w)) d (S idx) rest)
      as [e1 [l|x]] eqn:E; [|discriminate].
    injection H as <- <-.
    destruct (IH _ _ _ _ _ E) as [L N]. split; [simpl; congruence|].
    intros [|i] entry Hn; simpl in Hn.
    + injection Hn as <-. exists c, w, v. rewrite Nat.add_0_r. auto.
    + destruct (N i entry Hn) as (c' & w' & v' & A & B).
      exists c', w', v'. split; [exact A|]. rewrite B. f_equal. lia.
Qed.


(** ** Identifiers of chunks *)

Lemma str_of_nat_inj (i j : nat) : str_of_nat i = str_of_nat j -> i = j.
Proof.
  unfold str_of_nat. intros H.
  apply (f_equal NilEmpty.uint_of_string) in H.
  rewrite !NilEmpty.usu in H. injection H as H.
  apply (f_equal Nat.of_uint) in H.
  now rewrite !DecimalNat.Unsigned.of_to in H.
Qed.

Lemma append_inj_l (c a b : string) : a ++ c = b ++ c -> a = b.
Proof.
  revert b; induction a as [|x a IH]; intros b H.
  - destruct b as [|y b]; [reflexivity|].
    apply (f_equal String.length) in H. simpl in H.
    rewrite length_append in H. lia.
  - destruct b as [|y b].
    + apply (f_equal String.length) in H. simpl in H.
      rewrite length_append in H. lia.
    + simpl in H. injection H as -> H. f_equal. now apply IH.
Qed.

Lemma last_piece_chunk_id (d : string) (i : nat) :
  last_piece (split "_" (d ++ "_" ++ str_of_nat i)) = str_of_nat i.
Proof.
  apply last_piece_after; [discriminate|reflexivity|].
  apply (all_chars_not_contains Spec.is_digit);
    [apply str_of_nat_digits|reflexivity].
Qed.

(** X17: the identifier [embed_and_store] gives a chunk,
    [document_id_idx], determines the document identifier and the
    position: two chunks have the same identifier only if they are the
    same chunk of the same document. *)
Theorem chunk_ids_unique (d d' : string) (i j : nat) (c c' : Document)
    (v v' : vector) :
  entry_id (entry_of d i c v) = entry_id (entry_of d' j c' v') <->
  d = d' /\ i = j.
Proof.
  split; [|now intros [-> ->]].
  intros H. cbn [entry_id entry_of] in H.
  assert (E : str_of_nat i = str_of_nat j).
  { rewrite <- (last_piece_chunk_id d i), <- (last_piece_chunk_id d' j).
    now rewrite H. }
  split; [|now apply str_of_nat_inj].
  rewrite E in H. now apply append_inj_l in H.
Qed.


(** ** Deleting the chunks of a document *)

Lemma get_lookup (key default : string) (md : metadata) :
  get key default md
  = match lookup key md with Some v => v | None => default end.
Proof.
  induction md as [|[k v] md IH]; simpl; [reflexivity|].
  now destruct (String.eqb k key).
Qed.

Lemma mem_In (x : string) (l : list string) : mem x l = true <-> In x l.
Proof.
  unfold mem. rewrite existsb_exists. split.
  - intros [y [Hy E]]. apply String.eqb_eq in E. now subst.
  - intros H. exists x. split; [exact H|apply String.eqb_refl].
Qed.

(** After the deletion no entry of the document is left. *)
Lemma delete_document_chunks_none_left (index : list IndexEntry) (d : string) :
  forall e, In e (delete_document_chunks index d) ->
            In e index /\ where_doc_id d e = false.
Proof.
  intros e. unfold delete_document_chunks.
  destruct (map entry_id (filter (where_doc_id d) index)) as [|i ids] eqn:E.
  - intros H. split; [exact H|].
    destruct (where_doc_id d e) eqn:W; [|reflexivity].
    assert (In e (filter (where_doc_id d) index)) as I by (apply filter_In; auto).
    apply (in_map entry_id) in I. rewrite E in I. destruct I.
  - unfold collection_delete. rewrite filter_In, negb_true_iff.
    intros [H M]. split; [exact H|].
    destruct (where_doc_id d e) eqn:W; [|reflexivity].
    assert (In e (filter (where_doc_id d) index)) as I by (apply filter_In; auto).
    apply (in_map entry_id) in I. rewrite E in I.
    apply mem_In in I. congruence.
Qed.



Lemma NoDup_map_eq {A B : Type} (f : A -> B) (l : list A) (x y : A) :
  NoDup (map f l) -> In x l -> In y l -> f x = f y -> x = y.
Proof.
  induction l as [|z l IH]; [intros _ []|].
  simpl. intros N. inversion N as [|? ? Hz Hl]; subst.
  intros [->|Hx] [->|Hy] E; auto.
  - exfalso. apply Hz. rewrite E. now apply in_map.
  - exfalso. apply Hz. rewrite <- E. now apply in_map.
Qed.

(** X19: when the identifiers of the stored entries are pairwise
    distinct, [delete_document_chunks] removes exactly the entries of
    the document and keeps the others in order. *)
Theorem delete_document_chunks_exact (index : list IndexEntry) (d : string) :
  NoDup (map entry_id index) ->
  delete_document_chunks index d
  = filter (fun e => negb (where_doc_id d e)) index.
Proof.
  intros N. unfold delete_document_chunks.
  destruct (map entry_id (filter (where_doc_id d) index)) as [|i ids] eqn:E.
  - symmetry. apply forallb_filter_id. apply forallb_forall. intros e He.
    destruct (where_doc_id d e) eqn:W; [|reflexivity].
    assert (In e (filter (where_doc_id d) index)) as I by (apply filter_In; auto).
    apply (in_map entry_id) in I. rewrite E in I. destruct I.
  - unfold collection_delete. rewrite <- E. apply filter_ext_in.
    intros e He. f_equal.
    destruct (where_doc_id d e) eqn:W.
    + apply mem_In. apply in_map. apply filter_In. auto.
    + destruct (mem _ _) eqn:M; [|reflexivity].
      apply mem_In, in_map_iff in M as [e' [Eid He']].
      apply filter_In in He' as [He' W'].
      assert (e' = e) by (eapply NoDup_map_eq; eauto).
      congruence.
Qed.

Lemma delete_document_chunks_exact_witness :
  delete_document_chunks Examples.toy_index "doc-2" = Examples.toy_index.
Proof.
  rewrite (delete_document_chunks_exact Examples.toy_index "doc-2").
  - reflexivity.
  - repeat constructor. simpl. tauto.
Defined.

End VectorStoreFacts.

(* ================================================================== *)
(** * Documents: uploads, lookups and restarts *)
(* ================================================================== *)

Section DocumentFacts.
Import PyStr Files DocumentService DocumentStore.

Lemma has_key_lookup (k : string) (d : metadata_dict) :
  has_key k d = match lookup k d with Some _ => true | None => false end.
Proof.
  induction d as [|[k' v] d IH]; simpl; [reflexivity|].
  destruct (String.eqb k' k); [reflexivity|exact IH].
Qed.

Lemma lookup_set_item (k k' : string) (v : DocumentRecord) (d : metadata_dict) :
  lookup k' (set_item k v d) = if String.eqb k k' then Some v else lookup k' d.
Proof.
  induction d as [|[x y] d IH]; simpl.
  - reflexivity.
  - destruct (String.eqb x k) eqn:E; simpl.
    + apply String.eqb_eq in E. subst x.
      destruct (String.eqb k k'); reflexivity.
    + rewrite IH. destruct (String.eqb k k') eqn:E2; [|reflexivity].
      apply String.eqb_eq in E2. subst k'. now rewrite E.
Qed.

Lemma lookup_del_item (k k' : string) (d : metadata_dict) :
  lookup k' (del_item k d) = if String.eqb k k' then None else lookup k' d.
Proof.
  induction d as [|[x y] d IH]; simpl.
  - now destruct (String.eqb k k').
  - destruct (String.eqb x k) eqn:E; simpl.
    + apply String.eqb_eq in E. subst x. rewrite IH.
      destruct (String.eqb k k'); reflexivity.
    + rewrite IH. destruct (String.eqb k k') eqn:E2; [|reflexivity].
      apply String.eqb_eq in E2. subst k'. now rewrite E.
Qed.

Lemma set_item_fresh (k : string) (v : DocumentRecord) (d : metadata_dict) :
  has_key k d = false -> set_item k v d = (d ++ [(k, v)])%list.
Proof.
  induction d as [|[x y] d IH]; simpl; [reflexivity|].
  destruct (String.eqb x k); [discriminate|].
  simpl. intros H. now rewrite IH.
Qed.

(** X20: an upload that fails raises the exception again and leaves the
    metadata and its file as they were; the clean-up of the handler
    removes nothing, because the new identifier is not in the metadata
    yet: the directory made for the upload stays. *)
Theorem failed_upload_leaves_directory
    (st : store) (u : upload) (rmtree_ok : bool) (ft : fault)
    (filename : string) (x : exn) :
  has_key (uuid4 u) (metadata (service_of st)) = false ->
  snd (save_and_process st u rmtree_ok ft filename) = Raise x ->
  let st' := fst (save_and_process st u rmtree_ok ft filename) in
  service_of st' = service_of st
  /\ In (uuid4 u) (directories st')
  /\ (forall d, In d (directories st) -> In d (directories st')).
Proof.
  intros Hk Hx st'. subst st'. unfold save_and_process in *.
  set (dirs1 := if mem (uuid4 u) (directories st) then directories st
                else List.app (directories st) [uuid4 u]) in *.
  assert (I1 : In (uuid4 u) dirs1).
  { subst dirs1. destruct (mem _ _) eqn:M.
    - now apply mem_In.
    - apply in_or_app. right. now left. }
  assert (I2 : forall d, In d (directories st) -> In d dirs1).
  { intros d Hd. subst dirs1. destruct (mem _ _); [exact Hd|].
    apply in_or_app. now left. }
  destruct (written u) as [[]|y]; [|simpl; auto].
  destruct (process_document u (uuid4 u ++ "/" ++ filename)) as [chunks|y];
    [discriminate|].
  unfold delete_document. cbn [service_of]. rewrite Hk. simpl. auto.
Qed.

Lemma failed_upload_leaves_directory_witness :
  In "doc-9"
    (directories
       (fst (save_and_process
               {| service_of := Examples.one_document; directories := ["doc-1"] |}
               Uploads.upload_exe true NoFault "setup.exe"))).
Proof.
  exact (proj1 (proj2 (failed_upload_leaves_directory
           {| service_of := Examples.one_document; directories := ["doc-1"] |}
           Uploads.upload_exe true NoFault "setup.exe"
           (ValueError "Unsupported file type: .exe") eq_refl eq_refl))).
Defined.

(** X21: an upload that succeeds returns the new identifier and the
    chunks; afterwards [get_document_by_id] finds for it a record with
    the file name and the number of chunks, the other documents are
    found as before, and [get_stats] counts one document and the new
    chunks more when the identifier is new. *)
Theorem successful_upload_is_recorded
    (st : store) (u : upload) (rmtree_ok : bool) (ft : fault)
    (filename : string) (id : string) (chunks : list VectorStore.Document) :
  snd (save_and_process st u rmtree_ok ft filename) = Ok (id, chunks) ->
  let s' := service_of (fst (save_and_process st u rmtree_ok ft filename)) in
  id = uuid4 u
  /\ (exists r,
        get_document_by_id s' id = Some r
        /\ DocumentService.filename r = filename
        /\ num_chunks r = List.length chunks)
  /\ (forall other, other <> id ->
        get_document_by_id s' other = get_document_by_id (service_of st) other)
  /\ (has_key id (metadata (service_of st)) = false ->
      fst (fst (get_stats s')) = S (fst (fst (get_stats (service_of st))))
      /\ snd (get_stats s')
         = (snd (get_stats (service_of st)) + List.length chunks)%nat).
Proof.
  intros H s'. subst s'. unfold save_and_process in *.
  destruct (written u) as [[]|y]; [|discriminate].
  destruct (process_document u (uuid4 u ++ "/" ++ filename)) as [cs|y];
    [|discriminate].
  cbn [snd fst] in *. injection H as <- <-.
  cbn [service_of]. unfold get_document_by_id, _save_metadata.
  cbn [metadata]. split; [reflexivity|]. split; [|split].
  - eexists. rewrite lookup_set_item, String.eqb_refl.
    split; [reflexivity|]. split; reflexivity.
  - intros other Ho. rewrite lookup_set_item.
    replace (String.eqb (uuid4 u) other) with false; [reflexivity|].
    symmetry. apply String.eqb_neq. congruence.
  - intros Hk. unfold get_stats. cbn [metadata fst snd].
    rewrite (set_item_fresh _ _ _ Hk), length_app, !map_app, !fold_right_app.
    simpl. split; [lia|].
    generalize (metadata (service_of st)). intros d.
    induction d as [|kv d IH]; simpl; lia.
Qed.

Lemma successful_upload_is_recorded_witness :
  exists r,
    get_document_by_id
      (service_of
         (fst (save_and_process
                 {| service_of := Examples.one_document; directories := ["doc-1"] |}
                 Uploads.upload_txt true NoFault "terms.txt"))) "doc-9" = Some r
    /\ num_chunks r = 2%nat.
Proof.
  destruct (successful_upload_is_recorded
              {| service_of := Examples.one_document; directories := ["doc-1"] |}
              Uploads.upload_txt true NoFault "terms.txt" "doc-9"
              (split_documents Uploads.upload_txt ["page one"; "page two"])
              eq_refl) as (_ & (r & A & _ & B) & _).
  exists r. split; [exact A|exact B].
Defined.

(** X22: what a restart finds after the metadata were saved: the
    dictionary the service held when the dump went through, the
    dictionary the file held before when the file could not be opened,
    and the empty dictionary, every document forgotten, when the dump
    failed part way. *)
Theorem metadata_after_restart (s : service) (ft : fault) :
  metadata (restart (_save_metadata s ft))
  = match ft with
    | FailWrite _ => []
    | FailOpen => metadata (restart s)
    | NoFault | FailReplace => metadata s
    end.
Proof.
  unfold restart, _save_metadata, _load_metadata, open_and_dump, put.
  destruct ft; simpl; rewrite ?String.eqb_refl; reflexivity.
Qed.

(** X23: [delete_document] answers [True] only for a known document;
    afterwards the document is not found any more, its directory is
    gone and the other documents are found as before.  For an unknown
    identifier, and when the directory cannot be removed, nothing
    changes. *)
Theorem delete_document_outcome
    (st : store) (rmtree_ok : bool) (ft : fault) (doc_id : string) :
  let out := DocumentStore.delete_document st rmtree_ok ft doc_id in
  (snd out = true ->
     get_document_by_id (service_of st) doc_id <> None
     /\ get_document_by_id (service_of (fst out)) doc_id = None
     /\ ~ In doc_id (directories (fst out))
     /\ forall other, other <> doc_id ->
          get_document_by_id (service_of (fst out)) other
          = get_document_by_id (service_of st) other)
  /\ (snd out = false -> fst out = st)
  /\ (get_document_by_id (service_of st) doc_id = None -> snd out = false).
Proof.
  cbv zeta. unfold DocumentStore.delete_document, get_document_by_id.
  rewrite has_key_lookup.
  destruct (lookup doc_id (metadata (service_of st))) as [r|] eqn:L.
  2:{ simpl. repeat split; auto; discriminate. }
  destruct (mem doc_id (directories st) && negb rmtree_ok).
  { simpl. repeat split; auto; discriminate. }
  cbn [fst snd service_of directories]. unfold _save_metadata. cbn [metadata].
  split; [|split; discriminate].
  intros _. split; [discriminate|]. split; [|split].
  - rewrite lookup_del_item. now rewrite String.eqb_refl.
  - rewrite filter_In, negb_true_iff. intros [_ H].
    now rewrite String.eqb_refl in H.
  - intros other Ho. rewrite lookup_del_item.
    replace (String.eqb doc_id other) with false; [reflexivity|].
    symmetry. apply String.eqb_neq. congruence.
Qed.

Lemma delete_document_outcome_witness :
  get_document_by_id
    (service_of
       (fst (DocumentStore.delete_document
               {| service_of := Examples.one_document; directories := ["doc-1"] |}
               true NoFault "doc-1"))) "doc-1" = None.
Proof.
  exact (proj1 (proj2 (proj1 (delete_document_outcome
           {| service_of := Examples.one_document; directories := ["doc-1"] |}
           true NoFault "doc-1") eq_refl))).
Defined.

End DocumentFacts.
Section LoaderFacts.
Import PyStr Files DocumentService DocumentStore.

Lemma lower_char_eqb (c x : ascii) :
  (nat_of_ascii c < 65)%nat ->
  Ascii.eqb (lower_char x) c = Ascii.eqb x c.
Proof.
  intros Hc. unfold lower_char.
  destruct ((65 <=? nat_of_ascii x)%nat && (nat_of_ascii x <=? 90)%nat) eqn:E;
    [|reflexivity].
  apply andb_true_iff in E. destruct E as [E1 E2].
  apply Nat.leb_le in E1, E2.
  transitivity false.
  - apply Ascii.eqb_neq. intros H. subst c.
    rewrite nat_ascii_embedding in Hc by lia. lia.
  - symmetry. apply Ascii.eqb_neq. intros H. subst c. lia.
Qed.

Lemma prefix_char_eqb (c d : ascii) (s : string) :
  prefix (String c "") (String d s) = Ascii.eqb d c.
Proof.
  rewrite prefix_char. destruct (ascii_dec c d) as [->|N].
  - now rewrite Ascii.eqb_refl.
  - symmetry. apply Ascii.eqb_neq. congruence.
Qed.

Lemma split_lower (c : ascii) (s : string) :
  (nat_of_ascii c < 65)%nat ->
  split (String c "") (lower s) = map lower (split (String c "") s).
Proof.
  intros Hc. unfold split. induction s as [|a s IH]; [reflexivity|].
  cbn [lower split_from]. rewrite !prefix_char_eqb, (lower_char_eqb c a Hc).
  destruct (Ascii.eqb a c).
  - cbn [String.length Nat.sub map]. now rewrite IH.
  - rewrite IH. destruct (split_from (String c "") 0 s); reflexivity.
Qed.

Lemma lower_idem (s : string) : lower (lower s) = lower s.
Proof.
  induction s as [|a s IH]; [reflexivity|]. cbn [lower]. rewrite IH. f_equal.
  unfold lower_char at 1.
  destruct ((65 <=? nat_of_ascii (lower_char a))%nat
            && (nat_of_ascii (lower_char a) <=? 90)%nat) eqn:E; [|reflexivity].
  exfalso. apply andb_true_iff in E. destruct E as [E1 E2].
  apply Nat.leb_le in E1, E2. unfold lower_char in E1, E2.
  destruct ((65 <=? nat_of_ascii a)%nat && (nat_of_ascii a <=? 90)%nat) eqn:F.
  - apply andb_true_iff in F. destruct F as [F1 F2].
    apply Nat.leb_le in F1, F2.
    rewrite nat_ascii_embedding in E2 by lia. lia.
  - apply andb_false_iff in F.
    destruct F as [F|F]; apply Nat.leb_gt in F; lia.
Qed.

Lemma length_lower (s : string) : String.length (lower s) = String.length s.
Proof. induction s as [|a s IH]; [reflexivity|]. cbn. now rewrite IH. Qed.

Lemma drop_lower (n : nat) (s : string) : drop n (lower s) = lower (drop n s).
Proof.
  revert s; induction n as [|n IH]; intros [|a s]; try reflexivity.
  cbn. apply IH.
Qed.

Lemma rfind_dot_lower (s : string) : rfind_dot (lower s) = rfind_dot s.
Proof.
  induction s as [|a s IH]; [reflexivity|]. cbn [lower rfind_dot].
  rewrite IH. destruct (rfind_dot s); [reflexivity|].
  rewrite (lower_char_eqb "." a); [reflexivity|]. cbn. lia.
Qed.

Lemma lower_eq_nil (s : string) : String.eqb (lower s) "" = String.eqb s "".
Proof. now destruct s. Qed.

Lemma lower_eq_char (c : ascii) (s : string) :
  (nat_of_ascii c < 65)%nat ->
  String.eqb (lower s) (String c "") = String.eqb s (String c "").
Proof.
  intros Hc. destruct s as [|a s]; [reflexivity|]. cbn [lower String.eqb].
  rewrite (lower_char_eqb c a Hc). destruct (Ascii.eqb a c); [|reflexivity].
  now destruct s.
Qed.

Lemma is_component_lower (p : string) :
  is_component (lower p) = is_component p.
Proof.
  unfold is_component. rewrite lower_eq_nil, (lower_eq_char "."); [reflexivity|].
  cbn. lia.
Qed.

Lemma filter_map_lower (l : list string) :
  filter is_component (map lower l) = map lower (filter is_component l).
Proof.
  induction l as [|p l IH]; [reflexivity|]. cbn [map filter].
  rewrite is_component_lower. destruct (is_component p); cbn [map]; now rewrite IH.
Qed.

Lemma last_map_lower (l : list string) :
  last_piece (map lower l) = lower (last_piece l).
Proof.
  unfold last_piece. induction l as [|p l IH]; [reflexivity|].
  destruct l as [|q l]; [reflexivity|]. exact IH.
Qed.

Lemma name_of_lower (p : string) : name_of (lower p) = lower (name_of p).
Proof.
  unfold name_of. rewrite (split_lower "/"), filter_map_lower, last_map_lower;
    [reflexivity|cbn; lia].
Qed.

Lemma suffix_lower (p : string) : suffix (lower p) = lower (suffix p).
Proof.
  unfold suffix. rewrite name_of_lower, rfind_dot_lower, length_lower.
  destruct (rfind_dot (name_of p)) as [i|]; [|reflexivity].
  destruct ((0 <? i)%nat && (i <? String.length (name_of p) - 1)%nat);
    [apply drop_lower|reflexivity].
Qed.

Lemma rfind_dot_none (s : string) :
  contains "." s = false -> rfind_dot s = None.
Proof.
  induction s as [|a s IH]; [reflexivity|]. intros H.
  apply contains_cons_false in H. destruct H as [H1 H2].
  cbn [rfind_dot]. rewrite (IH H2).
  rewrite prefix_char_eqb in H1. now rewrite H1.
Qed.

(** X24: the loader is chosen by the extension of the file name without
    regard to case, so a path and the same path in lower case get the
    same loader; a file whose name has no dot has no loader and
    [_get_loader] raises [ValueError]. *)
Theorem loader_ignores_case (file_path : string) :
  _get_loader (lower file_path) = _get_loader file_path
  /\ (contains "." (name_of file_path) = false ->
      _get_loader file_path = Raise (ValueError "Unsupported file type: ")).
Proof.
  split.
  - unfold _get_loader. now rewrite suffix_lower, lower_idem.
  - intros H. unfold _get_loader, suffix. now rewrite (rfind_dot_none _ H).
Qed.

Lemma loader_ignores_case_witness :
  _get_loader "doc-9/README" = Raise (ValueError "Unsupported file type: ").
Proof.
  exact (proj2 (loader_ignores_case "doc-9/README") eq_refl).
Defined.

End LoaderFacts.
Section ApiFacts.
Import PyStr Files EmbeddingService.

(** X25: the endpoint that deletes a document never answers 404.  For a
    document that is not known, and for one whose directory cannot be
    removed, it answers 500; the chunks of the identifier are removed
    from the index in every case, so that a document the endpoint
    failed to delete stays listed while a search finds none of its
    chunks. *)
Theorem delete_endpoint_never_404
    (a : Api.app) (rmtree_ok : bool) (ft : fault) (document_id : string) :
  let out := Api.delete_document a rmtree_ok ft document_id in
  Api.status (snd out) <> 404%nat
  /\ Api.collection (fst out)
     = VectorStore.delete_document_chunks (Api.collection a) document_id
  /\ (DocumentStore.get_document_by_id
        (DocumentStore.service_of (Api.document_service a)) document_id = None ->
      Api.status (snd out) = 500%nat)
  /\ (Api.status (snd out) = 500%nat ->
      Api.document_service (fst out) = Api.document_service a).
Proof.
  cbv zeta. unfold Api.delete_document, DocumentStore.delete_document,
    DocumentStore.get_document_by_id.
  rewrite has_key_lookup.
  destruct (DocumentStore.lookup document_id _) as [r|].
  - destruct (mem document_id _ && negb rmtree_ok); cbn.
    + repeat split; try discriminate.
    + repeat split; discriminate.
  - cbn. repeat split; discriminate.
Qed.

Lemma delete_endpoint_never_404_witness :
  Api.status
    (snd (Api.delete_document Uploads.app_one_document true NoFault "doc-7"))
  = 500%nat.
Proof.
  exact (proj1 (proj2 (proj2 (delete_endpoint_never_404
           Uploads.app_one_document true NoFault "doc-7")))
           eq_refl).
Defined.

Lemma upload_one_name (a : Api.app) (f : Api.file) :
  Api.reported_name (snd (Api.upload_one a f)) = Api.file_name f.
Proof.
  unfold Api.upload_one.
  destruct (DocumentStore.save_and_process _ _ _ _ _) as [st [[id chunks]|x]];
    [|reflexivity].
  destruct (VectorStore.embed_and_store _ _ _ _) as [[e index] [x|]]; reflexivity.
Qed.

Lemma upload_loop_names (files : list Api.file) :
  forall a results errors,
    let '(_, rs, es) := Api.upload_loop a files results errors in
    Permutation
      (map Api.up_filename rs ++ map Api.err_filename es)%list
      ((map Api.up_filename results ++ map Api.err_filename errors)
         ++ map Api.file_name files)%list.
Proof.
  induction files as [|f rest IH]; intros a results errors.
  - cbn. now rewrite app_nil_r.
  - cbn [Api.upload_loop map].
    pose proof (upload_one_name a f) as N.
    destruct (Api.upload_one a f) as [a' [u|e]]; cbn in N.
    + specialize (IH a' (List.app results [u]) errors).
      destruct (Api.upload_loop a' rest _ errors) as [[a2 rs] es].
      rewrite IH, map_app. cbn [map]. rewrite N.
      rewrite <- !app_assoc. apply Permutation_app_head.
      cbn [List.app]. rewrite (Permutation_middle _ _ (Api.file_name f)).
      reflexivity.
    + specialize (IH a' results (List.app errors [e])).
      destruct (Api.upload_loop a' rest results _) as [[a2 rs] es].
      rewrite IH, map_app. cbn [map]. rewrite N.
      rewrite <- !app_assoc. reflexivity.
Qed.

(** X26: every file of an upload request is reported exactly once, as
    uploaded or as an error: the file names of the two lists of the
    reply are those of the request, and the two totals add up to the
    number of files. *)
Theorem upload_reports_every_file (a : Api.app) (files : list Api.file) :
  let report := snd (Api.upload_documents a files) in
  Permutation
    (map Api.up_filename (Api.report_uploaded report)
       ++ map Api.err_filename (Api.report_errors report))%list
    (map Api.file_name files)
  /\ (Api.total_success report + Api.total_failed report
      = List.length files)%nat.
Proof.
  cbv zeta. unfold Api.upload_documents.
  pose proof (upload_loop_names files a [] []) as H.
  destruct (Api.upload_loop a files [] []) as [[a' rs] es].
  cbn in *. split; [exact H|].
  apply Permutation_length in H. rewrite length_app, !length_map in H. exact H.
Qed.

(** X27: when a file is saved and split but the embedding of one of its
    chunks fails, the upload endpoint reports the file as an error and
    the index gets none of its chunks, yet the document stays recorded:
    [get_document_by_id] finds it with the number of chunks that were
    never stored. *)
Theorem failed_embedding_leaves_document_listed
    (a : Api.app) (f : Api.file) (id : string)
    (chunks : list VectorStore.Document) (x : exn) :
  snd (DocumentStore.save_and_process (Api.document_service a) (Api.outside f)
         (Api.rmtree_ok f) (Api.save_fault f) (Api.file_name f))
  = Ok (id, chunks) ->
  snd (VectorStore.embed_and_store (Api.embedding_service a) (Api.collection a)
         (combine chunks
            (map (Api.embedding_world f) (seq 0 (List.length chunks)))) id)
  = Some x ->
  let out := Api.upload_one a f in
  snd out = inr {| Api.err_filename := Api.file_name f; Api.err_error := x |}
  /\ Api.collection (fst out) = Api.collection a
  /\ exists r,
       DocumentStore.get_document_by_id
         (DocumentStore.service_of (Api.document_service (fst out))) id = Some r
       /\ DocumentService.num_chunks r = List.length chunks.
Proof.
  intros Hs He. cbv zeta. unfold Api.upload_one.
  destruct (DocumentStore.save_and_process _ _ _ _ _) as [st r] eqn:S.
  cbn [snd] in Hs. subst r.
  unfold VectorStore.embed_and_store in *.
  destruct (VectorStore.embed_chunks _ _ _ _) as [e' [entries|y]];
    cbn [snd] in He; [discriminate|]. injection He as ->.
  cbn [fst snd Api.collection Api.document_service].
  split; [reflexivity|]. split; [reflexivity|].
  unfold DocumentStore.save_and_process in S.
  destruct (DocumentStore.written _) as [[]|y]; [|discriminate].
  destruct (DocumentStore.process_document _ _) as [cs|y]; [|discriminate].
  injection S as <- <- <-. cbn [DocumentStore.service_of].
  unfold DocumentStore.get_document_by_id, DocumentService._save_metadata.
  cbn [DocumentService.metadata].
  eexists. rewrite lookup_set_item, String.eqb_refl. split; reflexivity.
Qed.

Lemma failed_embedding_leaves_document_listed_witness :
  exists r,
    DocumentStore.get_document_by_id
      (DocumentStore.service_of
         (Api.document_service
            (fst (Api.upload_one Uploads.app_one_document Uploads.file_txt))))
      "doc-9" = Some r
    /\ DocumentService.num_chunks r = 2%nat.
Proof.
  exact (proj2 (proj2 (failed_embedding_leaves_document_listed
           Uploads.app_one_document Uploads.file_txt "doc-9"
           (DocumentStore.split_documents Uploads.upload_txt ["page one"; "page two"])
           EmbeddingError eq_refl eq_refl))).
Defined.

(** X28: the feedback endpoint never answers 400 to a request whose
    rating passed the constraint of [FeedbackRequest]: it answers 200
    and the history gains one entry with the rating, or it answers 500
    and the history is as before. *)
Theorem feedback_endpoint_never_400
    (a : Api.app) (now : string) (ft : fault) (feedback : Api.FeedbackRequest) :
  Api.accepted feedback = true ->
  let out := Api.submit_feedback a now ft feedback in
  let before := FeedbackService.feedback_data (Api.feedback_service a) in
  let after := FeedbackService.feedback_data (Api.feedback_service (fst out)) in
  (Api.status (snd out) = 200%nat
   /\ exists e, after = (before ++ [e])%list
                /\ FeedbackService.rating e = Api.req_rating feedback
                /\ FeedbackService.query_id e = Api.req_query_id feedback)
  \/ (Api.status (snd out) = 500%nat /\ after = before).
Proof.
  intros Hacc. cbv zeta. unfold Api.submit_feedback.
  pose proof (store_feedback_accepts (Api.feedback_service a) now ft
                (Api.req_query_id feedback) (Api.req_rating feedback)
                (Api.req_feedback_text feedback) (Api.req_query feedback)
                (Api.req_answer feedback) (Api.req_confidence feedback) Hacc) as H.
  cbv zeta in H.
  destruct (FeedbackService.store_feedback _ _ _ _ _ _ _ _ _) as [s r].
  cbn [fst snd] in H. destruct H as [[-> D]|[-> D]]; cbn.
  - left. split; [reflexivity|]. eexists. split; [exact D|]. split; reflexivity.
  - right. split; [reflexivity|exact D].
Qed.

Lemma feedback_endpoint_never_400_witness :
  Api.status
    (snd (Api.submit_feedback Uploads.app_one_document "2025-01-02T10:00:00"
            (FailWrite 3) Uploads.five_stars)) = 500%nat.
Proof.
  destruct (feedback_endpoint_never_400 Uploads.app_one_document
              "2025-01-02T10:00:00" (FailWrite 3) Uploads.five_stars eq_refl)
    as [[H _]|[H _]]; [discriminate H|exact H].
Defined.

End ApiFacts.
